(** * p1-lib: framing and session layer of a P1 / IEC 62056-21 meter reader

    A shallow embedding of [src/p1-lib.c] and the properties of its
    functions [crc_telegram], [read_telegram], [telegram_parser_open],
    [telegram_parser_close], [telegram_parser_read],
    [telegram_parser_open_d0] and [telegram_parser_read_d0].

    Conventions of the embedding:
    - [uint8_t], [char], [int], [speed_t] values are integers in [Z];
      [size_t] and [unsigned long] are 64 bits wide and [unsigned int]
      32 bits wide, their wrap-around written with [wrap64] / [wrap32];
    - the telegram buffer is flat memory indexed from the buffer's first
      byte, so a store behind the last byte of the buffer is visible as
      such (it is recorded in [written]);
    - the serial device is a [port]: the results of the [read] and [write]
      calls still to come, the attributes in force, and the log of what the
      program did to it. *)

From Stdlib Require Import ZArith List Bool Lia Ascii String.
Import ListNotations.
Local Open Scope Z_scope.

(** ** Integers and characters *)

Definition wrap64 (z : Z) : Z := z mod 2 ^ 64.
Definition wrap32 (z : Z) : Z := z mod 2 ^ 32.

(** The value of a C character constant. *)
Definition ch (c : ascii) : Z := Z.of_N (N_of_ascii c).

Definition CR : Z := 13.   (* '\r' *)
Definition LF : Z := 10.   (* '\n' *)
Definition NUL : Z := 0.   (* '\0' *)
Definition BACKSLASH : Z := 92.

(** ** The telegram buffer *)

(** Memory starting at the buffer's address.  [cell] gives the byte at an
    index; [written] lists, in program order, the indexes stored to. *)
Record mem := mkmem { cell : Z -> Z; written : list Z }.

Definition store (m : mem) (i b : Z) : mem :=
  {| cell := fun j => if j =? i then b else cell m j;
     written := written m ++ [i] |}.

(** The bytes [data[0 .. n)]. *)
Definition bytes_of (data : Z -> Z) (n : Z) : list Z :=
  map (fun i => data (Z.of_nat i)) (seq 0 (Z.to_nat n)).

(** ** The serial device *)

(** <termios.h> baud rate codes (Linux values). *)
Definition B300 : Z := 7.
Definition B600 : Z := 8.
Definition B1200 : Z := 9.
Definition B2400 : Z := 11.
Definition B4800 : Z := 12.
Definition B9600 : Z := 13.
Definition B19200 : Z := 14.
Definition B115200 : Z := 4098.

(** The part of [struct termios] the program sets: the two baud rates, the
    character size (7 or 8), the parity enable bit and the two control
    characters VTIME and VMIN.  The flags the program leaves at zero are
    not represented. *)
Record termios := mktermios {
  c_ispeed : Z;
  c_ospeed : Z;
  c_csize : Z;
  c_parenb : bool;
  c_vtime : Z;
  c_vmin : Z
}.

Definition cfgetispeed (t : termios) : Z := c_ispeed t.

Definition cfsetispeed (t : termios) (s : Z) : termios :=
  {| c_ispeed := s; c_ospeed := c_ospeed t; c_csize := c_csize t;
     c_parenb := c_parenb t; c_vtime := c_vtime t; c_vmin := c_vmin t |}.

Definition cfsetspeed (t : termios) (s : Z) : termios :=
  {| c_ispeed := s; c_ospeed := s; c_csize := c_csize t;
     c_parenb := c_parenb t; c_vtime := c_vtime t; c_vmin := c_vmin t |}.

(** [t.c_cflag = speed | CSn | [PARENB] | CLOCAL | CREAD]: the assignment
    replaces rate, size and parity and leaves the control characters. *)
Definition set_cflag (t : termios) (speed csize : Z) (parenb : bool) : termios :=
  {| c_ispeed := speed; c_ospeed := speed; c_csize := csize;
     c_parenb := parenb; c_vtime := c_vtime t; c_vmin := c_vmin t |}.

(** What one [read(fd, p, 1)] call finds: a byte, nothing (timeout or end of
    file, result 0) or an error (result -1). *)
Inductive rres := RByte (b : Z) | RNone | RErr.

(** What the program did to the device, besides reading. *)
Inductive op :=
| OWrite (data : list Z) (ret : Z)
| ODrain
| OSleep (usec : Z)
| OFlush
| OSetattr (t : termios).

Record port := mkport {
  is_tty : bool;          (* tcgetattr / tcsetattr succeed on it *)
  rd : list rres;         (* results of the reads to come; then 0 for ever *)
  wr : list Z;            (* results of the writes to come; then full count *)
  tio : termios;          (* attributes in force *)
  log : list op           (* operations so far, oldest first *)
}.

Definition set_rd (p : port) (r : list rres) : port :=
  {| is_tty := is_tty p; rd := r; wr := wr p; tio := tio p; log := log p |}.

Definition add_log (p : port) (o : op) : port :=
  {| is_tty := is_tty p; rd := rd p; wr := wr p; tio := tio p;
     log := log p ++ [o] |}.

(** [read(fd, &byte, 1)]: the result and the value of [byte] afterwards. *)
Definition sys_read_byte (p : port) (byte : Z) : Z * Z * port :=
  match rd p with
  | [] => (0, byte, p)
  | RByte b :: r => (1, b, set_rd p r)
  | RNone :: r => (0, byte, set_rd p r)
  | RErr :: r => (-1, byte, set_rd p r)
  end.

(** [read(fd, buf + i, 1)]. *)
Definition sys_read (p : port) (m : mem) (i : Z) : Z * mem * port :=
  match rd p with
  | [] => (0, m, p)
  | RByte b :: r => (1, store m i b, set_rd p r)
  | RNone :: r => (0, m, set_rd p r)
  | RErr :: r => (-1, m, set_rd p r)
  end.

(** [write(fd, data, strlen data)]. *)
Definition sys_write (p : port) (data : list Z) : Z * port :=
  match wr p with
  | [] =>
      let n := Z.of_nat (List.length data) in
      (n, add_log p (OWrite data n))
  | r :: w =>
      (r, {| is_tty := is_tty p; rd := rd p; wr := w; tio := tio p;
             log := log p ++ [OWrite data r] |})
  end.

Definition tcdrain (p : port) : port := add_log p ODrain.
Definition usleep (p : port) (usec : Z) : port := add_log p (OSleep usec).
Definition tcflush (p : port) : port := add_log p OFlush.

(** [tcsetattr(fd, TCSANOW, &t)]: fails, changing nothing, on a bad
    descriptor or on a device that is no terminal. *)
Definition tcsetattr (fd : Z) (p : port) (t : termios) : port :=
  if (0 <=? fd) && is_tty p then
    {| is_tty := is_tty p; rd := rd p; wr := wr p; tio := t;
       log := log p ++ [OSetattr t] |}
  else p.

(** ** Loops *)

(** A do-while loop: [iter] runs the body and the test once and either
    leaves the loop with a value or hands over the next state. *)
Fixpoint do_while {S R : Type} (iter : S -> R + S) (fuel : nat) (s : S)
  : option R :=
  match fuel with
  | O => None
  | Datatypes.S f =>
      match iter s with
      | inl r => Some r
      | inr s' => do_while iter f s'
      end
  end.

(** ** CRC *)

(** Modelled from the spec: [crc16] is declared in crc16.h, which is not
    part of the sources.  CRC-16/ARC: reflected polynomial 0xA001, initial
    value 0x0000, no final XOR. *)
Definition crc16_bit (crc : Z) : Z :=
  if Z.testbit crc 0 then Z.lxor (Z.shiftr crc 1) 0xA001 else Z.shiftr crc 1.

Definition crc16_byte (crc b : Z) : Z :=
  let c := Z.lxor crc b in
  crc16_bit (crc16_bit (crc16_bit (crc16_bit
    (crc16_bit (crc16_bit (crc16_bit (crc16_bit c))))))).

Definition crc16 (data : Z -> Z) (length : Z) : Z :=
  fold_left crc16_byte (bytes_of data length) 0 mod 2 ^ 16.

Definition crc_telegram (data : Z -> Z) (length : Z) : Z :=
  if data (wrap32 (length - 3)) =? ch "!" then
    (* Old-style telegrams end with "!\r\n" and do not contain a CRC *)
    0
  else if data (wrap32 (length - 7)) =? ch "!" then
    (* CRC16 from start of telegram until '!' (inclusive) *)
    crc16 data (wrap32 (length - 6))
  else
    (* Invalid telegram *)
    0.

(** ** The P1 framer *)

(** The variables of [read_telegram] that live across iterations. *)
Record rt_state := mkrt {
  rt_telegram : bool;
  rt_offset : Z;
  rt_failed : Z;
  rt_buf : mem;
  rt_port : port
}.

(** The test of the do-while loop. *)
Definition rt_again (maxfailbytes len : Z) (s : rt_state)
  : (Z * mem * port) + rt_state :=
  if (len >? 0) && ((maxfailbytes =? 0) || (rt_failed s <? maxfailbytes))
  then inr s
  else inl (0, rt_buf s, rt_port s).

(** One pass through the loop body and the test. *)
Definition read_telegram_iter (bufsize maxfailbytes : Z) (s : rt_state)
  : (Z * mem * port) + rt_state :=
  let telegram := rt_telegram s in
  let offset := rt_offset s in
  let failed := rt_failed s in
  let buf := rt_buf s in
  let '(len, byte, p) := sys_read_byte (rt_port s) 0 in
  if len >? 0 then
    if negb telegram && (byte =? ch "/") then
      (* Possible start of telegram *)
      rt_again maxfailbytes len
        (mkrt true (wrap64 (offset + 1)) failed (store buf offset byte) p)
    else if telegram && (offset <? bufsize) then
      (* Possible telegram content *)
      let buf := store buf offset byte in
      let offset := wrap64 (offset + 1) in
      if byte =? ch "!" then
        (* Possible end of telegram: either cr + lf or CRC value *)
        let '(l1, buf, p) := sys_read p buf offset in
        let '(l2, buf, p) := sys_read p buf (offset + 1) in
        let len := l1 + l2 in
        if len =? 2 then
          if cell buf offset =? CR then
            (* Old-style telegram without CRC *)
            inl (wrap64 (offset + len), buf, p)
          else
            (* Possible start of CRC, try reading 4 more bytes *)
            let offset := wrap64 (offset + len) in
            let '(l1, buf, p) := sys_read p buf offset in
            let '(l2, buf, p) := sys_read p buf (offset + 1) in
            let '(l3, buf, p) := sys_read p buf (offset + 2) in
            let '(l4, buf, p) := sys_read p buf (offset + 3) in
            let len := l1 + l2 + l3 + l4 in
            if (len =? 4) && (cell buf (offset + 2) =? CR) then
              (* New style telegram with CRC *)
              inl (wrap64 (offset + len), buf, p)
            else
              (* no valid telegram, try again *)
              rt_again maxfailbytes len
                (mkrt false 0 (wrap64 (failed + wrap64 (offset + len))) buf p)
        else
          rt_again maxfailbytes len
            (mkrt false 0 (wrap64 (failed + wrap64 (offset + len))) buf p)
      else
        rt_again maxfailbytes len (mkrt telegram offset failed buf p)
    else if offset >=? bufsize then
      (* Buffer overflow before telegram end, restart search *)
      rt_again maxfailbytes len (mkrt false 0 (wrap64 (failed + offset)) buf p)
    else
      rt_again maxfailbytes len (mkrt telegram offset failed buf p)
  else
    rt_again maxfailbytes len (mkrt telegram offset failed buf p).

(** [read_telegram(fd, buf, bufsize, maxfailbytes)]: the length returned,
    the buffer and the device afterwards.  Every pass that stays in the loop
    has taken a result off [rd], so one more pass than [rd] is long is
    enough (see [read_telegram_returns]). *)
Definition read_telegram (p : port) (buf : mem) (bufsize maxfailbytes : Z)
  : option (Z * mem * port) :=
  do_while (read_telegram_iter bufsize maxfailbytes)
           (S (List.length (rd p)))
           (mkrt false 0 0 buf p).

(** ** The session *)

(** The parser object of the telegram grammar.  The source uses its fields
    [crc16] and [parse_errors]; everything else the grammar keeps in it is
    [parser_rest]. *)
Record parser (D : Type) := mkparser {
  parser_crc16 : Z;
  parse_errors : Z;
  parser_rest : D
}.
Arguments mkparser {D}.
Arguments parser_crc16 {D}.
Arguments parse_errors {D}.
Arguments parser_rest {D}.

(** What p1-lib.c takes from headers that are not part of the sources: the
    functions of the telegram grammar ([parser_init], [parser_execute],
    which is given the bytes [buffer[0 .. len)], and [parser_finish], which
    reports 1 if the final state was reached, -1 on error and 0 otherwise)
    and the two defaults [READ_TIMEOUT] and [PARSER_BUFLEN]. *)
Class Headers := {
  parser_data : Type;
  parser_init : parser parser_data -> parser parser_data;
  parser_execute : parser parser_data -> list Z -> parser parser_data;
  parser_finish : parser parser_data -> Z * parser parser_data;
  READ_TIMEOUT : Z;
  PARSER_BUFLEN : Z
}.

Section Session.
Context {H : Headers}.

(** [telegram_parser].  [buffer] is [None] for a NULL pointer; [dumpfile]
    is [None] for NULL and otherwise holds what was appended to the file. *)
Record telegram_parser := mksession {
  tp_parser : parser parser_data;
  status : Z;
  buffer : option mem;
  bufsize : Z;
  len : Z;
  fd : Z;
  terminal : Z;
  timeout : Z;
  oldtio : termios;
  newtio : termios;
  dumpfile : option (list Z);
  mode : Z
}.

Definition set_parser (o : telegram_parser) (x : parser parser_data) :=
  mksession x (status o) (buffer o) (bufsize o) (len o) (fd o) (terminal o)
            (timeout o) (oldtio o) (newtio o) (dumpfile o) (mode o).
Definition set_status (o : telegram_parser) (x : Z) :=
  mksession (tp_parser o) x (buffer o) (bufsize o) (len o) (fd o) (terminal o)
            (timeout o) (oldtio o) (newtio o) (dumpfile o) (mode o).
Definition set_buffer (o : telegram_parser) (x : option mem) :=
  mksession (tp_parser o) (status o) x (bufsize o) (len o) (fd o) (terminal o)
            (timeout o) (oldtio o) (newtio o) (dumpfile o) (mode o).
Definition set_bufsize (o : telegram_parser) (x : Z) :=
  mksession (tp_parser o) (status o) (buffer o) x (len o) (fd o) (terminal o)
            (timeout o) (oldtio o) (newtio o) (dumpfile o) (mode o).
Definition set_len (o : telegram_parser) (x : Z) :=
  mksession (tp_parser o) (status o) (buffer o) (bufsize o) x (fd o) (terminal o)
            (timeout o) (oldtio o) (newtio o) (dumpfile o) (mode o).
Definition set_fd (o : telegram_parser) (x : Z) :=
  mksession (tp_parser o) (status o) (buffer o) (bufsize o) (len o) x (terminal o)
            (timeout o) (oldtio o) (newtio o) (dumpfile o) (mode o).
Definition set_terminal (o : telegram_parser) (x : Z) :=
  mksession (tp_parser o) (status o) (buffer o) (bufsize o) (len o) (fd o) x
            (timeout o) (oldtio o) (newtio o) (dumpfile o) (mode o).
Definition set_oldtio (o : telegram_parser) (x : termios) :=
  mksession (tp_parser o) (status o) (buffer o) (bufsize o) (len o) (fd o)
            (terminal o) (timeout o) x (newtio o) (dumpfile o) (mode o).
Definition set_newtio (o : telegram_parser) (x : termios) :=
  mksession (tp_parser o) (status o) (buffer o) (bufsize o) (len o) (fd o)
            (terminal o) (timeout o) (oldtio o) x (dumpfile o) (mode o).
Definition set_dumpfile (o : telegram_parser) (x : option (list Z)) :=
  mksession (tp_parser o) (status o) (buffer o) (bufsize o) (len o) (fd o)
            (terminal o) (timeout o) (oldtio o) (newtio o) x (mode o).
Definition set_mode (o : telegram_parser) (x : Z) :=
  mksession (tp_parser o) (status o) (buffer o) (bufsize o) (len o) (fd o)
            (terminal o) (timeout o) (oldtio o) (newtio o) (dumpfile o) x.

(** [obj->parser.crc16 = v]. *)
Definition set_crc16 (o : telegram_parser) (v : Z) : telegram_parser :=
  set_parser o (mkparser v (parse_errors (tp_parser o))
                         (parser_rest (tp_parser o))).

(** What the system answers during [telegram_parser_open]: the result of
    [open], of [fopen] (the present content of the dump file, or [None]
    for NULL) and of [malloc] (the content of the fresh block, or [None]
    for NULL). *)
Record open_env := mkenv {
  open_ret : Z;
  fopen_ret : option (list Z);
  malloc_ret : option (Z -> Z)
}.

(** The grammar is run over the buffer; with parse errors the telegram is
    appended to the dump file. *)
Definition run_parser (o : telegram_parser) (m : mem) : telegram_parser :=
  let ps := parser_init (tp_parser o) in
  let ps := parser_execute ps (bytes_of (cell m) (len o)) in
  let '(st, ps) := parser_finish ps in
  set_status (set_parser o ps) st.

Definition dump_on_errors (o : telegram_parser) (m : mem) : telegram_parser :=
  if parse_errors (tp_parser o) =? 0 then o
  else
    match dumpfile o with
    | Some d => set_dumpfile o (Some (d ++ bytes_of (cell m) (len o)))
    | None => o
    end.

Definition telegram_parser_open (e : open_env) (obj : option telegram_parser)
    (infile : option string) (bufsize0 timeout0 : Z)
    (dumpname : option string) (p : port)
  : Z * option telegram_parser * port :=
  match obj with
  | None => (-1, None, p)
  | Some o =>
      let timeout0 := if timeout0 <=? 0 then READ_TIMEOUT else timeout0 in
      let o := mksession (parser_init (tp_parser o)) 0 None 0 0 (-1) 0 timeout0
                         (oldtio o) (newtio o) (dumpfile o) (mode o) in
      let opened :=
        match infile with
        | None => inr (o, p)
        | Some _ =>
            let o := set_fd o (open_ret e) in
            if fd o <? 0 then inl (-2, Some o, p)
            else if is_tty p then
              (* tcgetattr succeeded: a serial terminal *)
              let o := set_terminal (set_oldtio o (tio p)) 1 in
              let o := set_newtio o
                (mktermios B115200 B115200 8 false ((timeout0 * 10) mod 256) 0) in
              let p := tcflush p in
              let p := tcsetattr (fd o) p (newtio o) in
              inr (o, p)
            else inr (o, p)
        end in
      match opened with
      | inl r => r
      | inr (o, p) =>
          let dumped :=
            match dumpname with
            | Some _ =>
                match fopen_ret e with
                | Some d => inr (set_dumpfile o (Some d))
                | None => inl (-3, Some (set_dumpfile o None), p)
                end
            | None => inr (set_dumpfile o None)
            end in
          match dumped with
          | inl r => r
          | inr o =>
              let bufsize0 := if bufsize0 =? 0 then PARSER_BUFLEN else bufsize0 in
              match malloc_ret e with
              | Some c =>
                  let o := set_bufsize (set_buffer o (Some (mkmem c []))) bufsize0 in
                  (0, Some (set_mode o (ch "P")), p)
              | None => (-4, Some o, p)
              end
          end
      end
  end.

Definition telegram_parser_read (obj : option telegram_parser) (p : port)
  : option (Z * option telegram_parser * port) :=
  match obj with
  | None => Some (-1, None, p)
  | Some o =>
      match buffer o with
      | None => Some (-2, obj, p)
      | Some m =>
          if bufsize o =? 0 then Some (-2, obj, p)
          else if fd o <=? 0 then Some (-3, obj, p)
          else
            let o := set_crc16 o 0 in
            match read_telegram p m (bufsize o) (bufsize o) with
            | None => None
            | Some (n, m, p) =>
                let o := set_len (set_buffer o (Some m)) n in
                let '(crc, o) :=
                  if len o =? 0 then (0, o)
                  else
                    let o := run_parser o m in
                    let crc :=
                      if status o =? 1
                      then crc_telegram (cell m) (wrap32 (len o)) else 0 in
                    (crc, dump_on_errors o m) in
                let '(o, p) :=
                  if negb (terminal o =? 0) && (len o =? 0) && (mode o =? ch "P")
                  then
                    (* Try a different baud rate *)
                    let baudrate := cfgetispeed (newtio o) in
                    let o :=
                      if baudrate =? B115200
                      then set_newtio o (cfsetispeed (newtio o) B9600)
                      else set_newtio o (cfsetispeed (newtio o) B115200) in
                    let p := tcflush p in
                    (o, tcsetattr (fd o) p (newtio o))
                  else (o, p) in
                if negb (parser_crc16 (tp_parser o) =? 0)
                   && negb (parser_crc16 (tp_parser o) =? crc)
                then Some (-4, Some o, p)
                else Some (0, Some o, p)
            end
      end
  end.

Definition telegram_parser_open_d0 (e : open_env) (obj : option telegram_parser)
    (infile : option string) (bufsize0 timeout0 : Z)
    (dumpname : option string) (p : port)
  : Z * option telegram_parser * port :=
  match obj with
  | None => (-1, None, p)
  | Some _ =>
      let '(result, obj, p) :=
        telegram_parser_open e obj infile bufsize0 timeout0 dumpname p in
      if result <? 0 then (result, obj, p)
      else
        match obj with
        | None => (result, obj, p)
        | Some o =>
            (* 300 baud, 7-bit characters, even parity *)
            let o := set_newtio o (set_cflag (newtio o) B300 7 true) in
            let p := tcsetattr (fd o) p (newtio o) in
            (0, Some (set_mode o 0), p)
        end
  end.

(** *** The D0 (IEC 62056-21) read *)

Definition signonseq : list Z := [ch "/"; ch "?"; ch "!"; CR; LF].
Definition signoffseq : list Z := [6; 1; ch "B"; ch "0"; 3; ch "q"].
Definition ackseq (id : Z) : list Z := [6; ch "0"; id; ch "0"; CR; LF].

(** The wake-up [for] loop: up to [count] NUL bytes, given up at the first
    write that fails. *)
Fixpoint d0_wakeup (count : nat) (p : port) : port :=
  match count with
  | O => p
  | S k =>
      let '(r, p) := sys_write p [NUL] in
      if r <? 0 then p else d0_wakeup k p
  end.

(** Wake-up and sign-on.  The result of [write] is compared with a [size_t],
    hence as an unsigned number.  [false]: the sign-on was not sent. *)
Definition d0_request (p : port) : bool * port :=
  let p := d0_wakeup 65 p in
  let p := tcdrain p in
  let p := usleep p 2700000 in
  let '(r, p) := sys_write p signonseq in
  if wrap64 r <? Z.of_nat (List.length signonseq) then (false, p)
  else (true, tcdrain p).

(** One pass of the loop that reads the meter identification string. *)
Definition d0_id_iter (bufsize : Z) (s : Z * mem * port)
  : (Z * mem * port) + (Z * mem * port) :=
  let '(idx, m, p) := s in
  let idx := wrap64 (idx + 1) in
  let '(n, m, p) := sys_read p m idx in
  if (idx <? bufsize) && (n =? 1) && negb (cell m idx =? LF)
  then inr (idx, m, p)
  else inl (idx, m, p).

(** The [switch] on the baud rate and mode identifier: the mode (0 when it
    is still open) and the baud rate. *)
Definition d0_switch (id : Z) : Z * Z :=
  if id =? ch "A" then (ch "B", B300)
  else if id =? ch "0" then (0, B300)
  else if id =? ch "B" then (ch "B", B600)
  else if id =? ch "1" then (0, B600)
  else if id =? ch "C" then (ch "B", B1200)
  else if id =? ch "2" then (0, B1200)
  else if id =? ch "D" then (ch "B", B2400)
  else if id =? ch "3" then (0, B2400)
  else if id =? ch "E" then (ch "B", B4800)
  else if id =? ch "4" then (0, B4800)
  else if id =? ch "F" then (ch "B", B9600)
  else if id =? ch "5" then (0, B9600)
  else if id =? ch "G" then (ch "B", B19200)
  else if id =? ch "6" then (0, B19200)
  else if (id >=? 0x20) && negb (id =? ch "/") && negb (id =? ch "!")
          && (id <=? 0x7e)
  then (ch "A", B300)
  else (0, B300).

(** How the loop over the telegram body ends. *)
Inductive d0_exit := D0Break | D0Abort | D0Done.

(** One pass of the loop that reads the telegram body. *)
Definition d0_body_iter (bufsize : Z) (s : Z * mem * port)
  : (d0_exit * Z * mem * port) + (Z * mem * port) :=
  let '(idx, m, p) := s in
  let '(n, m, p) := sys_read p m idx in
  let again (idx : Z) :=
    if (n >? 0) && (idx <? bufsize) then inr (idx, m, p)
    else inl (D0Done, idx, m, p) in
  if n <? 0 then again idx
  else if n =? 0 then again idx
  else if cell m idx =? ch "!" then inl (D0Break, idx, m, p)
  else if (cell m idx <? 0x20) || (cell m idx <? 0x7e)
  then inl (D0Abort, idx, m, p)
  else again (wrap64 (idx + 1)).

(** The handshake of [telegram_parser_read_d0] (the body of its first
    [if]) in two parts; [inl] is a [return] with its code, [inr] goes on to
    the telegram body with [idx].  First what follows the loop that reads
    the identification string, which ended at [idx]. *)
Definition d0_classify (o : telegram_parser) (idx : Z) (m : mem) (p : port)
  : (Z * telegram_parser * mem * port) + (Z * telegram_parser * mem * port) :=
  let m := if idx <? wrap64 (bufsize o - 1)
           then store m (idx + 1) NUL else m in
  let o := set_mode o 0 in
  if (cell m idx =? LF) && (cell m (idx - 1) =? CR) then
    let '(md, baudrate) := d0_switch (cell m 4) in
    let o := set_mode o md in
    let acked :=
      if mode o =? 0 then
        (* mode C or E (or D): send an ACK to get data *)
        if cell m 5 =? BACKSLASH then
          let o := set_mode o (ch "E") in
          if cell m 6 =? ch "2" then inl (-8, o, m, p)
          else
            let '(_, p) := sys_write p (ackseq (cell m 4)) in
            inr (o, tcdrain p)
        else
          let o := set_mode o (ch "C") in
          let '(_, p) := sys_write p (ackseq (cell m 4)) in
          inr (o, tcdrain p)
      else inr (o, p) in
    match acked with
    | inl r => inl r
    | inr (o, p) =>
        if negb (mode o =? ch "A") then
          (* Change baud rate *)
          let o := set_newtio o (cfsetspeed (newtio o) baudrate) in
          inr (idx, o, m, tcsetattr (fd o) p (newtio o))
        else inr (idx, o, m, p)
    end
  else
    let m := if idx <? wrap64 (bufsize o - 1)
             then store m (idx + 1) NUL else store m idx NUL in
    inl (-6, o, m, p).

(** Wake-up, sign-on and the reading of the identification string. *)
Definition d0_handshake (o : telegram_parser) (m : mem) (p : port)
  : option ((Z * telegram_parser * mem * port)
            + (Z * telegram_parser * mem * port)) :=
  let '(sent, p) := d0_request p in
  if negb sent then Some (inl (-3, o, m, p))
  else
    (* first character of the meter identification string *)
    let '(n, m, p) := sys_read p m 0 in
    if n <? 0 then Some (inl (-4, o, m, p))
    else if (n =? 0) || negb (cell m 0 =? ch "/") then Some (inl (-5, o, m, p))
    else
      match do_while (d0_id_iter (bufsize o)) (S (List.length (rd p))) (0, m, p)
      with
      | None => None
      | Some (idx, m, p) => Some (d0_classify o idx m p)
      end.

(** The rest of [telegram_parser_read_d0], from [idx += 1] on. *)
Definition d0_telegram (idx : Z) (o : telegram_parser) (m : mem) (p : port)
  : option (Z * option telegram_parser * port) :=
  let idx := wrap64 (idx + 1) in
  if idx >=? wrap64 (bufsize o - 1)
  then Some (-7, Some (set_buffer o (Some m)), p)
  else
    match do_while (d0_body_iter (bufsize o)) (S (List.length (rd p))) (idx, m, p)
    with
    | None => None
    | Some (D0Abort, idx, m, p) => Some (-9, Some (set_buffer o (Some m)), p)
    | Some (e, idx, m, p) =>
        let telegram := match e with D0Break => true | _ => false end in
        let p :=
          if telegram && negb (terminal o =? 0) && negb (mode o =? ch "P")
          then let '(_, p) := sys_write p signoffseq in tcdrain p
          else p in
        let o := set_len (set_buffer o (Some m)) idx in
        let o := dump_on_errors (run_parser o m) m in
        Some (0, Some o, p)
    end.

(** [telegram_parser_read_d0].  The source uses the buffer without looking
    at the pointer; on a session whose [buffer] is NULL its behaviour is
    undefined and the model gives no result. *)
Definition telegram_parser_read_d0 (obj : option telegram_parser) (p : port)
  : option (Z * option telegram_parser * port) :=
  match obj with
  | None => Some (-1, None, p)
  | Some o =>
      if fd o <=? 0 then Some (-2, obj, p)
      else
        match buffer o with
        | None => None
        | Some m =>
            if negb (terminal o =? 0) && negb (mode o =? ch "P") then
              match d0_handshake o m p with
              | None => None
              | Some (inl (code, o, m, p)) =>
                  Some (code, Some (set_buffer o (Some m)), p)
              | Some (inr (idx, o, m, p)) => d0_telegram idx o m p
              end
            else d0_telegram 0 o m p
        end
  end.

End Session.

(** ** Notions of the statements, and inputs for the examples *)

Definition chars (s : string) : list Z := map ch (list_ascii_of_string s).

(** A text line as the meter sends it: the characters, then CR LF. *)
Definition line (s : string) : list Z := chars s ++ [CR; LF].

(** Reads that deliver the given bytes one after the other. *)
Definition arriving (l : list Z) : list rres := map RByte l.

(** The number of [read] results taken between two states of the device; on
    an input of bytes only, the number of bytes consumed. *)
Definition taken (p p' : port) : Z :=
  Z.of_nat (List.length (rd p)) - Z.of_nat (List.length (rd p')).

(** The buffer as an array: the cells of a list, 0 behind its end. *)
Definition array (l : list Z) : Z -> Z := fun i => nth (Z.to_nat i) l 0.

(** A stand-in for the grammar: it reports the four hexadecimal digits
    behind the first '!' as the telegram's CRC (0 when they are missing),
    finds no parse errors and always reaches its final state. *)
Definition hexval (b : Z) : option Z :=
  if (48 <=? b) && (b <=? 57) then Some (b - 48)
  else if (65 <=? b) && (b <=? 70) then Some (b - 55)
  else None.

(** A hexadecimal digit, of which the trailer of a new-style telegram holds
    four behind its '!'. *)
Definition hex_digit (b : Z) : Prop :=
  ch "0" <= b <= ch "9" \/ ch "A" <= b <= ch "F" \/ ch "a" <= b <= ch "f".

Fixpoint after_mark (l : list Z) : list Z :=
  match l with
  | [] => []
  | b :: r => if b =? ch "!" then r else after_mark r
  end.

Definition trailer_crc (l : list Z) : Z :=
  match after_mark l with
  | a :: b :: c :: d :: _ =>
      match hexval a, hexval b, hexval c, hexval d with
      | Some x, Some y, Some z, Some u => ((x * 16 + y) * 16 + z) * 16 + u
      | _, _, _, _ => 0
      end
  | _ => 0
  end.

Definition demo_headers : Headers :=
  {| parser_data := unit;
     parser_init := fun _ => mkparser 0 0 tt;
     parser_execute := fun _ l => mkparser (trailer_crc l) 0 tt;
     parser_finish := fun ps => (1, ps);
     READ_TIMEOUT := 5;
     PARSER_BUFLEN := 4096 |}.

(** The other one of the two P1 baud rates. *)
Definition other_baud (b : Z) : Z :=
  if b =? B115200 then B9600 else B115200.

(** The value of the local variable [crc] of [telegram_parser_read] at its
    last test, read off the session the call leaves: the result of
    [crc_telegram] if a telegram was framed and the grammar reached its
    final state, and 0 otherwise. *)
Definition local_crc `{Headers} (o : telegram_parser) : Z :=
  match buffer o with
  | Some m =>
      if negb (len o =? 0) && (status o =? 1)
      then crc_telegram (cell m) (wrap32 (len o))
      else 0
  | None => 0
  end.

(** The computed value of the CRC check: what [crc_telegram] gives for the
    telegram that the session holds. *)
Definition computed_crc `{Headers} (o : telegram_parser) : Z :=
  match buffer o with
  | Some m => crc_telegram (cell m) (wrap32 (len o))
  | None => 0
  end.

(** A session is usable by [telegram_parser_read]. *)
Definition usable `{Headers} (o : telegram_parser) : Prop :=
  buffer o <> None /\ bufsize o <> 0 /\ 0 < fd o.

(** A session and a device for the examples: the caller's fresh object, a
    serial terminal on which the reads [r] are to come, and a system that
    opens it as descriptor 3 and hands out zeroed memory. *)
Definition blank_session : @telegram_parser demo_headers :=
  let t := mktermios 0 0 0 false 0 0 in
  @mksession demo_headers (mkparser 0 0 tt) 0 None 0 0 0 0 0 t t None 0.

Definition serial (r : list rres) : port :=
  mkport true r [] (mktermios B9600 B9600 8 false 0 1) [].

Definition demo_env : open_env := mkenv 3 None (Some (fun _ => 0)).

Definition session_of (r : Z * option (@telegram_parser demo_headers) * port)
  : @telegram_parser demo_headers :=
  match r with
  | (_, Some o, _) => o
  | _ => blank_session
  end.

(** A stand-in for a grammar that reads the CRC off the trailer as the
    first one does, finds no parse errors, and does not reach its final
    state; the caller's fresh object for it, and the P1 session opened for
    it on the serial terminal. *)
Definition unfinished_headers : Headers :=
  {| parser_data := unit;
     parser_init := fun _ => mkparser 0 0 tt;
     parser_execute := fun _ l => mkparser (trailer_crc l) 0 tt;
     parser_finish := fun ps => (0, ps);
     READ_TIMEOUT := 5;
     PARSER_BUFLEN := 4096 |}.

Definition blank_unfinished : @telegram_parser unfinished_headers :=
  let t := mktermios 0 0 0 false 0 0 in
  @mksession unfinished_headers (mkparser 0 0 tt) 0 None 0 0 0 0 0 t t None 0.

Definition p1_opened_unfinished (r : list rres) :=
  @telegram_parser_open unfinished_headers demo_env (Some blank_unfinished)
    (Some "/dev/ttyUSB0"%string) 64 5 None (serial r).

(** The P1 session [telegram_parser_open] makes of them, with a buffer of 64
    bytes, and the D0 session [telegram_parser_open_d0] makes of them. *)
Definition p1_opened (r : list rres) :=
  @telegram_parser_open demo_headers demo_env (Some blank_session)
    (Some "/dev/ttyUSB0"%string) 64 5 None (serial r).

Definition d0_opened (r : list rres) :=
  @telegram_parser_open_d0 demo_headers demo_env (Some blank_session)
    (Some "/dev/ttyUSB0"%string) 64 5 None (serial r).

(** The system did not change the device between two states. *)
Definition same_device (p p' : port) : Prop :=
  is_tty p' = is_tty p /\ wr p' = wr p /\ tio p' = tio p /\ log p' = log p.

(** The device as the handshake leaves it, on either way out. *)
Definition hs_port {A B : Type} (x : (Z * A * B * port) + (Z * A * B * port))
  : port :=
  match x with
  | inl (_, _, _, p) => p
  | inr (_, _, _, p) => p
  end.

(** A plain file holding the bytes [r], and the D0 session opened on it. *)
Definition file (r : list rres) : port :=
  mkport false r [] (mktermios 0 0 0 false 0 0) [].

Definition d0_file_opened (r : list rres) :=
  @telegram_parser_open_d0 demo_headers demo_env (Some blank_session)
    (Some "telegram.txt"%string) 64 5 None (file r).

(** [n] copies of a list, one after the other. *)
Fixpoint times {A : Type} (n : nat) (l : list A) : list A :=
  match n with O => [] | S k => l ++ times k l end.

(** [p'] is the device [p] after the operations [ops], none of them a read
    or a change of attributes. *)
Definition after (p p' : port) (ops : list op) : Prop :=
  rd p' = rd p /\ is_tty p' = is_tty p /\ tio p' = tio p
  /\ log p' = log p ++ ops.

(** A meter identification string: '/', the characters [body], CR LF. *)
Definition id_string (body : list Z) : list Z := ch "/" :: body ++ [CR; LF].

(** The operations of wake-up and sign-on: a NUL byte or the sign-on
    sequence written, the output drained, a pause. *)
Definition request_op (o : op) : Prop :=
  match o with
  | OWrite d _ => d = [NUL] \/ d = signonseq
  | ODrain => True
  | OSleep _ => True
  | _ => False
  end.

(** The invariant of the framer's loop: while a telegram is open the buffer
    begins with '/' and [offset] lies within the buffer (it is 1 after the
    '/' whatever the buffer size); while none is open [offset] is 0. *)
Definition framing (bufsize : Z) (s : rt_state) : Prop :=
  0 <= rt_offset s
  /\ (rt_telegram s = true ->
      cell (rt_buf s) 0 = ch "/" /\ 1 <= rt_offset s <= Z.max 1 bufsize)
  /\ (rt_telegram s = false -> rt_offset s = 0).

(** What the framer returns: 0, or the length of a buffer that begins with
    '/' and has a '!' three or seven bytes before its end. *)
Definition framed (bufsize : Z) (r : Z * mem * port) : Prop :=
  let '(n, m, _) := r in
  n = 0
  \/ (cell m 0 = ch "/"
      /\ (cell m (n - 3) = ch "!" \/ cell m (n - 7) = ch "!")
      /\ n <= Z.max 1 bufsize + 6).

(** ** [telegram_parser_close], and notions of the further properties *)

(** The bytes [l] stored one after the other from index [off] on. *)
Fixpoint store_list (m : mem) (off : Z) (l : list Z) : mem :=
  match l with
  | [] => m
  | b :: r => store_list (store m off b) (off + 1) r
  end.

(** An old-style telegram: '/', the content [c], '!', CR and a last byte
    [x] (LF as a meter sends it); and a new-style one, with the four
    bytes of the CRC field in between. *)
Definition old_style (c : list Z) (x : Z) : list Z :=
  ch "/" :: c ++ [ch "!"; CR; x].

Definition new_style (c : list Z) (h1 h2 h3 h4 x : Z) : list Z :=
  ch "/" :: c ++ [ch "!"; h1; h2; h3; h4; CR; x].

(** The buffer [m'] is [m] after stores at indexes that all satisfy [P]. *)
Definition grows (P : Z -> Prop) (m m' : mem) : Prop :=
  exists ws, written m' = written m ++ ws /\ Forall P ws.

(** The indexes the framer may store to: the buffer and the six bytes
    behind it. *)
Definition framer_index (bufsize i : Z) : Prop :=
  0 <= i < Z.max 1 bufsize + 6.

(** [telegram_parser_close].  Of [free], [close] and [fclose] the model
    keeps what the function writes into the session: the pointers set to
    NULL and the descriptor set to -1. *)
Definition telegram_parser_close `{Headers} (obj : option telegram_parser)
    (p : port) : option telegram_parser * port :=
  match obj with
  | None => (None, p)
  | Some o =>
      let o :=
        if negb (bufsize o =? 0) then
          match buffer o with
          | Some _ => set_len (set_bufsize (set_buffer o None) 0) 0
          | None => o
          end
        else o in
      let '(o, p) :=
        if fd o >? 0 then
          (* Restore old port settings *)
          let p := if negb (terminal o =? 0)
                   then tcsetattr (fd o) p (oldtio o) else p in
          (set_terminal (set_fd o (-1)) 0, p)
        else (o, p) in
      let o := match dumpfile o with
               | Some _ => set_dumpfile o None
               | None => o
               end in
      (Some o, p)
  end.

(** An operation that sends nothing. *)
Definition silent (o : op) : Prop :=
  match o with
  | OWrite _ _ => False
  | _ => True
  end.

(** A second stand-in for the grammar, which counts one parse error in
    every telegram, and the caller's fresh object for it. *)
Definition faulty_headers : Headers :=
  {| parser_data := unit;
     parser_init := fun _ => mkparser 0 0 tt;
     parser_execute := fun _ l => mkparser (trailer_crc l) 1 tt;
     parser_finish := fun ps => (-1, ps);
     READ_TIMEOUT := 5;
     PARSER_BUFLEN := 4096 |}.

Definition blank_faulty : @telegram_parser faulty_headers :=
  let t := mktermios 0 0 0 false 0 0 in
  @mksession faulty_headers (mkparser 0 0 tt) 0 None 0 0 0 0 0 t t None 0.

(** The baud rates of IEC 62056-21, in the order of their identifiers
    '0'..'6' (and 'A'..'G'). *)
Definition baud_rates : list Z :=
  [B300; B600; B1200; B2400; B4800; B9600; B19200].

(** The indexes the D0 read may store to: the buffer and the byte behind
    it. *)
Definition d0_index (bufsize i : Z) : Prop := 0 <= i <= bufsize.

(** * Properties *)

(** ** Loops return *)

Lemma do_while_returns {S R : Type} (iter : S -> R + S) (mu : S -> nat) :
  (forall s s', iter s = inr s' -> (mu s' < mu s)%nat) ->
  forall fuel s, (mu s < fuel)%nat -> exists r, do_while iter fuel s = Some r.
Proof.
  intros Hdec fuel.
  induction fuel as [|f IH]; intros s Hlt; [lia|].
  simpl. destruct (iter s) as [r|s'] eqn:E.
  - now exists r.
  - apply IH. apply Hdec in E. lia.
Qed.

Lemma do_while_invariant {S R : Type} (iter : S -> R + S)
      (I : S -> Prop) (Q : R -> Prop) :
  (forall s s', I s -> iter s = inr s' -> I s') ->
  (forall s r, I s -> iter s = inl r -> Q r) ->
  forall fuel s r, I s -> do_while iter fuel s = Some r -> Q r.
Proof.
  intros Hstep Hexit fuel.
  induction fuel as [|f IH]; intros s r Hs; simpl; [discriminate|].
  destruct (iter s) as [r'|s'] eqn:E.
  - intros X. inversion X; subst. eapply Hexit; eauto.
  - apply IH. eapply Hstep; eauto.
Qed.

Lemma wrap32_small z : 0 <= z < 2 ^ 32 -> wrap32 z = z.
Proof. intros. unfold wrap32. now apply Z.mod_small. Qed.

Lemma wrap64_small z : 0 <= z < 2 ^ 64 -> wrap64 z = z.
Proof. intros. unfold wrap64. now apply Z.mod_small. Qed.

Lemma sys_read_rd p m i n m' p' :
  sys_read p m i = (n, m', p') ->
  (List.length (rd p') <= List.length (rd p))%nat.
Proof.
  unfold sys_read. destruct (rd p) as [|[b| |] r] eqn:E; intros X;
    inversion X; subst; simpl; rewrite ?E; simpl; lia.
Qed.

Lemma sys_read_taken p m i n m' p' :
  sys_read p m i = (n, m', p') -> n > 0 ->
  (List.length (rd p') < List.length (rd p))%nat.
Proof.
  unfold sys_read. destruct (rd p) as [|[b| |] r] eqn:E; intros X;
    inversion X; subst; simpl; rewrite ?E; simpl; lia.
Qed.

Lemma sys_read_byte_taken p b0 n b p' :
  sys_read_byte p b0 = (n, b, p') -> n > 0 ->
  (List.length (rd p') < List.length (rd p))%nat.
Proof.
  unfold sys_read_byte. destruct (rd p) as [|[x| |] r] eqn:E; intros X;
    inversion X; subst; simpl; rewrite ?E; simpl; lia.
Qed.

Lemma rt_again_inr M n s s' :
  rt_again M n s = inr s' -> s' = s /\ n > 0.
Proof.
  unfold rt_again. destruct (n >? 0) eqn:E; simpl.
  - destruct ((M =? 0) || (rt_failed s <? M)); intros X; inversion X.
    split; [reflexivity|lia].
  - discriminate.
Qed.

Lemma rt_again_cases M n s :
  rt_again M n s = inr s \/ rt_again M n s = inl (0, rt_buf s, rt_port s).
Proof. unfold rt_again. destruct (_ && _); auto. Qed.

Lemma read_telegram_iter_taken bufsize M s s' :
  read_telegram_iter bufsize M s = inr s' ->
  (List.length (rd (rt_port s')) < List.length (rd (rt_port s)))%nat.
Proof.
  unfold read_telegram_iter.
  destruct (sys_read_byte (rt_port s) 0) as [[n b] p] eqn:E0.
  destruct (n >? 0) eqn:En.
  2:{ intros X. apply rt_again_inr in X. lia. }
  assert (Hn : n > 0) by lia.
  pose proof (sys_read_byte_taken _ _ _ _ _ E0 Hn) as L0.
  repeat match goal with
  | |- context [sys_read ?q ?m ?i] =>
      let E := fresh "E" in let L := fresh "L" in
      destruct (sys_read q m i) as [[? ?] ?] eqn:E;
      pose proof (sys_read_rd _ _ _ _ _ _ E) as L
  | |- context [if ?c then _ else _] => destruct c
  | |- inl _ = inr _ -> _ => discriminate
  | |- rt_again _ _ _ = inr _ -> _ =>
      let X := fresh "X" in
      intros X; apply rt_again_inr in X; destruct X as [-> _]; simpl; lia
  end.
Qed.

Theorem read_telegram_returns p buf bufsize M :
  exists r, read_telegram p buf bufsize M = Some r.
Proof.
  unfold read_telegram.
  apply (do_while_returns _ (fun s => List.length (rd (rt_port s)))).
  - intros s s'. apply read_telegram_iter_taken.
  - simpl. lia.
Qed.

(** ** The framer and the end of the buffer *)

(** C1, at bufsize = 8 and the input "/123456!\r\n": the '!' is stored in
    the last byte of the buffer, buf[7], and the two bytes behind it are
    read into buf[8] and buf[9], outside the buffer; the length returned,
    10, is larger than the buffer. *)
Theorem read_telegram_stores_past_buffer :
  forall tty w t l c,
  exists m',
    read_telegram (mkport tty (arriving (line "/123456!")) w t l)
                  (mkmem c []) 8 8
      = Some (10, m', mkport tty [] w t l)
    /\ written m' = [0; 1; 2; 3; 4; 5; 6; 7; 8; 9]
    /\ In 8 (written m') /\ In 9 (written m')
    /\ bytes_of (cell m') 10 = line "/123456!".
Proof.
  intros. eexists. split; [vm_compute; reflexivity|].
  simpl. repeat split; auto 12.
Qed.

(** ** What the framer returns *)

Lemma sys_read_cells p m i n m' p' :
  sys_read p m i = (n, m', p') ->
  forall j, j <> i -> cell m' j = cell m j.
Proof.
  unfold sys_read. destruct (rd p) as [|[b| |] r]; intros X;
    inversion X; subst; intros j Hj; try reflexivity.
  cbn [cell store]. destruct (Z.eqb_spec j i); [contradiction|reflexivity].
Qed.

Lemma rt_again_holds (I : rt_state -> Prop) (Q : Z * mem * port -> Prop)
      M n s :
  I s -> (forall m q, Q (0, m, q)) ->
  match rt_again M n s with inl r => Q r | inr s' => I s' end.
Proof.
  intros Hs Hq. destruct (rt_again_cases M n s) as [A|A]; rewrite A; auto.
Qed.

Lemma read_telegram_iter_frames bufsize M s :
  0 <= bufsize -> bufsize + 6 < 2 ^ 64 ->
  framing bufsize s ->
  match read_telegram_iter bufsize M s with
  | inl r => framed bufsize r
  | inr s' => framing bufsize s'
  end.
Proof.
  intros Hb0 Hb1 (I0 & I1 & I2).
  assert (Q0 : forall m q, framed bufsize (0, m, q)) by (intros; now left).
  unfold read_telegram_iter.
  destruct s as [tel off failed buf p]. cbn [rt_telegram rt_offset rt_failed
    rt_buf rt_port] in *.
  destruct (sys_read_byte p 0) as [[n b] p1].
  destruct (n >? 0).
  2:{ apply rt_again_holds; [|exact Q0]. split; [|split]; cbn; assumption. }
  destruct tel; cbn [negb andb].
  - (* inside a telegram *)
    destruct (I1 eq_refl) as (S0 & O1 & O2). clear I1 I2.
    destruct (Z.ltb_spec off bufsize) as [Lt|Ge].
    + rewrite (wrap64_small (off + 1)) by lia.
      assert (S1 : cell (store buf off b) 0 = ch "/").
      { cbn [cell store]. destruct (Z.eqb_spec 0 off); [lia|exact S0]. }
      destruct (Z.eqb_spec b (ch "!")) as [->|Nb].
      * assert (M0 : cell (store buf off (ch "!")) off = ch "!").
        { cbn [cell store]. now rewrite Z.eqb_refl. }
        destruct (sys_read p1 (store buf off (ch "!")) (off + 1))
          as [[l1 m1] q1] eqn:E1.
        pose proof (sys_read_cells _ _ _ _ _ _ E1) as K1.
        destruct (sys_read q1 m1 (off + 1 + 1)) as [[l2 m2] q2] eqn:E2.
        pose proof (sys_read_cells _ _ _ _ _ _ E2) as K2.
        assert (F : framing bufsize (mkrt false 0
                      (wrap64 (failed + wrap64 (off + 1 + (l1 + l2)))) m2 q2)).
        { repeat split; cbn; try lia; discriminate. }
        destruct (Z.eqb_spec (l1 + l2) 2) as [L2|_].
        2:{ apply rt_again_holds; [exact F|exact Q0]. }
        rewrite L2 in *.
        destruct (cell m2 (off + 1) =? CR).
        { (* old style *)
          right. rewrite wrap64_small by lia.
          split; [|split; [|lia]].
          - rewrite K2, K1 by lia. exact S1.
          - left. replace (off + 1 + 2 - 3) with off by lia.
            rewrite K2, K1 by lia. exact M0. }
        rewrite (wrap64_small (off + 1 + 2)) by lia.
        destruct (sys_read q2 m2 (off + 1 + 2)) as [[l3 m3] q3] eqn:E3.
        pose proof (sys_read_cells _ _ _ _ _ _ E3) as K3.
        destruct (sys_read q3 m3 (off + 1 + 2 + 1)) as [[l4 m4] q4] eqn:E4.
        pose proof (sys_read_cells _ _ _ _ _ _ E4) as K4.
        destruct (sys_read q4 m4 (off + 1 + 2 + 2)) as [[l5 m5] q5] eqn:E5.
        pose proof (sys_read_cells _ _ _ _ _ _ E5) as K5.
        destruct (sys_read q5 m5 (off + 1 + 2 + 3)) as [[l6 m6] q6] eqn:E6.
        pose proof (sys_read_cells _ _ _ _ _ _ E6) as K6.
        assert (F4 : framing bufsize (mkrt false 0
                      (wrap64 (failed + wrap64 (off + 1 + 2 + (l3 + l4 + l5 + l6))))
                      m6 q6)).
        { repeat split; cbn; try lia; discriminate. }
        destruct (Z.eqb_spec (l3 + l4 + l5 + l6) 4) as [L4|_]; cbn [andb].
        2:{ apply rt_again_holds; [exact F4|exact Q0]. }
        rewrite L4 in *.
        destruct (cell m6 (off + 1 + 2 + 2) =? CR).
        { (* new style *)
          right. rewrite wrap64_small by lia.
          split; [|split; [|lia]].
          - rewrite K6, K5, K4, K3, K2, K1 by lia. exact S1.
          - right. replace (off + 1 + 2 + 4 - 7) with off by lia.
            rewrite K6, K5, K4, K3, K2, K1 by lia. exact M0. }
        apply rt_again_holds; [exact F4|exact Q0].
      * apply rt_again_holds; [|exact Q0].
        repeat split; cbn [rt_telegram rt_offset rt_buf]; try lia; auto;
          discriminate.
    + destruct (off >=? bufsize).
      * apply rt_again_holds; [|exact Q0].
        repeat split; cbn; try lia; discriminate.
      * apply rt_again_holds; [|exact Q0].
        repeat split; cbn [rt_telegram rt_offset rt_buf]; try lia; auto;
          discriminate.
  - (* searching *)
    pose proof (I2 eq_refl) as O0. subst off. clear I1 I2.
    destruct (Z.eqb_spec b (ch "/")) as [->|Nb].
    + apply rt_again_holds; [|exact Q0].
      change (wrap64 (0 + 1)) with 1.
      repeat split; cbn [rt_telegram rt_offset rt_buf]; try lia;
        try discriminate.
    + destruct (0 >=? bufsize).
      * apply rt_again_holds; [|exact Q0].
        repeat split; cbn; try lia; discriminate.
      * apply rt_again_holds; [|exact Q0].
        repeat split; cbn; try lia; discriminate.
Qed.

(** The second half of C1 holds: a length other than 0 that the framer
    returns is that of a buffer with '/' in front and a '!' three or seven
    bytes before its end; the length can exceed the buffer by up to six
    bytes. *)
Theorem read_telegram_framed p buf bufsize M n m' p' :
  0 <= bufsize -> bufsize + 6 < 2 ^ 64 ->
  read_telegram p buf bufsize M = Some (n, m', p') -> n <> 0 ->
  cell m' 0 = ch "/"
  /\ (cell m' (n - 3) = ch "!" \/ cell m' (n - 7) = ch "!")
  /\ n <= Z.max 1 bufsize + 6.
Proof.
  intros Hb0 Hb1 E Hn.
  assert (F : framed bufsize (n, m', p')).
  { revert E. unfold read_telegram.
    apply (do_while_invariant _ (framing bufsize) (framed bufsize)).
    - intros s s' I X.
      pose proof (read_telegram_iter_frames bufsize M s Hb0 Hb1 I) as D.
      now rewrite X in D.
    - intros s r I X.
      pose proof (read_telegram_iter_frames bufsize M s Hb0 Hb1 I) as D.
      now rewrite X in D.
    - repeat split; cbn; try lia; discriminate. }
  destruct F as [F|F]; [contradiction|exact F].
Qed.

(** ** Bytes the framer does not count *)

Lemma skip_loop (x bufsize M : Z) buf tty w t l :
  x <> ch "/" -> 0 <= M ->
  forall (n fuel : nat), (n < fuel)%nat ->
  do_while (read_telegram_iter bufsize M) fuel
           (mkrt false 0 0 buf (mkport tty (arriving (repeat x n)) w t l))
    = Some (0, buf, mkport tty [] w t l).
Proof.
  intros Hx HM. induction n as [|n IH]; intros fuel Hf;
    (destruct fuel as [|f]; [lia|]).
  - reflexivity.
  - cbn [do_while]. unfold read_telegram_iter at 1, sys_read_byte.
    cbn [rt_port rt_telegram rt_offset rt_failed rt_buf rd arriving repeat map].
    cbn [negb andb]. change (1 >? 0) with true. cbv iota.
    destruct (Z.eqb_spec x (ch "/")) as [E|_]; [contradiction|].
    assert (A : rt_again M 1 (mkrt false 0 0 buf
                (set_rd (mkport tty (RByte x :: map RByte (repeat x n)) w t l)
                        (map RByte (repeat x n))))
                = inr (mkrt false 0 0 buf (mkport tty (arriving (repeat x n)) w t l))).
    { unfold rt_again. cbn [rt_failed]. change (1 >? 0) with true.
      destruct (Z.eqb_spec M 0); [reflexivity|].
      destruct (Z.ltb_spec 0 M); [reflexivity|lia]. }
    destruct (0 >=? bufsize);
      [change (wrap64 (0 + 0)) with 0|]; rewrite A; apply IH; lia.
Qed.

(** Bytes met while no telegram is open are taken from the input without
    being counted: however small the cap and however long the run, the
    framer reads on to its end. *)
Lemma read_telegram_skips_uncounted (n : nat) (x bufsize M : Z) buf tty w t l :
  x <> ch "/" -> 0 <= M ->
  read_telegram (mkport tty (arriving (repeat x n)) w t l) buf bufsize M
    = Some (0, buf, mkport tty [] w t l).
Proof.
  intros Hx HM. unfold read_telegram. apply skip_loop; auto.
  cbn [rd]. unfold arriving. rewrite length_map, repeat_length. lia.
Qed.

(** C6, at bufsize = 8, cap M = 1 and an input of twenty bytes 'x': the
    framer returns 0 only after it has consumed all twenty, more than
    M + bufsize + 7 = 16. *)
Theorem read_telegram_takes_more_than_cap :
  forall tty w t l buf,
  let p := mkport tty (arriving (chars "xxxxxxxxxxxxxxxxxxxx")) w t l in
  exists p',
    read_telegram p buf 8 1 = Some (0, buf, p')
    /\ taken p p' = 20
    /\ taken p p' > 1 + 8 + 7.
Proof.
  intros. exists (mkport tty [] w t l). split.
  - apply (read_telegram_skips_uncounted 20 (ch "x")); [discriminate|lia].
  - split; [reflexivity|]. unfold taken. simpl. lia.
Qed.

(** The byte that finds the buffer full is dropped without being counted
    either: with bufsize = 8 and M = 128, sixteen telegrams that never end
    cost 144 bytes, one more than M + bufsize + 7. *)
Lemma read_telegram_overflow_byte_uncounted :
  forall tty w t l c,
  let p := mkport tty (arriving (times 16 (chars "/xxxxxxxx"))) w t l in
  exists m' p',
    read_telegram p (mkmem c []) 8 128 = Some (0, m', p')
    /\ taken p p' = 144.
Proof.
  intros. do 2 eexists. split; [vm_compute; reflexivity|reflexivity].
Qed.

(** ** CRC verification *)

(** C5: a telegram whose byte three before the end is '!' (the old-style
    trailer, '!' CR LF) gives 0; a telegram with a '!' seven bytes before
    the end and a new-style trailer behind it ('!', four hexadecimal
    digits, CR LF - of the digits the last one is all that is needed) gives
    the CRC of its first L - 6 bytes, that is, up to and including the
    '!'. *)
Theorem crc_telegram_by_trailer (data : Z -> Z) (L : Z) :
  7 <= L < 2 ^ 32 ->
  (data (L - 3) = ch "!" -> crc_telegram data L = 0)
  /\ (data (L - 7) = ch "!" -> hex_digit (data (L - 3)) ->
      crc_telegram data L = crc16 data (L - 6)).
Proof.
  intros HL. unfold crc_telegram.
  rewrite !wrap32_small by lia.
  split.
  - intros ->. now rewrite Z.eqb_refl.
  - intros E7 H3. rewrite E7, Z.eqb_refl.
    destruct (Z.eqb_spec (data (L - 3)) (ch "!")) as [E3|_]; [|reflexivity].
    exfalso. revert H3. rewrite E3. unfold hex_digit.
    change (ch "!") with 33. change (ch "0") with 48. change (ch "9") with 57.
    change (ch "A") with 65. change (ch "F") with 70.
    change (ch "a") with 97. change (ch "f") with 102. lia.
Qed.

Lemma crc_telegram_by_trailer_witness :
  crc_telegram (array (line "/a!41D8")) 9 = crc16 (array (line "/a!41D8")) 3
  /\ crc16 (array (line "/a!41D8")) 3 = 0x41D8.
Proof.
  split; [|reflexivity].
  apply (crc_telegram_by_trailer (array (line "/a!41D8")) 9);
    [lia|reflexivity|].
  left. vm_compute. split; discriminate.
Defined.

(** The order of the two tests shows only on a buffer that has no such
    trailer: in "/!abc!\r\n" a '!' stands seven bytes before the end and
    another one three bytes before it, where a new-style trailer has a
    digit; the first test wins and the result is 0. *)
Lemma crc_telegram_two_marks :
  crc_telegram (array (line "/!abc!")) 8 = 0
  /\ array (line "/!abc!") (8 - 7) = ch "!"
  /\ array (line "/!abc!") (8 - 3) = ch "!".
Proof. repeat split. Qed.

(** The framer does hand over such a buffer, as a new-style telegram. *)
Lemma read_telegram_two_marks :
  forall tty w t l c,
  exists m',
    read_telegram (mkport tty (arriving (line "/!abc!")) w t l) (mkmem c []) 64 64
      = Some (8, m', mkport tty [] w t l)
    /\ bytes_of (cell m') 8 = line "/!abc!".
Proof.
  intros. eexists. split; [vm_compute; reflexivity|reflexivity].
Qed.

(** The check value of CRC-16/ARC. *)
Example crc16_check : crc16 (array (chars "123456789")) 9 = 0xBB3D.
Proof. reflexivity. Qed.

(** ** The P1 read *)

Lemma dump_on_errors_fields `{Headers} o m :
  let o' := dump_on_errors o m in
  tp_parser o' = tp_parser o /\ status o' = status o /\ buffer o' = buffer o
  /\ len o' = len o /\ terminal o' = terminal o /\ mode o' = mode o
  /\ newtio o' = newtio o /\ fd o' = fd o /\ bufsize o' = bufsize o.
Proof.
  unfold dump_on_errors.
  destruct (parse_errors (tp_parser o) =? 0); [|destruct (dumpfile o)];
    cbn; repeat split.
Qed.

Lemma run_parser_fields `{Headers} o m :
  let o' := run_parser o m in
  buffer o' = buffer o /\ len o' = len o /\ terminal o' = terminal o
  /\ mode o' = mode o /\ newtio o' = newtio o /\ fd o' = fd o
  /\ bufsize o' = bufsize o.
Proof.
  unfold run_parser.
  destruct (parser_finish _) as [st ps]. cbn. repeat split.
Qed.

(** What [telegram_parser_read] does on a usable session, told by the
    framer's result [n]: the session and the device after the call and the
    value of the local [crc]. *)
Lemma telegram_parser_read_usable `{Headers} o p m :
  buffer o = Some m -> bufsize o <> 0 -> 0 < fd o ->
  exists n m1 p1 ret o' p',
    read_telegram p m (bufsize o) (bufsize o) = Some (n, m1, p1)
    /\ telegram_parser_read (Some o) p = Some (ret, Some o', p')
    /\ len o' = n /\ buffer o' = Some m1 /\ fd o' = fd o
    /\ terminal o' = terminal o /\ mode o' = mode o
    /\ bufsize o' = bufsize o
    /\ (n = 0 -> parser_crc16 (tp_parser o') = 0)
    /\ ret = (if negb (parser_crc16 (tp_parser o') =? 0)
                 && negb (parser_crc16 (tp_parser o') =? local_crc o')
              then -4 else 0)
    /\ (if negb (terminal o =? 0) && (n =? 0) && (mode o =? ch "P")
        then newtio o' = cfsetispeed (newtio o)
                           (other_baud (cfgetispeed (newtio o)))
             /\ p' = tcsetattr (fd o) (tcflush p1) (newtio o')
        else newtio o' = newtio o /\ p' = p1).
Proof.
  intros Hb Hs Hf.
  destruct (read_telegram_returns p m (bufsize o) (bufsize o)) as [[[n m1] p1] E].
  exists n, m1, p1.
  unfold telegram_parser_read. rewrite Hb.
  destruct (Z.eqb_spec (bufsize o) 0) as [|_]; [contradiction|].
  destruct (Z.leb_spec (fd o) 0) as [|_]; [lia|].
  change (bufsize (set_crc16 o 0)) with (bufsize o). rewrite E.
  cbv zeta.
  set (o1 := set_len (set_buffer (set_crc16 o 0) (Some m1)) n).
  change (len o1) with n.
  destruct (Z.eqb_spec n 0) as [N0|N0].
  - (* nothing framed *)
    cbv iota beta.
    change (len o1) with n. change (terminal o1) with (terminal o).
    change (mode o1) with (mode o). change (newtio o1) with (newtio o).
    rewrite (proj2 (Z.eqb_eq n 0) N0), andb_true_r.
    destruct (negb (terminal o =? 0) && (mode o =? ch "P")) eqn:T.
    + unfold cfgetispeed, other_baud.
      destruct (c_ispeed (newtio o) =? B115200) eqn:B;
        do 3 eexists; (split; [reflexivity|]); (split; [reflexivity|]);
        cbn; repeat split; auto.
    + do 3 eexists. split; [reflexivity|]. split; [reflexivity|].
      cbn. repeat split; auto.
  - (* a telegram *)
    cbv iota beta.
    set (o2 := run_parser o1 m1).
    destruct (run_parser_fields o1 m1) as (R1 & R2 & R3 & R4 & R5 & R6 & R7).
    fold o2 in R1, R2, R3, R4, R5, R6, R7.
    destruct (dump_on_errors_fields o2 m1)
      as (D1 & D2 & D3 & D4 & D5 & D6 & D7 & D8 & D9).
    set (o3 := dump_on_errors o2 m1) in *.
    assert (L : local_crc o3
                = if status o2 =? 1
                  then crc_telegram (cell m1) (wrap32 (len o2)) else 0).
    { unfold local_crc. rewrite D3, R1, D4, D2, R2.
      change (buffer o1) with (Some m1). change (len o1) with n.
      destruct (Z.eqb_spec n 0); [contradiction|]. reflexivity. }
    rewrite <- L.
    rewrite D4, R2. change (len o1) with n.
    destruct (Z.eqb_spec n 0); [contradiction|].
    rewrite !andb_false_r. cbn [andb]. cbv iota beta.
    destruct (negb (parser_crc16 (tp_parser o3) =? 0)
              && negb (parser_crc16 (tp_parser o3) =? local_crc o3)) eqn:C;
      do 3 eexists; (split; [reflexivity|]); (split; [reflexivity|]);
      rewrite C, D3, D4, D5, D6, D7, D8, D9, R1, R2, R3, R4, R5, R6, R7;
      cbn; repeat split; auto; intros; contradiction.
Qed.

(** C10: on a usable session the read always returns; when the framer
    returns length 0 the result is 0, the code for success, and the length
    stored is 0; the only other result is -4, so that no code tells
    "no data" from "telegram read". *)
Theorem telegram_parser_read_no_data `{Headers} o p m :
  buffer o = Some m -> bufsize o <> 0 -> 0 < fd o ->
  exists n m1 p1 ret o' p',
    read_telegram p m (bufsize o) (bufsize o) = Some (n, m1, p1)
    /\ telegram_parser_read (Some o) p = Some (ret, Some o', p')
    /\ len o' = n
    /\ (n = 0 -> ret = 0)
    /\ (ret = 0 \/ ret = -4).
Proof.
  intros Hb Hs Hf.
  destruct (telegram_parser_read_usable o p m Hb Hs Hf)
    as (n & m1 & p1 & ret & o' & p' & E & R & L & _ & _ & _ & _ & _ & Z0 & C & _).
  exists n, m1, p1, ret, o', p'. repeat split; auto.
  - intros N. rewrite C, (Z0 N). reflexivity.
  - rewrite C. destruct (_ && _); auto.
Qed.

Lemma telegram_parser_read_no_data_witness :
  let o := session_of (p1_opened []) in
  let p := snd (p1_opened []) in
  exists n m1 p1 ret o' p',
    read_telegram p (mkmem (fun _ => 0) []) (bufsize o) (bufsize o)
      = Some (n, m1, p1)
    /\ telegram_parser_read (Some o) p = Some (ret, Some o', p')
    /\ len o' = n
    /\ (n = 0 -> ret = 0)
    /\ (ret = 0 \/ ret = -4).
Proof.
  intros o p.
  apply (telegram_parser_read_no_data o p (mkmem (fun _ => 0) []));
    [reflexivity|discriminate|reflexivity].
Defined.

Lemma same_device_refl p : same_device p p.
Proof. repeat split. Qed.

Lemma same_device_trans p q r :
  same_device p q -> same_device q r -> same_device p r.
Proof. unfold same_device. intuition congruence. Qed.

Lemma sys_read_device p m i n m' p' :
  sys_read p m i = (n, m', p') -> same_device p p'.
Proof.
  unfold sys_read. destruct (rd p) as [|[b| |] r]; intros X;
    inversion X; subst; repeat split.
Qed.

Lemma sys_read_byte_device p b0 n b p' :
  sys_read_byte p b0 = (n, b, p') -> same_device p p'.
Proof.
  unfold sys_read_byte. destruct (rd p) as [|[x| |] r]; intros X;
    inversion X; subst; repeat split.
Qed.

Lemma read_telegram_iter_device bufsize M s :
  match read_telegram_iter bufsize M s with
  | inl (_, _, p') => same_device (rt_port s) p'
  | inr s' => same_device (rt_port s) (rt_port s')
  end.
Proof.
  unfold read_telegram_iter.
  destruct (sys_read_byte (rt_port s) 0) as [[n b] p] eqn:E0.
  apply sys_read_byte_device in E0.
  repeat match goal with
  | |- context [sys_read ?q ?m ?i] =>
      let E := fresh "E" in
      destruct (sys_read q m i) as [[? ?] ?] eqn:E;
      apply sys_read_device in E
  | |- context [if ?c then _ else _] => destruct c
  | |- context [rt_again ?M ?n ?x] =>
      let A := fresh "A" in
      destruct (rt_again_cases M n x) as [A|A]; rewrite A; cbn [rt_port]
  end;
  unfold same_device in *;
  repeat match goal with X : _ /\ _ |- _ => destruct X end;
  repeat split; congruence.
Qed.

Lemma read_telegram_device p buf bufsize M n m' p' :
  read_telegram p buf bufsize M = Some (n, m', p') -> same_device p p'.
Proof.
  unfold read_telegram.
  apply (do_while_invariant _
           (fun s => same_device p (rt_port s))
           (fun r => same_device p (snd r))
           ) with (r := (n, m', p')).
  - intros s s' I E. pose proof (read_telegram_iter_device bufsize M s) as D.
    rewrite E in D. eapply same_device_trans; eauto.
  - intros s [[x y] z] I E.
    pose proof (read_telegram_iter_device bufsize M s) as D.
    rewrite E in D. eapply same_device_trans; eauto.
  - apply same_device_refl.
Qed.

(** ** The baud rate probe *)

(** A read on a terminal in mode 'P' that frames nothing switches the
    session and the device to the other baud rate, and leaves the session
    as fit for the next read as it was. *)
Lemma idle_read_switches_baud `{Headers} o p r1 o1 p1 :
  usable o -> terminal o <> 0 -> mode o = ch "P" -> is_tty p = true ->
  telegram_parser_read (Some o) p = Some (r1, Some o1, p1) -> len o1 = 0 ->
  usable o1 /\ terminal o1 <> 0 /\ mode o1 = ch "P" /\ is_tty p1 = true
  /\ cfgetispeed (newtio o1) = other_baud (cfgetispeed (newtio o))
  /\ tio p1 = newtio o1.
Proof.
  intros (Ub & Us & Uf) T M I R1 L1.
  destruct (buffer o) as [m|] eqn:Hb; [clear Ub|contradiction].
  destruct (telegram_parser_read_usable o p m Hb Us Uf)
    as (n & m1 & q1 & ret & o' & p' & E & R & Ln & Bf & Fd & Tm & Md & Bs
        & _ & _ & K).
  rewrite R1 in R. inversion R; subst ret o' p'. clear R.
  rewrite L1 in Ln. subst n.
  destruct (Z.eqb_spec (terminal o) 0) as [|_]; [contradiction|].
  rewrite M, !Z.eqb_refl in K. cbn [negb andb] in K. destruct K as [K1 K2].
  destruct (read_telegram_device _ _ _ _ _ _ _ E) as (Dt & _).
  assert (St : tcsetattr (fd o) (tcflush q1) (newtio o1)
               = mkport true (rd q1) (wr q1) (newtio o1)
                        ((log q1 ++ [OFlush]) ++ [OSetattr (newtio o1)])).
  { unfold tcsetattr, tcflush, add_log. cbn [is_tty rd wr tio log].
    rewrite Dt, I. destruct (Z.leb_spec 0 (fd o)); [reflexivity|lia]. }
  rewrite St in K2. subst p1. cbn [is_tty tio].
  split.
  { unfold usable. rewrite Bf, Bs, Fd.
    repeat split; [discriminate|assumption|assumption]. }
  repeat split; try congruence.
  rewrite K1. reflexivity.
Qed.

Lemma other_baud_twice b :
  b = B115200 \/ b = B9600 -> other_baud (other_baud b) = b.
Proof. intros [-> | ->]; reflexivity. Qed.

(** C4, as amended: on a terminal in mode 'P' at input baud rate b, one read
    that frames nothing leaves the port at the rate opposite to b, and the
    second such read in a row brings it back to b. *)
Theorem two_idle_reads_restore_baud `{Headers} o p b r1 o1 p1 r2 o2 p2 :
  usable o -> terminal o <> 0 -> mode o = ch "P" -> is_tty p = true ->
  cfgetispeed (newtio o) = b -> b = B115200 \/ b = B9600 ->
  telegram_parser_read (Some o) p = Some (r1, Some o1, p1) -> len o1 = 0 ->
  telegram_parser_read (Some o1) p1 = Some (r2, Some o2, p2) -> len o2 = 0 ->
  c_ispeed (tio p1) = other_baud b /\ c_ispeed (tio p2) = b.
Proof.
  intros U T M I B Bb R1 L1 R2 L2.
  destruct (idle_read_switches_baud o p r1 o1 p1 U T M I R1 L1)
    as (U1 & T1 & M1 & I1 & B1 & S1).
  destruct (idle_read_switches_baud o1 p1 r2 o2 p2 U1 T1 M1 I1 R2 L2)
    as (_ & _ & _ & _ & B2 & S2).
  unfold cfgetispeed in *. rewrite S1, S2, B2, B1, B.
  split; [reflexivity|now apply other_baud_twice].
Qed.

(** The session opened on the example terminal, read twice while nothing
    arrives. *)
Lemma idle_reads_example :
  let o := session_of (p1_opened []) in
  let p := snd (p1_opened []) in
  exists r1 o1 p1 r2 o2 p2,
    telegram_parser_read (Some o) p = Some (r1, Some o1, p1)
    /\ telegram_parser_read (Some o1) p1 = Some (r2, Some o2, p2)
    /\ usable o /\ terminal o <> 0 /\ mode o = ch "P" /\ is_tty p = true
    /\ cfgetispeed (newtio o) = B115200 /\ c_ispeed (tio p) = B115200
    /\ len o1 = 0 /\ len o2 = 0
    /\ c_ispeed (tio p1) = B9600 /\ c_ispeed (tio p2) = B115200.
Proof.
  intros o p. do 6 eexists.
  split; [vm_compute; reflexivity|].
  split; [vm_compute; reflexivity|].
  repeat split; try reflexivity; try discriminate.
Defined.

Lemma two_idle_reads_restore_baud_witness :
  exists p1 p2 : port,
    c_ispeed (tio p1) = other_baud B115200 /\ c_ispeed (tio p2) = B115200.
Proof.
  destruct idle_reads_example
    as (r1 & o1 & p1 & r2 & o2 & p2 & R1 & R2 & U & T & M & I & B & _
        & L1 & L2 & _).
  exists p1, p2.
  exact (two_idle_reads_restore_baud _ _ B115200 r1 o1 p1 r2 o2 p2
           U T M I B (or_introl eq_refl) R1 L1 R2 L2).
Defined.

(** C4 as stated fails: after the two reads the port is back at the rate it
    started from, not at the opposite one. *)
Lemma two_idle_reads_not_opposite :
  ~ (forall (H : Headers) (o : telegram_parser) (p : port) (b : Z)
            r1 o1 p1 r2 o2 p2,
       usable o -> terminal o <> 0 -> mode o = ch "P" -> is_tty p = true ->
       cfgetispeed (newtio o) = b -> c_ispeed (tio p) = b ->
       b = B115200 \/ b = B9600 ->
       telegram_parser_read (Some o) p = Some (r1, Some o1, p1) -> len o1 = 0 ->
       telegram_parser_read (Some o1) p1 = Some (r2, Some o2, p2) -> len o2 = 0 ->
       c_ispeed (tio p2) = other_baud b).
Proof.
  intros C.
  destruct idle_reads_example
    as (r1 & o1 & p1 & r2 & o2 & p2 & R1 & R2 & U & T & M & I & B & B'
        & L1 & L2 & _ & E).
  specialize (C demo_headers _ _ B115200 r1 o1 p1 r2 o2 p2
                U T M I B B' (or_introl eq_refl) R1 L1 R2 L2).
  rewrite E in C. discriminate.
Qed.

(** ** The CRC error *)

(** The last test of the read, by the local [crc]: the result is -4
    exactly when, on a usable session, the CRC the grammar reports is not
    zero and differs from the local [crc]. *)
Lemma telegram_parser_read_crc_test `{Headers} o p ret o' p' :
  telegram_parser_read (Some o) p = Some (ret, Some o', p') ->
  (ret = -4 <->
     usable o /\ parser_crc16 (tp_parser o') <> 0
     /\ parser_crc16 (tp_parser o') <> local_crc o')
  /\ (parser_crc16 (tp_parser o') = 0 ->
      ret <> -4 /\ (usable o -> ret = 0)).
Proof.
  intros R.
  assert (D : usable o \/ (~ usable o /\ ret <> -4)).
  { unfold usable. revert R. unfold telegram_parser_read.
    destruct (buffer o) as [m|].
    2:{ intros X; inversion X; subst. right.
        split; [intros (A & _); congruence|lia]. }
    destruct (Z.eqb_spec (bufsize o) 0).
    { intros X; inversion X; subst. right.
      split; [intros (_ & A & _); congruence|lia]. }
    destruct (Z.leb_spec (fd o) 0).
    { intros X; inversion X; subst. right.
      split; [intros (_ & _ & A); lia|lia]. }
    intros _. left. repeat split; [discriminate|assumption|lia]. }
  destruct D as [U|[NU N4]].
  2:{ split; [split; [contradiction|tauto]|]. intros _. split; tauto. }
  pose proof U as (Ub & Us & Uf).
  destruct (buffer o) as [m|] eqn:Hb; [clear Ub|contradiction].
  destruct (telegram_parser_read_usable o p m Hb Us Uf)
    as (n & m1 & q1 & ret1 & o1 & p1 & _ & R' & _ & _ & _ & _ & _ & _
        & _ & C & _).
  rewrite R in R'. injection R' as <- <- <-.
  rewrite C. clear C.
  destruct (Z.eqb_spec (parser_crc16 (tp_parser o')) 0) as [E0|E0];
    destruct (Z.eqb_spec (parser_crc16 (tp_parser o')) (local_crc o')) as [E1|E1];
    cbn [negb andb]; intuition congruence.
Qed.

(** C9: on a usable session the read returns -4 exactly when the CRC the
    grammar reports is not zero and, if the grammar reached its final
    state, differs from the computed value.  So a reported CRC of zero
    never gives -4 (the result is then 0 on a usable session, whatever
    [crc_telegram] computes); but when the grammar did not reach its final
    state every reported CRC other than zero gives -4, the one that equals
    the computed value too: the local [crc] is then still 0. *)
Theorem telegram_parser_read_crc_error `{Headers} o p ret o' p' :
  telegram_parser_read (Some o) p = Some (ret, Some o', p') ->
  (ret = -4 <->
     usable o /\ parser_crc16 (tp_parser o') <> 0
     /\ (status o' = 1 -> parser_crc16 (tp_parser o') <> computed_crc o'))
  /\ (parser_crc16 (tp_parser o') = 0 ->
      ret <> -4 /\ (usable o -> ret = 0)).
Proof.
  intros R.
  destruct (telegram_parser_read_crc_test o p ret o' p' R) as [A B].
  split; [|exact B]. rewrite A. clear A B.
  assert (K : usable o -> parser_crc16 (tp_parser o') <> 0 ->
              local_crc o' = if status o' =? 1 then computed_crc o' else 0).
  { intros (Ub & Us & Uf) N0.
    destruct (buffer o) as [m|] eqn:Hb; [clear Ub|contradiction].
    destruct (telegram_parser_read_usable o p m Hb Us Uf)
      as (n & m1 & q1 & ret1 & o1 & p1 & _ & R' & Ln & Bf & _ & _ & _ & _
          & Z0 & _).
    rewrite R in R'. injection R' as <- <- <-.
    unfold local_crc, computed_crc. rewrite Bf.
    destruct (Z.eqb_spec (len o') 0) as [L0|_]; [|reflexivity].
    elim N0. apply Z0. now rewrite <- Ln. }
  split; intros (U & N0 & X); (split; [exact U|]); (split; [exact N0|]);
    rewrite (K U N0) in *.
  - intros S1. rewrite S1 in X. exact X.
  - destruct (Z.eqb_spec (status o') 1) as [S1|_]; [exact (X S1)|exact N0].
Qed.

(** The example session reading a new-style telegram whose trailer does
    not match: the grammar reports 0x41D9, the CRC of "/a!" is 0x41D8. *)
Lemma crc_mismatch_example :
  let o := session_of (p1_opened (arriving (line "/a!41D9"))) in
  let p := snd (p1_opened (arriving (line "/a!41D9"))) in
  exists o' p',
    telegram_parser_read (Some o) p = Some (-4, Some o', p')
    /\ len o' = 9
    /\ parser_crc16 (tp_parser o') = 0x41D9 /\ local_crc o' = 0x41D8.
Proof.
  intros o p. do 2 eexists.
  split; [vm_compute; reflexivity|]. repeat split.
Defined.

(** The read of "/a!41D8\r\n" when the grammar reports the CRC of the
    trailer, 0x41D8, and does not reach its final state: the result is -4,
    although 0x41D8 is what [crc_telegram] computes for the telegram. *)
Lemma telegram_parser_read_crc_error_witness :
  let r := p1_opened_unfinished (arriving (line "/a!41D8")) in
  exists o o' p',
    snd (fst r) = Some o
    /\ telegram_parser_read (Some o) (snd r) = Some (-4, Some o', p')
    /\ len o' = 9 /\ status o' = 0
    /\ parser_crc16 (tp_parser o') = 0x41D8
    /\ computed_crc o' = 0x41D8
    /\ (usable o /\ parser_crc16 (tp_parser o') <> 0
        /\ (status o' = 1 ->
            parser_crc16 (tp_parser o') <> computed_crc o')).
Proof.
  intros r.
  assert (E : exists o o' p',
             snd (fst r) = Some o
             /\ telegram_parser_read (Some o) (snd r)
                = Some (-4, Some o', p')
             /\ len o' = 9 /\ status o' = 0
             /\ parser_crc16 (tp_parser o') = 0x41D8
             /\ computed_crc o' = 0x41D8).
  { do 3 eexists. split; [reflexivity|].
    split; [vm_compute; reflexivity|]. repeat split. }
  destruct E as (o & o' & p' & O & R & Ln & St & Pc & Cc).
  exists o, o', p'. repeat (split; [assumption|]).
  exact (proj1 (proj1 (telegram_parser_read_crc_error o (snd r) (-4) o' p' R))
               eq_refl).
Defined.

(** The same telegram with the right trailer is accepted; with the trailer
    "0000" it is accepted as well, although its CRC is 0x41D8; an old-style
    telegram has no CRC to compare. *)
Lemma crc_match_example :
  let o := session_of (p1_opened (arriving (line "/a!41D8"))) in
  let p := snd (p1_opened (arriving (line "/a!41D8"))) in
  exists o' p',
    telegram_parser_read (Some o) p = Some (0, Some o', p')
    /\ len o' = 9
    /\ parser_crc16 (tp_parser o') = 0x41D8 /\ local_crc o' = 0x41D8.
Proof.
  intros o p. do 2 eexists.
  split; [vm_compute; reflexivity|]. repeat split.
Qed.

Lemma crc_zero_trailer_example :
  let o := session_of (p1_opened (arriving (line "/a!0000"))) in
  let p := snd (p1_opened (arriving (line "/a!0000"))) in
  exists o' p',
    telegram_parser_read (Some o) p = Some (0, Some o', p')
    /\ len o' = 9
    /\ parser_crc16 (tp_parser o') = 0 /\ local_crc o' = 0x41D8.
Proof.
  intros o p. do 2 eexists.
  split; [vm_compute; reflexivity|]. repeat split.
Qed.

Lemma old_style_example :
  let o := session_of (p1_opened (arriving (line "/a!"))) in
  let p := snd (p1_opened (arriving (line "/a!"))) in
  exists o' p',
    telegram_parser_read (Some o) p = Some (0, Some o', p')
    /\ len o' = 5
    /\ parser_crc16 (tp_parser o') = 0 /\ local_crc o' = 0.
Proof.
  intros o p. do 2 eexists.
  split; [vm_compute; reflexivity|]. repeat split.
Qed.


(** ** The D0 read: what is sent and what is read *)

Lemma sys_write_port p data r p' :
  sys_write p data = (r, p') ->
  rd p' = rd p /\ is_tty p' = is_tty p /\ tio p' = tio p
  /\ log p' = log p ++ [OWrite data r].
Proof.
  unfold sys_write. destruct (wr p); intros X; inversion X; subst;
    repeat split.
Qed.

Lemma after_refl p : after p p [].
Proof. unfold after. rewrite app_nil_r. repeat split. Qed.

Lemma after_trans p q r a b :
  after p q a -> after q r b -> after p r (a ++ b).
Proof.
  unfold after. intros (A1 & A2 & A3 & A4) (B1 & B2 & B3 & B4).
  rewrite B1, B2, B3, B4, A1, A2, A3, A4, app_assoc. repeat split.
Qed.

Lemma sys_write_after p data r p' :
  sys_write p data = (r, p') -> after p p' [OWrite data r].
Proof. apply sys_write_port. Qed.

Lemma add_log_after p o : after p (add_log p o) [o].
Proof. repeat split. Qed.

(** The wake-up sends at least one NUL byte, and nothing but NUL bytes. *)
Lemma d0_wakeup_after (k : nat) p :
  exists r ops,
    after p (d0_wakeup (S k) p) (OWrite [NUL] r :: ops).
Proof.
  revert p. induction k as [|k IH]; intros p.
  - cbn [d0_wakeup]. destruct (sys_write p [NUL]) as [r q] eqn:E.
    apply sys_write_after in E.
    exists r, []. now destruct (r <? 0).
  - remember (S k) as k1. cbn [d0_wakeup].
    destruct (sys_write p [NUL]) as [r q] eqn:E.
    apply sys_write_after in E.
    destruct (r <? 0).
    + now exists r, [].
    + destruct (IH q) as (r' & ops & A).
      exists r, (OWrite [NUL] r' :: ops).
      apply (after_trans _ _ _ _ _ E A).
Qed.

(** Wake-up and sign-on begin with the write of a NUL byte and read
    nothing. *)
Lemma d0_request_after p :
  exists r ops, after p (snd (d0_request p)) (OWrite [NUL] r :: ops).
Proof.
  unfold d0_request.
  destruct (d0_wakeup_after 64 p) as (r & ops & A).
  change (S 64) with 65%nat in A.
  set (p1 := d0_wakeup 65 p) in *.
  pose proof (add_log_after p1 ODrain) as A1. fold (tcdrain p1) in A1.
  pose proof (add_log_after (tcdrain p1) (OSleep 2700000)) as A2.
  fold (usleep (tcdrain p1) 2700000) in A2.
  destruct (sys_write (usleep (tcdrain p1) 2700000) signonseq) as [w q] eqn:E.
  apply sys_write_after in E.
  pose proof (after_trans _ _ _ _ _ (after_trans _ _ _ _ _
                (after_trans _ _ _ _ _ A A1) A2) E) as A3.
  exists r. destruct (wrap64 w <? _); cbn [snd].
  - eexists. rewrite <- !app_assoc in A3. exact A3.
  - pose proof (after_trans _ _ _ _ _ A3 (add_log_after q ODrain)) as A4.
    eexists. rewrite <- !app_assoc in A4. exact A4.
Qed.

Lemma d0_id_iter_taken bufsize s s' :
  d0_id_iter bufsize s = inr s' ->
  (List.length (rd (snd s')) < List.length (rd (snd s)))%nat.
Proof.
  unfold d0_id_iter. destruct s as [[idx m] p].
  destruct (sys_read p m (wrap64 (idx + 1))) as [[n m'] p'] eqn:E.
  destruct (Z.eqb_spec n 1) as [N|N].
  - destruct (_ && _); intros X; inversion X; subst. cbn [snd].
    eapply sys_read_taken; eauto. lia.
  - rewrite andb_false_r. discriminate.
Qed.

Lemma d0_body_iter_taken bufsize s s' :
  d0_body_iter bufsize s = inr s' ->
  (List.length (rd (snd s')) < List.length (rd (snd s)))%nat.
Proof.
  unfold d0_body_iter. destruct s as [[idx m] p].
  destruct (sys_read p m idx) as [[n m'] p'] eqn:E.
  destruct (Z.gtb_spec n 0) as [N|N].
  - repeat match goal with
    | |- context [if ?c then _ else _] => destruct c
    end; intros X; inversion X; subst; cbn [snd];
    eapply sys_read_taken; eauto; lia.
  - cbn [andb].
    repeat match goal with
    | |- context [if ?c then _ else _] => destruct c eqn:?
    end; try discriminate; lia.
Qed.

Lemma d0_id_loop_returns bufsize m p :
  exists r,
    do_while (d0_id_iter bufsize) (S (List.length (rd p))) (0, m, p) = Some r.
Proof.
  apply (do_while_returns _ (fun s => List.length (rd (snd s)))).
  - apply d0_id_iter_taken.
  - cbn [snd]. lia.
Qed.

Lemma d0_body_loop_returns bufsize idx m p :
  exists r,
    do_while (d0_body_iter bufsize) (S (List.length (rd p))) (idx, m, p)
      = Some r.
Proof.
  apply (do_while_returns _ (fun s => List.length (rd (snd s)))).
  - apply d0_body_iter_taken.
  - cbn [snd]. lia.
Qed.

Lemma d0_body_iter_device bufsize idx m p :
  match d0_body_iter bufsize (idx, m, p) with
  | inl (_, _, _, p') => same_device p p'
  | inr (_, _, p') => same_device p p'
  end.
Proof.
  unfold d0_body_iter.
  destruct (sys_read p m idx) as [[n m'] p'] eqn:E.
  apply sys_read_device in E.
  repeat match goal with
  | |- context [if ?c then _ else _] => destruct c
  end; exact E.
Qed.

Lemma d0_body_loop_device bufsize fuel idx m p e idx' m' p' :
  do_while (d0_body_iter bufsize) fuel (idx, m, p) = Some (e, idx', m', p') ->
  same_device p p'.
Proof.
  apply (do_while_invariant _
           (fun s => same_device p (snd s))
           (fun r => same_device p (snd r))) with (r := (e, idx', m', p')).
  - intros [[i x] q] [[i' x'] q'] I E.
    pose proof (d0_body_iter_device bufsize i x q) as D. rewrite E in D.
    eapply same_device_trans; eauto.
  - intros [[i x] q] [[[e0 i'] x'] q'] I E.
    pose proof (d0_body_iter_device bufsize i x q) as D. rewrite E in D.
    eapply same_device_trans; eauto.
  - apply same_device_refl.
Qed.

(** The part of the D0 read that takes the telegram always returns; it
    leaves mode and line attributes alone, and what it sends, if anything,
    is the sign-off. *)
Lemma d0_telegram_returns `{Headers} idx o m p :
  exists ret o' p' ops,
    d0_telegram idx o m p = Some (ret, Some o', p')
    /\ mode o' = mode o
    /\ is_tty p' = is_tty p /\ tio p' = tio p
    /\ log p' = log p ++ ops
    /\ (ops = [] \/ exists w, ops = [OWrite signoffseq w; ODrain])
    /\ (terminal o = 0 \/ mode o = ch "P" -> ops = []).
Proof.
  unfold d0_telegram.
  destruct (wrap64 (idx + 1) >=? wrap64 (bufsize o - 1)).
  { exists (-7), (set_buffer o (Some m)), p, [].
    rewrite app_nil_r. repeat split; auto. }
  destruct (d0_body_loop_returns (bufsize o) (wrap64 (idx + 1)) m p)
    as [[[[e i] m'] p1] E].
  rewrite E. apply d0_body_loop_device in E. destruct E as (E1 & E2 & E3 & E4).
  assert (K : forall o1 : telegram_parser,
             mode (dump_on_errors (run_parser o1 m') m') = mode o1).
  { intros o1.
    destruct (dump_on_errors_fields (run_parser o1 m') m')
      as (_ & _ & _ & _ & _ & -> & _).
    now destruct (run_parser_fields o1 m') as (_ & _ & _ & -> & _). }
  assert (G : forall tel : bool,
    exists p' ops,
      (if tel && negb (terminal o =? 0) && negb (mode o =? ch "P")
       then let '(_, q) := sys_write p1 signoffseq in tcdrain q
       else p1) = p'
      /\ is_tty p' = is_tty p /\ tio p' = tio p /\ log p' = log p ++ ops
      /\ (ops = [] \/ exists w, ops = [OWrite signoffseq w; ODrain])
      /\ (terminal o = 0 \/ mode o = ch "P" -> ops = [])).
  { intros tel.
    destruct (tel && negb (terminal o =? 0) && negb (mode o =? ch "P")) eqn:C.
    - destruct (sys_write p1 signoffseq) as [w q] eqn:W.
      apply sys_write_port in W. destruct W as (W1 & W2 & W3 & W4).
      exists (tcdrain q), [OWrite signoffseq w; ODrain].
      cbn [tcdrain add_log is_tty tio log].
      rewrite W2, W3, W4, E1, E3, E4, <- app_assoc.
      repeat split; eauto.
      apply andb_prop in C. destruct C as [C C2].
      apply andb_prop in C. destruct C as [_ C1].
      intros [T|M].
      + rewrite T in C1. discriminate.
      + rewrite M, Z.eqb_refl in C2. discriminate.
    - exists p1, []. rewrite app_nil_r, E1, E3, E4. repeat split; auto. }
  destruct e.
  - destruct (G true) as (p' & ops & <- & G1 & G2 & G3 & G4 & G5).
    do 3 eexists. exists ops. split; [reflexivity|]. rewrite K.
    repeat split; auto.
  - exists (-9), (set_buffer o (Some m')), p1, [].
    rewrite app_nil_r. repeat split; auto.
  - destruct (G false) as (p' & ops & <- & G1 & G2 & G3 & G4 & G5).
    do 3 eexists. exists ops. split; [reflexivity|]. rewrite K.
    repeat split; auto.
Qed.

Lemma d0_id_iter_device bufsize idx m p :
  match d0_id_iter bufsize (idx, m, p) with
  | inl (_, _, p') => same_device p p'
  | inr (_, _, p') => same_device p p'
  end.
Proof.
  unfold d0_id_iter.
  destruct (sys_read p m (wrap64 (idx + 1))) as [[n m'] p'] eqn:E.
  apply sys_read_device in E.
  destruct (_ && _); exact E.
Qed.

Lemma d0_id_loop_device bufsize fuel idx m p idx' m' p' :
  do_while (d0_id_iter bufsize) fuel (idx, m, p) = Some (idx', m', p') ->
  same_device p p'.
Proof.
  apply (do_while_invariant _
           (fun s => same_device p (snd s))
           (fun r => same_device p (snd r))) with (r := (idx', m', p')).
  - intros [[i x] q] [[i' x'] q'] I E.
    pose proof (d0_id_iter_device bufsize i x q) as D. rewrite E in D.
    eapply same_device_trans; eauto.
  - intros [[i x] q] [[i' x'] q'] I E.
    pose proof (d0_id_iter_device bufsize i x q) as D. rewrite E in D.
    eapply same_device_trans; eauto.
  - apply same_device_refl.
Qed.

Lemma tcsetattr_log fd p t :
  exists ops, log (tcsetattr fd p t) = log p ++ ops.
Proof.
  unfold tcsetattr. destruct (_ && _).
  - now exists [OSetattr t].
  - exists []. now rewrite app_nil_r.
Qed.

(** The handshake always comes to an end, and the log only grows. *)
Lemma d0_handshake_returns `{Headers} o m p :
  exists x ops,
    d0_handshake o m p = Some x
    /\ log (hs_port x) = log (snd (d0_request p)) ++ ops.
Proof.
  unfold d0_handshake.
  destruct (d0_request p) as [sent p1]. cbn [snd].
  destruct sent; cbn [negb].
  2:{ do 2 eexists. split; [reflexivity|]. cbn [hs_port].
      now rewrite app_nil_r. }
  destruct (sys_read p1 m 0) as [[n m1] p2] eqn:E1.
  apply sys_read_device in E1. destruct E1 as (_ & _ & _ & L1).
  destruct (n <? 0).
  { exists (inl (-4, o, m1, p2)), []. cbn [hs_port].
    now rewrite app_nil_r. }
  destruct ((n =? 0) || negb (cell m1 0 =? ch "/")).
  { exists (inl (-5, o, m1, p2)), []. cbn [hs_port].
    now rewrite app_nil_r. }
  destruct (d0_id_loop_returns (bufsize o) m1 p2) as [[[idx m2] p3] E2].
  rewrite E2. apply d0_id_loop_device in E2. destruct E2 as (_ & _ & _ & L2).
  rewrite L1 in L2. clear L1. unfold d0_classify.
  repeat match goal with
  | |- context [d0_switch ?b] => destruct (d0_switch b) as [md baud]
  | |- context [sys_write ?q ?d] =>
      let W := fresh "W" in
      destruct (sys_write q d) as [? ?] eqn:W;
      apply sys_write_port in W; destruct W as (_ & _ & _ & W)
  | |- context [if ?c then _ else _] => destruct c
  end;
  repeat match goal with
  | |- context [tcsetattr ?f ?q ?t] =>
      let T := fresh "T" in
      destruct (tcsetattr_log f q t) as [? T];
      generalize dependent (tcsetattr f q t); intros
  end;
  eexists; eexists; (split; [reflexivity|]); cbn [hs_port];
  cbn [tcdrain add_log log] in *;
  repeat match goal with
  | X : log _ = _ |- _ => rewrite X; clear X
  end;
  rewrite <- ?app_assoc; try reflexivity;
  now rewrite app_nil_r.
Qed.





(** ** The bytes of a D0 telegram *)

(** A byte other than '!' met in the telegram body stops the read with the
    parse error exactly when it is below 0x7e; from 0x7e on it is stored
    and the loop goes on (or ends, with the buffer full). *)
Lemma d0_body_iter_byte bufsize idx m p b r :
  rd p = RByte b :: r -> b <> ch "!" ->
  d0_body_iter bufsize (idx, m, p)
    = if b <? 0x7e then inl (D0Abort, idx, store m idx b, set_rd p r)
      else if wrap64 (idx + 1) <? bufsize
           then inr (wrap64 (idx + 1), store m idx b, set_rd p r)
           else inl (D0Done, wrap64 (idx + 1), store m idx b, set_rd p r).
Proof.
  intros Hr Hb. unfold d0_body_iter, sys_read. rewrite Hr.
  change (1 <? 0) with false. change (1 =? 0) with false.
  change (1 >? 0) with true. cbv iota. cbn [cell store andb].
  rewrite Z.eqb_refl.
  destruct (Z.eqb_spec b (ch "!")) as [|_]; [contradiction|].
  destruct (Z.ltb_spec b 0x20), (Z.ltb_spec b 0x7e);
    cbn [orb]; try reflexivity; lia.
Qed.

(** C3, on the D0 session opened on a file: the telegram body "A!" is
    refused with -9 at its first byte, a printable one, while the body
    0x7f 0xc8 '~' '!' is taken in full, two of its bytes being outside
    printable ASCII. *)
Theorem read_d0_refuses_printable :
  (let r := arriving (chars "A!") in
   exists o' p',
     telegram_parser_read_d0 (Some (session_of (d0_file_opened r)))
                             (snd (d0_file_opened r))
       = Some (-9, Some o', p')
     /\ rd p' = arriving (chars "!"))
  /\ (let r := arriving ([0x7f; 0xc8] ++ chars "~!") in
      exists o' p',
        telegram_parser_read_d0 (Some (session_of (d0_file_opened r)))
                                (snd (d0_file_opened r))
          = Some (0, Some o', p')
        /\ len o' = 4 /\ rd p' = []).
Proof.
  split; intros r; do 2 eexists;
    (split; [vm_compute; reflexivity|]); repeat split.
Qed.

(** ** The identification string *)

(** The loop that reads the identification string, on input that brings the
    bytes [l], none of them a line feed, and then a line feed: they are
    stored behind [idx], the loop ends on the line feed. *)
Lemma d0_id_loop_reads bufsize :
  bufsize < 2 ^ 64 ->
  forall (l : list Z) idx m p rest fuel,
  ~ In LF l ->
  rd p = arriving l ++ RByte LF :: rest ->
  0 <= idx -> idx + Z.of_nat (List.length l) < bufsize ->
  (List.length l < fuel)%nat ->
  exists m',
    do_while (d0_id_iter bufsize) fuel (idx, m, p)
      = Some (idx + Z.of_nat (List.length l) + 1, m', set_rd p rest)
    /\ (forall i, i <= idx -> cell m' i = cell m i)
    /\ (forall k, (k < List.length l)%nat ->
          cell m' (idx + 1 + Z.of_nat k) = nth k l 0)
    /\ cell m' (idx + Z.of_nat (List.length l) + 1) = LF.
Proof.
  intros Hbs. induction l as [|b l IH]; intros idx m p rest fuel Hn Hr Hi Hl Hf;
    (destruct fuel as [|fuel]; [cbn in Hf; lia|]).
  - cbn [List.length Z.of_nat] in *. cbn [arriving map app] in Hr.
    exists (store m (idx + 1) LF).
    cbn [do_while]. unfold d0_id_iter, sys_read. rewrite Hr.
    rewrite wrap64_small by lia.
    cbn [cell store]. rewrite !Z.eqb_refl. cbn [negb].
    rewrite andb_false_r. rewrite Z.add_0_r.
    split; [reflexivity|]. split; [|split].
    + intros i Hle. destruct (Z.eqb_spec i (idx + 1)); [lia|reflexivity].
    + intros k Hk. lia.
    + cbn [cell store]. now rewrite Z.eqb_refl.
  - cbn [arriving map app] in Hr. cbn [List.length] in Hl, Hf.
    rewrite Nat2Z.inj_succ in Hl.
    assert (Hb : b <> LF) by (intros ->; apply Hn; now left).
    assert (Hn' : ~ In LF l) by (intros X; apply Hn; now right).
    destruct (IH (idx + 1) (store m (idx + 1) b)
                 (set_rd p (arriving l ++ RByte LF :: rest)) rest fuel Hn'
                 eq_refl ltac:(lia) ltac:(lia) ltac:(lia))
      as (m' & E & C1 & C2 & C3).
    exists m'.
    cbn [do_while]. unfold d0_id_iter at 1, sys_read. rewrite Hr.
    rewrite wrap64_small by lia.
    cbn [cell store]. rewrite !Z.eqb_refl.
    destruct (Z.ltb_spec (idx + 1) bufsize) as [_|]; [|lia].
    destruct (Z.eqb_spec b LF) as [|_]; [contradiction|].
    cbn [negb andb].
    cbn [List.length]. rewrite Nat2Z.inj_succ.
    replace (idx + Z.succ (Z.of_nat (List.length l)) + 1)
      with (idx + 1 + Z.of_nat (List.length l) + 1) by lia.
    split; [exact E|]. split; [|split].
    + intros i Hle. rewrite C1 by lia. cbn [cell store].
      destruct (Z.eqb_spec i (idx + 1)); [lia|reflexivity].
    + intros [|k] Hk.
      * cbn [nth Z.of_nat]. rewrite Z.add_0_r, C1 by lia.
        cbn [cell store]. now rewrite Z.eqb_refl.
      * cbn [nth]. rewrite <- C2 by lia. f_equal. lia.
    + exact C3.
Qed.

(** The identification string made of [body]: '/' in front, CR LF behind. *)
Lemma id_string_nth (body : list Z) :
  let id := ch "/" :: body ++ [CR; LF] in
  nth (S (List.length body)) id 0 = CR
  /\ nth (S (S (List.length body))) id 0 = LF
  /\ (forall k, (k < List.length body)%nat ->
        nth (S k) id 0 = nth k (body ++ [CR]) 0)
  /\ nth (List.length body) (body ++ [CR]) 0 = CR.
Proof.
  cbn [nth]. repeat split.
  - rewrite app_nth2 by lia. now rewrite Nat.sub_diag.
  - rewrite app_nth2 by lia.
    now replace (S (List.length body) - List.length body)%nat with 1%nat by lia.
  - intros k Hk. now rewrite !app_nth1 by lia.
  - rewrite app_nth2 by lia. now rewrite Nat.sub_diag.
Qed.

(** On a well-terminated identification string that fits into the buffer
    the handshake reaches the classification with the string in the buffer
    and the input behind the string still unread. *)
Lemma d0_handshake_identified `{Headers} o m p body rest :
  fst (d0_request p) = true ->
  ~ In LF body ->
  rd p = arriving (ch "/" :: body ++ [CR; LF]) ++ rest ->
  Z.of_nat (List.length body) + 3 <= bufsize o < 2 ^ 64 ->
  exists m2,
    d0_handshake o m p
      = Some (d0_classify o (Z.of_nat (List.length body) + 2) m2
                          (set_rd (snd (d0_request p)) rest))
    /\ (forall k, (k < List.length body + 3)%nat ->
          cell m2 (Z.of_nat k) = nth k (ch "/" :: body ++ [CR; LF]) 0).
Proof.
  intros Hs Hn Hr Hb.
  unfold d0_handshake.
  destruct (d0_request_after p) as (r0 & ops0 & Hrd & _).
  destruct (d0_request p) as [sent p1]. cbn [fst snd] in *. subst sent.
  cbn [negb].
  rewrite Hr in Hrd. cbn [arriving map app] in Hrd.
  unfold sys_read at 1. rewrite Hrd.
  change (1 <? 0) with false. change (1 =? 0) with false.
  cbn [cell store orb]. rewrite !Z.eqb_refl. cbn [negb].
  cbv iota.
  set (p2 := set_rd p1 _).
  assert (Hr2 : rd p2 = arriving (body ++ [CR]) ++ RByte LF :: rest).
  { unfold p2. cbn [rd set_rd]. unfold arriving.
    rewrite !map_app. cbn [map]. rewrite <- !app_assoc. reflexivity. }
  assert (Hn2 : ~ In LF (body ++ [CR])).
  { intros X. apply in_app_or in X. destruct X as [X|[X|[]]];
      [contradiction|discriminate]. }
  assert (Hl2 : List.length (body ++ [CR]) = S (List.length body)).
  { rewrite length_app. cbn. lia. }
  assert (Hi2 : 0 + Z.of_nat (List.length (body ++ [CR])) < bufsize o)
    by (rewrite Hl2; lia).
  assert (Hf2 : (List.length (body ++ [CR]) < S (List.length (rd p2)))%nat)
    by (rewrite Hr2; unfold arriving; rewrite !length_app, length_map, !length_app; cbn; lia).
  destruct (d0_id_loop_reads (bufsize o) (proj2 Hb) (body ++ [CR]) 0
              (store m 0 (ch "/")) p2 rest (S (List.length (rd p2)))
              Hn2 Hr2 (Z.le_refl 0) Hi2 Hf2)
    as (m2 & E & C1 & C2 & C3).
  rewrite E. rewrite Hl2 in *.
  replace (0 + Z.of_nat (S (List.length body)) + 1)
    with (Z.of_nat (List.length body) + 2) in * by lia.
  exists m2. split; [reflexivity|].
  destruct (id_string_nth body) as (N1 & N2 & N3 & N4).
  intros k Hk.
  destruct (Nat.eq_dec k 0) as [->|K0].
  { rewrite C1 by lia. cbn [cell store nth Z.of_nat]. now rewrite Z.eqb_refl. }
  destruct (Nat.eq_dec k (S (S (List.length body)))) as [->|K2].
  { rewrite N2, <- C3. f_equal. lia. }
  destruct k as [|k]; [contradiction|].
  replace (Z.of_nat (S k)) with (0 + 1 + Z.of_nat k) by lia.
  rewrite C2 by lia.
  destruct (Nat.eq_dec k (List.length body)) as [->|K1].
  - now rewrite N1, N4.
  - rewrite N3 by lia. reflexivity.
Qed.

Lemma d0_switch_digit b :
  ch "0" <= b <= ch "6" -> fst (d0_switch b) = 0.
Proof.
  change (ch "0") with 48. change (ch "6") with 54. intros Hb.
  assert (D : b = 48 \/ b = 49 \/ b = 50 \/ b = 51 \/ b = 52 \/ b = 53
              \/ b = 54) by lia.
  repeat (destruct D as [-> | D]; [reflexivity|]). now subst.
Qed.

(** The NUL stored behind the identification string leaves the string
    alone. *)
Lemma terminator_cells (c : bool) m idx k :
  k <= idx ->
  cell (if c then store m (idx + 1) NUL else m) k = cell m k.
Proof.
  intros Hk. destruct c; [|reflexivity]. cbn [cell store].
  destruct (Z.eqb_spec k (idx + 1)); [lia|reflexivity].
Qed.

(** The classification of an identification string that announces the
    binary HDLC protocol: the read ends with -8 and nothing is sent. *)
Lemma d0_classify_hdlc `{Headers} o idx m p :
  6 <= idx -> cell m idx = LF -> cell m (idx - 1) = CR ->
  ch "0" <= cell m 4 <= ch "6" ->
  cell m 5 = BACKSLASH -> cell m 6 = ch "2" ->
  exists o' m',
    d0_classify o idx m p = inl (-8, o', m', p) /\ mode o' = ch "E".
Proof.
  intros Hi E0 E1 E4 E5 E6. unfold d0_classify.
  set (c := idx <? wrap64 (bufsize (set_mode o 0) - 1)).
  rewrite !(terminator_cells c) by lia.
  rewrite E0, E1, E5, E6, !Z.eqb_refl. cbn [andb].
  pose proof (d0_switch_digit _ E4) as S0.
  destruct (d0_switch (cell m 4)) as [md baud]. cbn [fst] in S0. subst md.
  cbn [mode set_mode]. rewrite Z.eqb_refl.
  do 2 eexists. split; reflexivity.
Qed.

(** The classification of an identification string with baud rate
    identifier '5' and no mode E marker: mode C, the ACK, 9600 baud. *)
Lemma d0_classify_mode_c `{Headers} o idx m p :
  6 <= idx -> cell m idx = LF -> cell m (idx - 1) = CR ->
  cell m 4 = ch "5" -> cell m 5 <> BACKSLASH ->
  0 < fd o -> is_tty p = true ->
  exists o' m' p' w,
    d0_classify o idx m p = inr (idx, o', m', p')
    /\ mode o' = ch "C"
    /\ c_ispeed (newtio o') = B9600 /\ c_ospeed (newtio o') = B9600
    /\ rd p' = rd p /\ is_tty p' = true /\ tio p' = newtio o'
    /\ log p' = log p ++ [OWrite (ackseq (ch "5")) w; ODrain;
                          OSetattr (newtio o')].
Proof.
  intros Hi E0 E1 E4 E5 Hf Ht. unfold d0_classify.
  set (c := idx <? wrap64 (bufsize (set_mode o 0) - 1)).
  rewrite !(terminator_cells c) by lia.
  rewrite E0, E1, E4, !Z.eqb_refl. cbn [andb].
  change (d0_switch (ch "5")) with (0, B9600). cbv iota beta.
  cbn [mode set_mode]. rewrite Z.eqb_refl.
  destruct (Z.eqb_spec (cell m 5) BACKSLASH) as [|_]; [contradiction|].
  destruct (sys_write p (ackseq (ch "5"))) as [w q] eqn:W.
  apply sys_write_port in W. destruct W as (W1 & W2 & W3 & W4).
  cbn [mode set_mode]. change (ch "C" =? ch "A") with false. cbn [negb].
  cbv iota beta.
  unfold tcsetattr. cbn [fd set_mode set_newtio tcdrain add_log is_tty].
  rewrite W2, Ht.
  destruct (Z.leb_spec 0 (fd o)) as [_|]; [|lia]. cbn [andb].
  do 3 eexists. exists w. split; [reflexivity|].
  cbn [mode set_newtio set_mode newtio cfsetspeed c_ispeed c_ospeed
       rd is_tty tio log].
  cbn [tcdrain add_log rd log].
  rewrite W1, W4, <- !app_assoc. repeat split.
Qed.

(** Wake-up and sign-on send NUL bytes and the sign-on sequence, and
    nothing else. *)
Lemma d0_wakeup_ops (k : nat) p :
  exists ops,
    log (d0_wakeup k p) = log p ++ ops /\ Forall request_op ops.
Proof.
  revert p. induction k as [|k IH]; intros p; cbn [d0_wakeup].
  - exists []. now rewrite app_nil_r.
  - destruct (sys_write p [NUL]) as [r q] eqn:E.
    apply sys_write_port in E. destruct E as (_ & _ & _ & E).
    assert (R : request_op (OWrite [NUL] r)) by (now left).
    destruct (r <? 0).
    + exists [OWrite [NUL] r]. split; [exact E|]. now constructor.
    + destruct (IH q) as (ops & L & F).
      exists (OWrite [NUL] r :: ops). rewrite L, E, <- app_assoc.
      split; [reflexivity|]. now constructor.
Qed.

Lemma d0_request_ops p :
  exists ops,
    log (snd (d0_request p)) = log p ++ ops /\ Forall request_op ops.
Proof.
  unfold d0_request.
  destruct (d0_wakeup_ops 65 p) as (ops & L & F).
  set (p1 := d0_wakeup 65 p) in *.
  destruct (sys_write (usleep (tcdrain p1) 2700000) signonseq) as [w q] eqn:E.
  apply sys_write_port in E. destruct E as (_ & _ & _ & E).
  cbn [usleep tcdrain add_log log] in E. rewrite L in E.
  assert (F2 : Forall request_op
                 (ops ++ [ODrain; OSleep 2700000; OWrite signonseq w])).
  { apply Forall_app. split; [exact F|].
    repeat first [apply Forall_nil | apply Forall_cons];
      cbn [request_op]; auto. }
  destruct (wrap64 w <? _); cbn [snd].
  - eexists. rewrite E, <- !app_assoc. split; [reflexivity|exact F2].
  - eexists. cbn [tcdrain add_log log]. rewrite E, <- !app_assoc.
    split; [reflexivity|].
    change (ops ++ [ODrain] ++ [OSleep 2700000] ++ [OWrite signonseq w] ++ [ODrain])
      with (ops ++ [ODrain; OSleep 2700000; OWrite signonseq w; ODrain]).
    apply Forall_app. split; [exact F|].
    repeat first [apply Forall_nil | apply Forall_cons];
      cbn [request_op]; auto.
Qed.

Lemma id_string_cells (body : list Z) (m : mem) :
  (forall k, (k < List.length body + 3)%nat ->
     cell m (Z.of_nat k) = nth k (id_string body) 0) ->
  cell m (Z.of_nat (List.length body) + 2) = LF
  /\ cell m (Z.of_nat (List.length body) + 2 - 1) = CR.
Proof.
  intros C. destruct (id_string_nth body) as (N1 & N2 & _).
  fold (id_string body) in N1, N2.
  split.
  - replace (Z.of_nat (List.length body) + 2)
      with (Z.of_nat (S (S (List.length body)))) by lia.
    rewrite C by lia. exact N2.
  - replace (Z.of_nat (List.length body) + 2 - 1)
      with (Z.of_nat (S (List.length body))) by lia.
    rewrite C by lia. exact N1.
Qed.

Lemma id_string_length body :
  List.length (id_string body) = (List.length body + 3)%nat.
Proof. unfold id_string. cbn [List.length]. rewrite length_app. cbn. lia. Qed.

(** C8: on a well-terminated identification string whose byte 4 is a digit
    '0'..'6', byte 5 a backslash and byte 6 a '2', the read returns -8;
    all it has sent are wake-up and sign-on, and the input behind the
    identification string is left unread. *)
Theorem read_d0_hdlc_unsupported `{Headers} o m p body rest :
  0 < fd o -> terminal o <> 0 -> mode o <> ch "P" -> buffer o = Some m ->
  fst (d0_request p) = true ->
  ~ In LF body -> rd p = arriving (id_string body) ++ rest ->
  Z.of_nat (List.length (id_string body)) <= bufsize o < 2 ^ 64 ->
  ch "0" <= nth 4 (id_string body) 0 <= ch "6" ->
  nth 5 (id_string body) 0 = BACKSLASH ->
  nth 6 (id_string body) 0 = ch "2" ->
  exists o' p' ops,
    telegram_parser_read_d0 (Some o) p = Some (-8, Some o', p')
    /\ mode o' = ch "E"
    /\ log p' = log p ++ ops /\ Forall request_op ops
    /\ rd p' = rest.
Proof.
  intros Hf Ht Hm Hb Hs Hn Hr Hl B4 B5 B6.
  rewrite id_string_length in Hl.
  assert (L6 : (6 < List.length body + 3)%nat).
  { rewrite <- id_string_length.
    destruct (Nat.lt_ge_cases 6 (List.length (id_string body))) as [|G];
      [assumption|].
    rewrite (nth_overflow _ _ G) in B6. discriminate. }
  destruct (d0_handshake_identified o m p body rest Hs Hn Hr ltac:(lia))
    as (m2 & E & C).
  fold (id_string body) in C.
  destruct (id_string_cells body m2 C) as (C0 & C1).
  pose proof (C 4%nat ltac:(lia)) as C4. change (Z.of_nat 4) with 4 in C4.
  pose proof (C 5%nat ltac:(lia)) as C5. change (Z.of_nat 5) with 5 in C5.
  pose proof (C 6%nat ltac:(lia)) as C6. change (Z.of_nat 6) with 6 in C6.
  assert (I6 : 6 <= Z.of_nat (List.length body) + 2).
  { destruct (Z.eq_dec (Z.of_nat (List.length body) + 2) 6) as [X|]; [|lia].
    rewrite X in C0. rewrite C0 in C6. rewrite <- C6 in B6. discriminate. }
  rewrite <- C4 in B4. rewrite <- C5 in B5. rewrite <- C6 in B6.
  destruct (d0_classify_hdlc o _ m2 (set_rd (snd (d0_request p)) rest)
              I6 C0 C1 B4 B5 B6) as (o' & m' & K & M).
  destruct (d0_request_ops p) as (ops & L & F).
  unfold telegram_parser_read_d0. rewrite Hb.
  destruct (Z.leb_spec (fd o) 0) as [|_]; [lia|].
  destruct (Z.eqb_spec (terminal o) 0) as [|_]; [contradiction|].
  destruct (Z.eqb_spec (mode o) (ch "P")) as [|_]; [contradiction|].
  cbn [negb andb]. rewrite E, K.
  exists (set_buffer o' (Some m')), (set_rd (snd (d0_request p)) rest), ops.
  repeat split; assumption.
Qed.

Lemma read_d0_hdlc_unsupported_witness :
  let body := chars "ABC5" ++ [BACKSLASH] ++ chars "2" in
  let r := arriving (id_string body) ++ arriving (chars "!") in
  exists o' p' ops,
    telegram_parser_read_d0 (Some (session_of (d0_opened r)))
                            (snd (d0_opened r))
      = Some (-8, Some o', p')
    /\ mode o' = ch "E"
    /\ log p' = log (snd (d0_opened r)) ++ ops /\ Forall request_op ops
    /\ rd p' = arriving (chars "!").
Proof.
  intros body r.
  apply (read_d0_hdlc_unsupported (session_of (d0_opened r))
           (mkmem (fun _ => 0) []) (snd (d0_opened r))
           body (arriving (chars "!")));
    try reflexivity; try discriminate.
  - cbn. intros X. repeat (destruct X as [X|X]; [discriminate|]). exact X.
  - cbn. lia.
  - cbn. lia.
Defined.

(** C7: on a well-terminated identification string whose byte 4 is '5' and
    whose byte 5 is no backslash, the read sends, after wake-up and
    sign-on, the ACK 06 '0' '5' '0' CR LF, sets the line to 9600 baud
    and stores mode 'C'. *)
Theorem read_d0_mode_c_9600 `{Headers} o m p body rest :
  0 < fd o -> terminal o <> 0 -> mode o <> ch "P" -> buffer o = Some m ->
  is_tty p = true ->
  fst (d0_request p) = true ->
  ~ In LF body -> rd p = arriving (id_string body) ++ rest ->
  Z.of_nat (List.length (id_string body)) <= bufsize o < 2 ^ 64 ->
  nth 4 (id_string body) 0 = ch "5" ->
  nth 5 (id_string body) 0 <> BACKSLASH ->
  exists ret o' p' ops w tail,
    telegram_parser_read_d0 (Some o) p = Some (ret, Some o', p')
    /\ mode o' = ch "C"
    /\ c_ispeed (tio p') = B9600 /\ c_ospeed (tio p') = B9600
    /\ Forall request_op ops
    /\ log p' = log p ++ ops
                  ++ OWrite [6; ch "0"; ch "5"; ch "0"; CR; LF] w
                  :: ODrain :: OSetattr (tio p') :: tail.
Proof.
  intros Hf Ht Hm Hb Hy Hs Hn Hr Hl B4 B5.
  rewrite id_string_length in Hl.
  destruct (id_string_nth body) as (N1 & N2 & _).
  fold (id_string body) in N1, N2.
  assert (L4 : (4 <= List.length body)%nat).
  { assert (G4 : (4 < List.length body + 3)%nat).
    { rewrite <- id_string_length.
      destruct (Nat.lt_ge_cases 4 (List.length (id_string body))) as [|G];
        [assumption|].
      rewrite (nth_overflow _ _ G) in B4. discriminate. }
    destruct (Nat.eq_dec (List.length body) 3) as [X|].
    { rewrite X in N1. rewrite N1 in B4. discriminate. }
    destruct (Nat.eq_dec (List.length body) 2) as [X|].
    { rewrite X in N2. rewrite N2 in B4. discriminate. }
    lia. }
  destruct (d0_handshake_identified o m p body rest Hs Hn Hr ltac:(lia))
    as (m2 & E & C).
  fold (id_string body) in C.
  destruct (id_string_cells body m2 C) as (C0 & C1).
  pose proof (C 4%nat ltac:(lia)) as C4. change (Z.of_nat 4) with 4 in C4.
  pose proof (C 5%nat ltac:(lia)) as C5. change (Z.of_nat 5) with 5 in C5.
  rewrite <- C4 in B4. rewrite <- C5 in B5.
  destruct (d0_request_after p) as (r0 & ops0 & _ & Ty & _).
  destruct (d0_classify_mode_c o (Z.of_nat (List.length body) + 2) m2
              (set_rd (snd (d0_request p)) rest)
              ltac:(lia) C0 C1 B4 B5 Hf ltac:(cbn [is_tty set_rd]; congruence))
    as (o1 & m3 & p3 & w & K & M & S1 & S2 & _ & _ & T3 & L3).
  destruct (d0_request_ops p) as (ops & L & F).
  destruct (d0_telegram_returns (Z.of_nat (List.length body) + 2) o1 m3 p3)
    as (ret & o' & p' & tail & E2 & M2 & _ & T2 & L2 & _).
  unfold telegram_parser_read_d0. rewrite Hb.
  destruct (Z.leb_spec (fd o) 0) as [|_]; [lia|].
  destruct (Z.eqb_spec (terminal o) 0) as [|_]; [contradiction|].
  destruct (Z.eqb_spec (mode o) (ch "P")) as [|_]; [contradiction|].
  cbn [negb andb]. rewrite E, K.
  exists ret, o', p', ops, w, tail.
  split; [exact E2|].
  rewrite M2, T2, T3, L2, L3. cbn [log set_rd]. rewrite L, <- !app_assoc.
  repeat split; assumption.
Qed.

Lemma read_d0_mode_c_9600_witness :
  let r := arriving (id_string (chars "ABC5X")) ++ arriving (chars "!") in
  exists ret o' p' ops w tail,
    telegram_parser_read_d0 (Some (session_of (d0_opened r)))
                            (snd (d0_opened r))
      = Some (ret, Some o', p')
    /\ mode o' = ch "C"
    /\ c_ispeed (tio p') = B9600 /\ c_ospeed (tio p') = B9600
    /\ Forall request_op ops
    /\ log p' = log (snd (d0_opened r)) ++ ops
                  ++ OWrite [6; ch "0"; ch "5"; ch "0"; CR; LF] w
                  :: ODrain :: OSetattr (tio p') :: tail.
Proof.
  intros r.
  apply (read_d0_mode_c_9600 (session_of (d0_opened r))
           (mkmem (fun _ => 0) []) (snd (d0_opened r))
           (chars "ABC5X") (arriving (chars "!")));
    try reflexivity; try discriminate.
  - cbn. intros X. repeat (destruct X as [X|X]; [discriminate|]). exact X.
  - cbn. lia.
Defined.


(** ** The reads return *)

Theorem telegram_parser_read_returns `{Headers} obj p :
  exists r, telegram_parser_read obj p = Some r.
Proof.
  destruct obj as [o|]; [|now eexists].
  destruct (buffer o) as [m|] eqn:Hb.
  2:{ unfold telegram_parser_read. rewrite Hb. now eexists. }
  destruct (Z.eq_dec (bufsize o) 0) as [Hs|Hs].
  { unfold telegram_parser_read. rewrite Hb, Hs. now eexists. }
  destruct (Z_le_gt_dec (fd o) 0) as [Hf|Hf].
  { unfold telegram_parser_read. rewrite Hb.
    destruct (bufsize o =? 0); [now eexists|].
    destruct (Z.leb_spec (fd o) 0); [now eexists|lia]. }
  destruct (telegram_parser_read_usable o p m Hb Hs ltac:(lia))
    as (_ & _ & _ & ret & o' & p' & _ & R & _).
  eexists. exact R.
Qed.

Theorem telegram_parser_read_d0_returns `{Headers} o p :
  buffer o <> None ->
  exists r, telegram_parser_read_d0 (Some o) p = Some r.
Proof.
  intros Hb. unfold telegram_parser_read_d0.
  destruct (fd o <=? 0); [now eexists|].
  destruct (buffer o) as [m|]; [|contradiction].
  destruct (negb (terminal o =? 0) && negb (mode o =? ch "P")).
  - destruct (d0_handshake_returns o m p) as (x & ops & E & _). rewrite E.
    destruct x as [[[[code o1] m1] p1]|[[[idx o1] m1] p1]]; [now eexists|].
    destruct (d0_telegram_returns idx o1 m1 p1) as (ret & o' & p' & ? & E2 & _).
    rewrite E2. now eexists.
  - destruct (d0_telegram_returns 0 o m p) as (ret & o' & p' & ? & E2 & _).
    rewrite E2. now eexists.
Qed.

(** * Further properties *)

(** ** The framer on well-formed input *)

Lemma do_while_step {S R : Type} (iter : S -> R + S) fuel s s' :
  iter s = inr s' -> do_while iter (Datatypes.S fuel) s = do_while iter fuel s'.
Proof. intros E. cbn [do_while]. now rewrite E. Qed.

Lemma do_while_exit {S R : Type} (iter : S -> R + S) fuel s r :
  iter s = inl r -> do_while iter (Datatypes.S fuel) s = Some r.
Proof. intros E. cbn [do_while]. now rewrite E. Qed.

Lemma bytes_of_cells (c : Z -> Z) (l : list Z) :
  (forall k, (k < List.length l)%nat -> c (Z.of_nat k) = nth k l 0) ->
  bytes_of c (Z.of_nat (List.length l)) = l.
Proof.
  intros Hc. unfold bytes_of. rewrite Nat2Z.id.
  apply (nth_ext _ _ 0 0).
  - now rewrite length_map, length_seq.
  - intros k Hk. rewrite length_map, length_seq in Hk.
    rewrite <- (Hc k Hk).
    rewrite (nth_indep _ 0 (c (Z.of_nat 0))) by now rewrite length_map, length_seq.
    rewrite (map_nth (fun i => c (Z.of_nat i))).
    now rewrite seq_nth.
Qed.

Lemma rt_again_goes M f tel off buf p :
  0 <= M -> f = 0 ->
  rt_again M 1 (mkrt tel off f buf p) = inr (mkrt tel off f buf p).
Proof.
  intros HM ->. unfold rt_again. cbn [rt_failed]. change (1 >? 0) with true.
  destruct (Z.eqb_spec M 0); [reflexivity|].
  destruct (Z.ltb_spec 0 M); [reflexivity|lia].
Qed.

(** A byte other than '/' met while no telegram is open. *)
Lemma iter_skip bufsize M buf tty b r w t l :
  b <> ch "/" -> 0 <= M ->
  read_telegram_iter bufsize M
    (mkrt false 0 0 buf (mkport tty (RByte b :: r) w t l))
  = inr (mkrt false 0 0 buf (mkport tty r w t l)).
Proof.
  intros Hb HM. unfold read_telegram_iter, sys_read_byte.
  cbn [rt_port rt_telegram rt_offset rt_failed rt_buf rd negb andb].
  change (1 >? 0) with true. cbv iota.
  destruct (Z.eqb_spec b (ch "/")) as [|_]; [contradiction|].
  destruct (0 >=? bufsize); [change (wrap64 (0 + 0)) with 0|];
    now rewrite rt_again_goes.
Qed.

(** The '/' that opens a telegram. *)
Lemma iter_open bufsize M buf tty r w t l :
  0 <= M ->
  read_telegram_iter bufsize M
    (mkrt false 0 0 buf (mkport tty (RByte (ch "/") :: r) w t l))
  = inr (mkrt true 1 0 (store buf 0 (ch "/")) (mkport tty r w t l)).
Proof.
  intros HM. unfold read_telegram_iter, sys_read_byte.
  cbn [rt_port rt_telegram rt_offset rt_failed rt_buf rd negb andb].
  change (1 >? 0) with true. cbv iota. rewrite Z.eqb_refl.
  change (wrap64 (0 + 1)) with 1. now rewrite rt_again_goes.
Qed.

(** A byte other than '!' inside a telegram, with room in the buffer. *)
Lemma iter_store bufsize M off buf tty b r w t l :
  b <> ch "!" -> 0 <= off < bufsize -> bufsize < 2 ^ 64 -> 0 <= M ->
  read_telegram_iter bufsize M
    (mkrt true off 0 buf (mkport tty (RByte b :: r) w t l))
  = inr (mkrt true (off + 1) 0 (store buf off b) (mkport tty r w t l)).
Proof.
  intros Hb Ho Hs HM. unfold read_telegram_iter, sys_read_byte.
  cbn [rt_port rt_telegram rt_offset rt_failed rt_buf rd negb andb].
  change (1 >? 0) with true. cbv iota.
  destruct (Z.ltb_spec off bufsize) as [_|]; [|lia].
  destruct (Z.eqb_spec b (ch "!")) as [|_]; [contradiction|].
  rewrite wrap64_small by lia. now rewrite rt_again_goes.
Qed.

(** Bytes without '/' ahead of a telegram are passed over. *)
Lemma framer_skips bufsize M buf tty w t l (g : list Z) (r : list rres) fuel :
  ~ In (ch "/") g -> 0 <= M ->
  do_while (read_telegram_iter bufsize M) (List.length g + fuel)
           (mkrt false 0 0 buf (mkport tty (arriving g ++ r) w t l))
  = do_while (read_telegram_iter bufsize M) fuel
             (mkrt false 0 0 buf (mkport tty r w t l)).
Proof.
  intros Hg HM. induction g as [|b g IH]; [reflexivity|].
  cbn [List.length Nat.add arriving map app].
  rewrite (do_while_step _ _ _ _ (iter_skip bufsize M buf tty b _ w t l
             (fun E => Hg (or_introl E)) HM)).
  apply IH. intros X. apply Hg. now right.
Qed.

Lemma store_list_app m off (a b : list Z) :
  store_list m off (a ++ b)
  = store_list (store_list m off a) (off + Z.of_nat (List.length a)) b.
Proof.
  revert m off. induction a as [|x a IH]; intros m off.
  - cbn. now rewrite Z.add_0_r.
  - cbn [app store_list List.length]. rewrite IH. f_equal. lia.
Qed.

Lemma cell_store_list (l : list Z) m off i :
  cell (store_list m off l) i
  = if (off <=? i) && (i <? off + Z.of_nat (List.length l))
    then nth (Z.to_nat (i - off)) l 0 else cell m i.
Proof.
  revert m off. induction l as [|b l IH]; intros m off.
  - cbn [store_list List.length Z.of_nat].
    destruct (Z.leb_spec off i), (Z.ltb_spec i (off + 0)); cbn [andb];
      try reflexivity; lia.
  - cbn [store_list]. rewrite IH. cbn [List.length]. rewrite Nat2Z.inj_succ.
    destruct (Z.leb_spec (off + 1) i), (Z.leb_spec off i),
      (Z.ltb_spec i (off + 1 + Z.of_nat (List.length l))),
      (Z.ltb_spec i (off + Z.succ (Z.of_nat (List.length l))));
      cbn [andb]; try lia; cbn [cell store];
      try (destruct (Z.eqb_spec i off) as [->|]; try lia).
    all: try reflexivity.
    + replace (Z.to_nat (i - off)) with (S (Z.to_nat (i - (off + 1)))) by lia.
      reflexivity.
    + now rewrite Z.sub_diag.
Qed.

Lemma bytes_of_store_list m (l : list Z) :
  bytes_of (cell (store_list m 0 l)) (Z.of_nat (List.length l)) = l.
Proof.
  apply bytes_of_cells. intros k Hk. rewrite cell_store_list.
  destruct (Z.leb_spec 0 (Z.of_nat k)) as [_|]; [|lia].
  destruct (Z.ltb_spec (Z.of_nat k) (0 + Z.of_nat (List.length l))) as [_|];
    [|lia].
  cbn [andb]. now rewrite Z.sub_0_r, Nat2Z.id.
Qed.

Lemma written_store_list (l : list Z) m off :
  written (store_list m off l)
  = written m ++ map (fun k => off + Z.of_nat k) (seq 0 (List.length l)).
Proof.
  revert m off. induction l as [|b l IH]; intros m off.
  - cbn. now rewrite app_nil_r.
  - cbn [store_list List.length seq map]. rewrite IH. cbn [written store].
    rewrite <- app_assoc. cbn [app Z.of_nat]. rewrite Z.add_0_r.
    f_equal. f_equal. rewrite <- seq_shift, map_map. apply map_ext.
    intros k. lia.
Qed.

(** Bytes without '!' inside a telegram are stored one after the other. *)
Lemma framer_stores bufsize M tty w t l (c : list Z) :
  bufsize < 2 ^ 64 -> 0 <= M ->
  forall off buf (r : list rres) fuel,
  ~ In (ch "!") c -> 0 <= off ->
  off + Z.of_nat (List.length c) <= bufsize ->
  do_while (read_telegram_iter bufsize M) (List.length c + fuel)
           (mkrt true off 0 buf (mkport tty (arriving c ++ r) w t l))
  = do_while (read_telegram_iter bufsize M) fuel
             (mkrt true (off + Z.of_nat (List.length c)) 0
                   (store_list buf off c) (mkport tty r w t l)).
Proof.
  intros Hs HM. induction c as [|b c IH]; intros off buf r fuel Hc Ho Hl.
  - cbn [List.length Nat.add arriving map app Z.of_nat store_list].
    now rewrite Z.add_0_r.
  - cbn [List.length] in Hl. rewrite Nat2Z.inj_succ in Hl.
    cbn [List.length Nat.add arriving map app store_list].
    rewrite (do_while_step _ _ _ _ (iter_store bufsize M off buf tty b _ w t l
               (fun X => Hc (or_introl X)) ltac:(lia) Hs HM)).
    rewrite Nat2Z.inj_succ.
    replace (off + Z.succ (Z.of_nat (List.length c)))
      with (off + 1 + Z.of_nat (List.length c)) by lia.
    apply IH; [intros X; apply Hc; now right|lia|lia].
Qed.

(** The end of an old-style telegram: '!', CR and one more byte. *)
Lemma iter_old_style bufsize M off f buf tty x r w t l :
  0 <= off < bufsize -> off + 3 < 2 ^ 64 ->
  read_telegram_iter bufsize M
    (mkrt true off f buf
          (mkport tty (RByte (ch "!") :: RByte CR :: RByte x :: r) w t l))
  = inl (off + 3, store_list buf off [ch "!"; CR; x], mkport tty r w t l).
Proof.
  intros Ho Hs. unfold read_telegram_iter, sys_read_byte, sys_read.
  cbn [rt_port rt_telegram rt_offset rt_failed rt_buf rd negb andb set_rd
       is_tty wr tio log].
  change (1 >? 0) with true. cbv iota.
  destruct (Z.ltb_spec off bufsize) as [_|]; [|lia].
  rewrite Z.eqb_refl. rewrite (wrap64_small (off + 1)) by lia.
  change (1 + 1 =? 2) with true. cbv iota.
  cbn [cell store].
  destruct (Z.eqb_spec (off + 1) (off + 1 + 1)) as [|_]; [lia|].
  rewrite !Z.eqb_refl. change (CR =? CR) with true. cbv iota.
  rewrite wrap64_small by lia.
  replace (off + 1 + (1 + 1)) with (off + 3) by lia. reflexivity.
Qed.

(** The end of a new-style telegram: '!', four bytes of which the first is
    no CR, then CR and one more byte. *)
Lemma iter_new_style bufsize M off f buf tty h1 h2 h3 h4 x r w t l :
  0 <= off < bufsize -> off + 7 < 2 ^ 64 -> h1 <> CR ->
  read_telegram_iter bufsize M
    (mkrt true off f buf
          (mkport tty (RByte (ch "!") :: RByte h1 :: RByte h2 :: RByte h3
                       :: RByte h4 :: RByte CR :: RByte x :: r) w t l))
  = inl (off + 7, store_list buf off [ch "!"; h1; h2; h3; h4; CR; x],
         mkport tty r w t l).
Proof.
  intros Ho Hs H1. unfold read_telegram_iter, sys_read_byte, sys_read.
  cbn [rt_port rt_telegram rt_offset rt_failed rt_buf rd negb andb set_rd
       is_tty wr tio log].
  change (1 >? 0) with true. cbv iota.
  destruct (Z.ltb_spec off bufsize) as [_|]; [|lia].
  rewrite Z.eqb_refl. rewrite (wrap64_small (off + 1)) by lia.
  change (1 + 1 =? 2) with true. cbv iota.
  rewrite (wrap64_small (off + 1 + (1 + 1))) by lia.
  change (1 + 1 + 1 + 1 =? 4) with true.
  cbn [cell store andb].
  destruct (Z.eqb_spec (off + 1) (off + 1 + 1)) as [|_]; [lia|].
  rewrite !Z.eqb_refl.
  destruct (Z.eqb_spec h1 CR) as [|_]; [contradiction|].
  destruct (Z.eqb_spec (off + 1 + (1 + 1) + 2) (off + 1 + (1 + 1) + 3))
    as [|_]; [lia|].
  rewrite !Z.eqb_refl. cbv iota.
  rewrite wrap64_small by lia.
  cbn [store_list].
  replace (off + 1 + (1 + 1) + (1 + 1 + 1 + 1)) with (off + 7) by lia.
  replace (off + 1 + (1 + 1) + 1) with (off + 1 + 1 + 1 + 1) by lia.
  replace (off + 1 + (1 + 1) + 2) with (off + 1 + 1 + 1 + 1 + 1) by lia.
  replace (off + 1 + (1 + 1) + 3) with (off + 1 + 1 + 1 + 1 + 1 + 1) by lia.
  replace (off + 1 + (1 + 1)) with (off + 1 + 1 + 1) by lia.
  reflexivity.
Qed.

Lemma arriving_app (a b : list Z) : arriving (a ++ b) = arriving a ++ arriving b.
Proof. apply map_app. Qed.

Lemma arriving_length (a : list Z) : List.length (arriving a) = List.length a.
Proof. apply length_map. Qed.

(** The framer run over bytes without '/', a '/' and content without '!':
    it arrives inside the telegram with the content stored. *)
Lemma framer_reaches_mark bufsize M buf tty w t l (g c : list Z)
      (r : list rres) fuel :
  bufsize < 2 ^ 64 -> 0 <= M ->
  ~ In (ch "/") g -> ~ In (ch "!") c ->
  1 + Z.of_nat (List.length c) <= bufsize ->
  do_while (read_telegram_iter bufsize M)
           (List.length g + S (List.length c + fuel))
           (mkrt false 0 0 buf
                 (mkport tty (arriving (g ++ ch "/" :: c) ++ r) w t l))
  = do_while (read_telegram_iter bufsize M) fuel
             (mkrt true (1 + Z.of_nat (List.length c)) 0
                   (store_list buf 0 (ch "/" :: c)) (mkport tty r w t l)).
Proof.
  intros Hs HM Hg Hc Hl.
  rewrite arriving_app, <- app_assoc. cbn [arriving map app].
  rewrite framer_skips by assumption.
  rewrite (do_while_step _ _ _ _ (iter_open bufsize M buf tty _ w t l HM)).
  fold (arriving c).
  rewrite (framer_stores bufsize M tty w t l c Hs HM 1) by (assumption || lia).
  reflexivity.
Qed.

(** X1: an old-style telegram that fits into the buffer is found behind any
    bytes that hold no '/', whatever the cap, and is returned with its
    length; a '/' inside the telegram is content. *)
Theorem framer_takes_old_style (g c : list Z) (x : Z) (rest : list rres)
        p buf bufsize M :
  ~ In (ch "/") g -> ~ In (ch "!") c ->
  rd p = arriving (g ++ old_style c x) ++ rest ->
  Z.of_nat (List.length (old_style c x)) <= bufsize < 2 ^ 64 ->
  0 <= M ->
  read_telegram p buf bufsize M
    = Some (Z.of_nat (List.length (old_style c x)),
            store_list buf 0 (old_style c x), set_rd p rest)
  /\ bytes_of (cell (store_list buf 0 (old_style c x)))
              (Z.of_nat (List.length (old_style c x))) = old_style c x.
Proof.
  intros Hg Hc Hr Hl HM. split; [|apply bytes_of_store_list].
  assert (Ln : List.length (old_style c x) = (List.length c + 4)%nat).
  { unfold old_style. cbn [List.length]. rewrite length_app. cbn. lia. }
  rewrite Ln in *.
  destruct p as [tty rdl w t l]. cbn [rd] in Hr. subst rdl.
  unfold read_telegram, set_rd. cbn [rd is_tty wr tio log].
  replace (S (List.length (arriving (g ++ old_style c x) ++ rest)))
    with (List.length g + S (List.length c + S (3 + List.length rest)))%nat
    by (rewrite length_app, arriving_length, length_app, Ln; lia).
  unfold old_style.
  replace (g ++ ch "/" :: c ++ [ch "!"; CR; x])
    with ((g ++ ch "/" :: c) ++ [ch "!"; CR; x])
    by (now rewrite <- app_assoc).
  rewrite (arriving_app (g ++ ch "/" :: c)), <- app_assoc.
  rewrite framer_reaches_mark by (assumption || lia).
  cbn [arriving map app].
  rewrite (do_while_exit _ _ _ _
             (iter_old_style bufsize M (1 + Z.of_nat (List.length c)) 0 _
                tty x rest w t l ltac:(lia) ltac:(lia))).
  change (ch "/" :: c ++ [ch "!"; CR; x])
    with ((ch "/" :: c) ++ [ch "!"; CR; x]).
  rewrite store_list_app.
  replace (0 + Z.of_nat (List.length (ch "/" :: c)))
    with (1 + Z.of_nat (List.length c)) by (cbn [List.length]; lia).
  replace (1 + Z.of_nat (List.length c) + 3)
    with (Z.of_nat (List.length c + 4)) by lia.
  reflexivity.
Qed.

(** X2: a new-style telegram that fits into the buffer is found and
    returned in the same way; of the CRC field only the first byte is
    looked at, which must not be a CR. *)
Theorem framer_takes_new_style (g c : list Z) (h1 h2 h3 h4 x : Z)
        (rest : list rres) p buf bufsize M :
  ~ In (ch "/") g -> ~ In (ch "!") c -> h1 <> CR ->
  rd p = arriving (g ++ new_style c h1 h2 h3 h4 x) ++ rest ->
  Z.of_nat (List.length (new_style c h1 h2 h3 h4 x)) <= bufsize < 2 ^ 64 ->
  0 <= M ->
  read_telegram p buf bufsize M
    = Some (Z.of_nat (List.length (new_style c h1 h2 h3 h4 x)),
            store_list buf 0 (new_style c h1 h2 h3 h4 x), set_rd p rest)
  /\ bytes_of (cell (store_list buf 0 (new_style c h1 h2 h3 h4 x)))
              (Z.of_nat (List.length (new_style c h1 h2 h3 h4 x)))
     = new_style c h1 h2 h3 h4 x.
Proof.
  intros Hg Hc H1 Hr Hl HM. split; [|apply bytes_of_store_list].
  assert (Ln : List.length (new_style c h1 h2 h3 h4 x)
               = (List.length c + 8)%nat).
  { unfold new_style. cbn [List.length]. rewrite length_app. cbn. lia. }
  rewrite Ln in *.
  destruct p as [tty rdl w t l]. cbn [rd] in Hr. subst rdl.
  unfold read_telegram, set_rd. cbn [rd is_tty wr tio log].
  replace (S (List.length (arriving (g ++ new_style c h1 h2 h3 h4 x) ++ rest)))
    with (List.length g + S (List.length c + S (7 + List.length rest)))%nat
    by (rewrite length_app, arriving_length, length_app, Ln; lia).
  unfold new_style.
  replace (g ++ ch "/" :: c ++ [ch "!"; h1; h2; h3; h4; CR; x])
    with ((g ++ ch "/" :: c) ++ [ch "!"; h1; h2; h3; h4; CR; x])
    by (now rewrite <- app_assoc).
  rewrite (arriving_app (g ++ ch "/" :: c)), <- app_assoc.
  rewrite framer_reaches_mark by (assumption || lia).
  cbn [arriving map app].
  rewrite (do_while_exit _ _ _ _
             (iter_new_style bufsize M (1 + Z.of_nat (List.length c)) 0 _
                tty h1 h2 h3 h4 x rest w t l ltac:(lia) ltac:(lia) H1)).
  change (ch "/" :: c ++ [ch "!"; h1; h2; h3; h4; CR; x])
    with ((ch "/" :: c) ++ [ch "!"; h1; h2; h3; h4; CR; x]).
  rewrite store_list_app.
  replace (0 + Z.of_nat (List.length (ch "/" :: c)))
    with (1 + Z.of_nat (List.length c)) by (cbn [List.length]; lia).
  replace (1 + Z.of_nat (List.length c) + 7)
    with (Z.of_nat (List.length c + 8)) by lia.
  reflexivity.
Qed.

Lemma framer_takes_old_style_witness :
  read_telegram (serial (arriving (chars "xy" ++ old_style (chars "1-0:1.8.0(1*kWh)") LF)
                         ++ [RByte 0]))
                (mkmem (fun _ => 0) []) 64 64
  = Some (20, store_list (mkmem (fun _ => 0) []) 0
                (old_style (chars "1-0:1.8.0(1*kWh)") LF),
          set_rd (serial []) [RByte 0]).
Proof.
  refine (proj1 (framer_takes_old_style (chars "xy") (chars "1-0:1.8.0(1*kWh)")
                   LF [RByte 0] (serial _) (mkmem (fun _ => 0) []) 64 64
                   _ _ eq_refl _ _)).
  - cbn. intros X. repeat (destruct X as [X|X]; [discriminate|]). exact X.
  - cbn. intros X. repeat (destruct X as [X|X]; [discriminate|]). exact X.
  - cbn. lia.
  - lia.
Defined.

Lemma framer_takes_new_style_witness :
  read_telegram (serial (arriving (chars "xy" ++
                           new_style (chars "a/b") (ch "4") (ch "1") (ch "D")
                                     (ch "8") LF)))
                (mkmem (fun _ => 0) []) 64 64
  = Some (11, store_list (mkmem (fun _ => 0) []) 0
                (new_style (chars "a/b") (ch "4") (ch "1") (ch "D") (ch "8") LF),
          set_rd (serial []) []).
Proof.
  refine (proj1 (framer_takes_new_style (chars "xy") (chars "a/b")
                   (ch "4") (ch "1") (ch "D") (ch "8") LF [] (serial _)
                   (mkmem (fun _ => 0) []) 64 64 _ _ _ _ _ _)).
  - cbn. intros X. repeat (destruct X as [X|X]; [discriminate|]). exact X.
  - cbn. intros X. repeat (destruct X as [X|X]; [discriminate|]). exact X.
  - discriminate.
  - reflexivity.
  - cbn. lia.
  - lia.
Defined.

(** X3: input without a '/' is read up to the first read that brings no
    byte (the end of the input, a timeout, an error); the result is 0 and the
    buffer is not touched, whatever the cap and however many bytes there
    are. *)
Theorem framer_finds_nothing (g : list Z) (tail : list rres) p buf bufsize M :
  ~ In (ch "/") g -> 0 <= M ->
  (forall b r, tail <> RByte b :: r) ->
  rd p = arriving g ++ tail ->
  read_telegram p buf bufsize M = Some (0, buf, set_rd p (tl tail)).
Proof.
  intros Hg HM Ht Hr.
  destruct p as [tty rdl w t l]. cbn [rd] in Hr. subst rdl.
  unfold read_telegram, set_rd. cbn [rd is_tty wr tio log].
  replace (S (List.length (arriving g ++ tail)))
    with (List.length g + S (List.length tail))%nat
    by (rewrite length_app, arriving_length; lia).
  rewrite framer_skips by assumption.
  apply do_while_exit.
  unfold read_telegram_iter, sys_read_byte. cbn [rt_port rd].
  destruct tail as [|[b| |] r]; cbn [tl]; try reflexivity.
  exfalso. now apply (Ht b r).
Qed.

Lemma framer_finds_nothing_witness :
  read_telegram (serial (arriving (chars "no telegram here") ++ [RNone; RByte 47]))
                (mkmem (fun _ => 0) []) 8 1
  = Some (0, mkmem (fun _ => 0) [], set_rd (serial []) [RByte 47]).
Proof.
  refine (framer_finds_nothing (chars "no telegram here") [RNone; RByte 47]
            (serial _) (mkmem (fun _ => 0) []) 8 1 _ _ _ eq_refl).
  - cbn. intros X. repeat (destruct X as [X|X]; [discriminate|]). exact X.
  - lia.
  - discriminate.
Defined.

(** X4: a telegram that fills the buffer without a '!' is given up at the
    next byte, which is dropped; with a cap of at most the buffer size (as
    [telegram_parser_read] passes it) the framer then returns 0 and leaves
    the rest of the input unread. *)
Theorem framer_gives_up_on_overflow (g c : list Z) (x : Z) (rest : list rres)
        p buf bufsize M :
  ~ In (ch "/") g -> ~ In (ch "!") c ->
  1 + Z.of_nat (List.length c) = bufsize -> bufsize < 2 ^ 64 ->
  0 < M <= bufsize ->
  rd p = arriving (g ++ ch "/" :: c ++ [x]) ++ rest ->
  read_telegram p buf bufsize M
    = Some (0, store_list buf 0 (ch "/" :: c), set_rd p rest).
Proof.
  intros Hg Hc Hl Hs HM Hr.
  destruct p as [tty rdl w t l]. cbn [rd] in Hr. subst rdl.
  unfold read_telegram, set_rd. cbn [rd is_tty wr tio log].
  replace (S (List.length (arriving (g ++ ch "/" :: c ++ [x]) ++ rest)))
    with (List.length g + S (List.length c + S (1 + List.length rest)))%nat
    by (rewrite length_app, arriving_length, length_app; cbn [List.length];
        rewrite length_app; cbn [List.length]; lia).
  replace (g ++ ch "/" :: c ++ [x]) with ((g ++ ch "/" :: c) ++ [x])
    by (now rewrite <- app_assoc).
  rewrite (arriving_app (g ++ ch "/" :: c)), <- app_assoc.
  rewrite framer_reaches_mark by (assumption || lia).
  cbn [arriving map app].
  apply do_while_exit.
  unfold read_telegram_iter, sys_read_byte.
  cbn [rt_port rt_telegram rt_offset rt_failed rt_buf rd negb andb set_rd
       is_tty wr tio log].
  change (1 >? 0) with true. cbv iota.
  rewrite Hl.
  destruct (Z.ltb_spec bufsize bufsize) as [|_]; [lia|].
  destruct (Z.geb_spec bufsize bufsize) as [_|]; [|lia].
  unfold rt_again. cbn [rt_failed rt_buf rt_port].
  rewrite wrap64_small by lia. change (1 >? 0) with true.
  destruct (Z.eqb_spec M 0) as [|_]; [lia|].
  destruct (Z.ltb_spec (0 + bufsize) M) as [|_]; [lia|].
  reflexivity.
Qed.

Lemma framer_gives_up_on_overflow_witness :
  read_telegram (serial (arriving (chars "/1234567" ++ chars "8!") ++ [RByte LF]))
                (mkmem (fun _ => 0) []) 8 8
  = Some (0, store_list (mkmem (fun _ => 0) []) 0 (chars "/1234567"),
          set_rd (serial []) (arriving (chars "!") ++ [RByte LF])).
Proof.
  refine (framer_gives_up_on_overflow [] (chars "1234567") (ch "8")
            (arriving (chars "!") ++ [RByte LF]) (serial _)
            (mkmem (fun _ => 0) []) 8 8 _ _ eq_refl _ _ eq_refl).
  - intros [].
  - cbn. intros X. repeat (destruct X as [X|X]; [discriminate|]). exact X.
  - lia.
  - lia.
Defined.

(** ** How far the framer writes *)

Lemma grows_refl P m : grows P m m.
Proof. exists []. now rewrite app_nil_r. Qed.

Lemma grows_trans P a b c : grows P a b -> grows P b c -> grows P a c.
Proof.
  intros (x & E1 & F1) (y & E2 & F2). exists (x ++ y).
  rewrite E2, E1, app_assoc. split; [reflexivity|].
  apply Forall_app. now split.
Qed.

Lemma grows_store (P : Z -> Prop) m i b : P i -> grows P m (store m i b).
Proof. intros Hi. exists [i]. split; [reflexivity|]. now constructor. Qed.

Lemma grows_sys_read (P : Z -> Prop) p m i n m' p' :
  P i -> sys_read p m i = (n, m', p') -> grows P m m'.
Proof.
  intros Hi. unfold sys_read. destruct (rd p) as [|[b| |] r]; intros X;
    inversion X; subst; try apply grows_refl. now apply grows_store.
Qed.

Lemma rt_again_buf M n s :
  match rt_again M n s with
  | inl (_, m, _) => m = rt_buf s
  | inr s' => rt_buf s' = rt_buf s
  end.
Proof. destruct (rt_again_cases M n s) as [A|A]; now rewrite A. Qed.

Lemma read_telegram_iter_writes bufsize M s :
  0 <= bufsize -> bufsize + 6 < 2 ^ 64 ->
  framing bufsize s ->
  match read_telegram_iter bufsize M s with
  | inl (_, m, _) => grows (framer_index bufsize) (rt_buf s) m
  | inr s' => grows (framer_index bufsize) (rt_buf s) (rt_buf s')
  end.
Proof.
  intros Hb0 Hb1 (I0 & I1 & I2).
  set (P := framer_index bufsize).
  assert (A : forall n st m0, grows P m0 (rt_buf st) ->
            match rt_again M n st with
            | inl (_, m, _) => grows P m0 m
            | inr s' => grows P m0 (rt_buf s')
            end).
  { intros n st m0 G. pose proof (rt_again_buf M n st) as B.
    destruct (rt_again M n st) as [[[? ?] ?]|?]; now rewrite B. }
  unfold read_telegram_iter.
  destruct s as [tel off failed buf p]. cbn [rt_telegram rt_offset rt_failed
    rt_buf rt_port] in *.
  destruct (sys_read_byte p 0) as [[n b] p1].
  destruct (n >? 0).
  2:{ apply A. apply grows_refl. }
  destruct tel; cbn [negb andb].
  - destruct (I1 eq_refl) as (_ & O1 & O2). clear I1 I2.
    destruct (Z.ltb_spec off bufsize) as [Lt|Ge].
    + rewrite (wrap64_small (off + 1)) by lia.
      assert (G0 : grows P buf (store buf off b)).
      { apply grows_store. unfold P, framer_index. lia. }
      destruct (Z.eqb_spec b (ch "!")) as [->|Nb].
      * destruct (sys_read p1 (store buf off (ch "!")) (off + 1))
          as [[l1 m1] q1] eqn:E1.
        apply (grows_sys_read P) in E1; [|unfold P, framer_index; lia].
        destruct (sys_read q1 m1 (off + 1 + 1)) as [[l2 m2] q2] eqn:E2.
        apply (grows_sys_read P) in E2; [|unfold P, framer_index; lia].
        pose proof (grows_trans _ _ _ _ (grows_trans _ _ _ _ G0 E1) E2) as G2.
        destruct (Z.eqb_spec (l1 + l2) 2) as [L2|_].
        2:{ apply A. exact G2. }
        rewrite L2.
        destruct (cell m2 (off + 1) =? CR); [exact G2|].
        rewrite (wrap64_small (off + 1 + 2)) by lia.
        destruct (sys_read q2 m2 (off + 1 + 2)) as [[l3 m3] q3] eqn:E3.
        apply (grows_sys_read P) in E3; [|unfold P, framer_index; lia].
        destruct (sys_read q3 m3 (off + 1 + 2 + 1)) as [[l4 m4] q4] eqn:E4.
        apply (grows_sys_read P) in E4; [|unfold P, framer_index; lia].
        destruct (sys_read q4 m4 (off + 1 + 2 + 2)) as [[l5 m5] q5] eqn:E5.
        apply (grows_sys_read P) in E5; [|unfold P, framer_index; lia].
        destruct (sys_read q5 m5 (off + 1 + 2 + 3)) as [[l6 m6] q6] eqn:E6.
        apply (grows_sys_read P) in E6; [|unfold P, framer_index; lia].
        pose proof (grows_trans _ _ _ _ (grows_trans _ _ _ _
                     (grows_trans _ _ _ _ (grows_trans _ _ _ _ G2 E3) E4) E5) E6)
          as G6.
        destruct (_ && _); [exact G6|]. apply A. exact G6.
      * apply A. exact G0.
    + destruct (off >=? bufsize); apply A; apply grows_refl.
  - pose proof (I2 eq_refl) as O0. subst off. clear I1 I2.
    destruct (Z.eqb_spec b (ch "/")) as [->|Nb].
    + apply A. apply grows_store. unfold P, framer_index. lia.
    + destruct (0 >=? bufsize); apply A; apply grows_refl.
Qed.

(** X5: the framer stores only to the buffer and, at most, the six bytes
    behind it. *)
Theorem framer_writes_within_six p buf bufsize M n m' p' :
  0 <= bufsize -> bufsize + 6 < 2 ^ 64 ->
  read_telegram p buf bufsize M = Some (n, m', p') ->
  exists ws,
    written m' = written buf ++ ws
    /\ Forall (fun i => 0 <= i < Z.max 1 bufsize + 6) ws.
Proof.
  intros Hb0 Hb1. unfold read_telegram.
  apply (do_while_invariant _
           (fun s => framing bufsize s
                     /\ grows (framer_index bufsize) buf (rt_buf s))
           (fun r => grows (framer_index bufsize) buf (snd (fst r))))
    with (r := (n, m', p')).
  - intros s s' [I G] X.
    pose proof (read_telegram_iter_frames bufsize M s Hb0 Hb1 I) as D.
    pose proof (read_telegram_iter_writes bufsize M s Hb0 Hb1 I) as W.
    rewrite X in D, W. split; [exact D|]. eapply grows_trans; eauto.
  - intros s [[x y] z] [I G] X.
    pose proof (read_telegram_iter_writes bufsize M s Hb0 Hb1 I) as W.
    rewrite X in W. cbn [fst snd]. eapply grows_trans; eauto.
  - split; [|apply grows_refl]. repeat split; cbn; try lia; discriminate.
Qed.

Lemma framer_run_example :
  exists m' p',
    read_telegram (serial (arriving (line "/123456!")))
                  (mkmem (fun _ => 0) []) 8 8 = Some (10, m', p')
    /\ written m' = [0; 1; 2; 3; 4; 5; 6; 7; 8; 9].
Proof. do 2 eexists. split; [vm_compute; reflexivity|reflexivity]. Defined.

Lemma framer_writes_within_six_witness :
  exists m' p',
    read_telegram (serial (arriving (line "/123456!")))
                  (mkmem (fun _ => 0) []) 8 8 = Some (10, m', p')
    /\ exists ws,
         written m' = [] ++ ws
         /\ Forall (fun i => 0 <= i < Z.max 1 8 + 6) ws.
Proof.
  destruct framer_run_example as (m' & p' & E & _).
  exists m', p'. split; [exact E|].
  exact (framer_writes_within_six _ _ 8 8 _ _ _ ltac:(lia) ltac:(lia) E).
Defined.

(** X6: a length other than 0 that the framer returns belongs to a buffer
    with '/' in front and a '!' three or seven bytes before the end, and
    is at most six more than the buffer size. *)
Theorem framer_frame_shape p buf bufsize M n m' p' :
  0 <= bufsize -> bufsize + 6 < 2 ^ 64 ->
  read_telegram p buf bufsize M = Some (n, m', p') -> n <> 0 ->
  cell m' 0 = ch "/"
  /\ (cell m' (n - 3) = ch "!" \/ cell m' (n - 7) = ch "!")
  /\ n <= Z.max 1 bufsize + 6.
Proof. apply read_telegram_framed. Qed.

Lemma framer_frame_shape_witness :
  exists m' p',
    read_telegram (serial (arriving (line "/123456!")))
                  (mkmem (fun _ => 0) []) 8 8 = Some (10, m', p')
    /\ cell m' 0 = ch "/"
    /\ (cell m' (10 - 3) = ch "!" \/ cell m' (10 - 7) = ch "!")
    /\ 10 <= Z.max 1 8 + 6.
Proof.
  destruct framer_run_example as (m' & p' & E & _).
  exists m', p'. split; [exact E|].
  exact (framer_frame_shape _ _ 8 8 10 m' p' ltac:(lia) ltac:(lia) E
           ltac:(discriminate)).
Defined.

(** ** Opening, reading and closing a session *)

(** What a P1 read leaves as it was, whatever it returns. *)
Lemma telegram_parser_read_keeps `{Headers} o p ret o' p' :
  telegram_parser_read (Some o) p = Some (ret, Some o', p') ->
  oldtio o' = oldtio o /\ fd o' = fd o /\ terminal o' = terminal o
  /\ mode o' = mode o /\ bufsize o' = bufsize o /\ timeout o' = timeout o
  /\ is_tty p' = is_tty p /\ wr p' = wr p
  /\ exists ops, log p' = log p ++ ops /\ Forall silent ops.
Proof.
  unfold telegram_parser_read.
  assert (N : exists ops, log p = log p ++ ops /\ Forall silent ops).
  { exists []. now rewrite app_nil_r. }
  destruct (buffer o) as [m|].
  2:{ intros X. inversion X; subst. repeat split; auto. }
  destruct (bufsize o =? 0).
  { intros X. inversion X; subst. repeat split; auto. }
  destruct (fd o <=? 0).
  { intros X. inversion X; subst. repeat split; auto. }
  change (bufsize (set_crc16 o 0)) with (bufsize o).
  destruct (read_telegram p m (bufsize o) (bufsize o)) as [[[n m1] p1]|] eqn:E;
    [|discriminate].
  apply read_telegram_device in E. destruct E as (E1 & E2 & E3 & E4).
  cbv zeta.
  set (o1 := set_len (set_buffer (set_crc16 o 0) (Some m1)) n).
  assert (K1 : oldtio o1 = oldtio o /\ fd o1 = fd o /\ terminal o1 = terminal o
               /\ mode o1 = mode o /\ bufsize o1 = bufsize o
               /\ timeout o1 = timeout o) by (repeat split).
  clearbody o1.
  assert (K2 : exists c o2,
    (if len o1 =? 0 then (0, o1)
     else (if status (run_parser o1 m1) =? 1
           then crc_telegram (cell m1) (wrap32 (len (run_parser o1 m1)))
           else 0, dump_on_errors (run_parser o1 m1) m1)) = (c, o2)
    /\ oldtio o2 = oldtio o /\ fd o2 = fd o /\ terminal o2 = terminal o
    /\ mode o2 = mode o /\ bufsize o2 = bufsize o /\ timeout o2 = timeout o).
  { destruct (len o1 =? 0); [now exists 0, o1|].
    do 2 eexists. split; [reflexivity|].
    destruct K1 as (<- & <- & <- & <- & <- & <-).
    unfold dump_on_errors, run_parser.
    destruct (parser_finish _) as [st ps].
    destruct (parse_errors _ =? 0); [|destruct (dumpfile _)];
      destruct o1; repeat split. }
  destruct K2 as (c & o2 & -> & K2). clear K1 o1.
  cbv iota beta.
  destruct (negb (terminal o2 =? 0) && (len o2 =? 0) && (mode o2 =? ch "P")).
  - set (o3 := if cfgetispeed (newtio o2) =? B115200
               then set_newtio o2 (cfsetispeed (newtio o2) B9600)
               else set_newtio o2 (cfsetispeed (newtio o2) B115200)).
    assert (K3 : oldtio o3 = oldtio o /\ fd o3 = fd o /\ terminal o3 = terminal o
                 /\ mode o3 = mode o /\ bufsize o3 = bufsize o
                 /\ timeout o3 = timeout o
                 /\ tp_parser o3 = tp_parser o2).
    { unfold o3. destruct (_ =? B115200); cbn; tauto. }
    clearbody o3. destruct K3 as (A1 & A2 & A3 & A4 & A5 & A6 & A7).
    assert (P : is_tty (tcsetattr (fd o3) (tcflush p1) (newtio o3)) = is_tty p
                /\ wr (tcsetattr (fd o3) (tcflush p1) (newtio o3)) = wr p
                /\ exists ops,
                     log (tcsetattr (fd o3) (tcflush p1) (newtio o3))
                     = log p ++ ops /\ Forall silent ops).
    { unfold tcsetattr, tcflush, add_log. cbn [is_tty].
      destruct (_ && _); cbn [is_tty wr log]; rewrite E1, E2, E4;
        (split; [reflexivity|]); (split; [reflexivity|]).
      - exists [OFlush; OSetattr (newtio o3)]. rewrite <- app_assoc.
        split; [reflexivity|]. repeat constructor.
      - exists [OFlush]. split; [reflexivity|]. repeat constructor. }
    destruct P as (P1 & P2 & P3).
    destruct (_ && _); intros X; inversion X; subst; tauto.
  - assert (P3 : exists ops, log p1 = log p ++ ops /\ Forall silent ops).
    { exists []. now rewrite app_nil_r. }
    destruct (_ && _); intros X; inversion X; subst; tauto.
Qed.

(** X7: an open that fails returns -2 (the device could not be opened), -3
    (the dump file could not be opened) or -4 (no memory), in this order of
    checks, and leaves the session without a buffer, so that a read on it
    returns -2 and touches nothing. *)
Theorem open_failure_then_read `{Headers} e o0 infile bs tmo dumpname p
        ret obj' p' :
  telegram_parser_open e (Some o0) infile bs tmo dumpname p = (ret, obj', p') ->
  ret <> 0 ->
  (ret = -2 /\ infile <> None /\ open_ret e < 0
   \/ ret = -3 /\ dumpname <> None /\ fopen_ret e = None
   \/ ret = -4 /\ malloc_ret e = None)
  /\ (exists o, obj' = Some o /\ buffer o = None /\ bufsize o = 0)
  /\ forall q, telegram_parser_read obj' q = Some (-2, obj', q).
Proof.
  unfold telegram_parser_open.
  set (t := if tmo <=? 0 then READ_TIMEOUT else tmo).
  destruct infile as [name|].
  - cbn [fd set_fd].
    destruct (Z.ltb_spec (open_ret e) 0) as [Lt|Ge].
    { intros X N. inversion X; subst. cbn.
      split; [left; repeat split; [discriminate|assumption]|].
      split; [eexists; repeat split|reflexivity]. }
    destruct (is_tty p); destruct dumpname as [d|];
      try destruct (fopen_ret e) as [dc|] eqn:F;
      destruct (malloc_ret e) as [c|] eqn:Mc;
      intros X N; inversion X; subst; try contradiction; cbn;
      (split; [|split; [eexists; repeat split|reflexivity]]);
      first [ solve [right; left; repeat split; discriminate]
            | solve [right; right; repeat split] ].
  - destruct dumpname as [d|];
      try destruct (fopen_ret e) as [dc|] eqn:F;
      destruct (malloc_ret e) as [c|] eqn:Mc;
      intros X N; inversion X; subst; try contradiction; cbn;
      (split; [|split; [eexists; repeat split|reflexivity]]);
      first [ solve [right; left; repeat split; discriminate]
            | solve [right; right; repeat split] ].
Qed.

Lemma open_failure_then_read_witness :
  let r := @telegram_parser_open demo_headers (mkenv 3 None None)
             (Some blank_session) (Some "/dev/ttyUSB0"%string) 64 5 None
             (serial []) in
  fst (fst r) = -4
  /\ telegram_parser_read (snd (fst r)) (snd r)
     = Some (-2, snd (fst r), snd r).
Proof.
  intros r. split; [reflexivity|].
  refine (proj2 (proj2 (open_failure_then_read (mkenv 3 None None)
            blank_session (Some "/dev/ttyUSB0"%string) 64 5 None (serial [])
            (-4) _ _ eq_refl _)) (snd r)).
  discriminate.
Defined.

Lemma telegram_parser_open_ok `{Headers} e o0 infile bs tmo dumpname p o p' :
  telegram_parser_open e (Some o0) infile bs tmo dumpname p = (0, Some o, p') ->
  mode o = ch "P" /\ len o = 0 /\ status o = 0
  /\ (exists c, malloc_ret e = Some c /\ buffer o = Some (mkmem c []))
  /\ bufsize o = (if bs =? 0 then PARSER_BUFLEN else bs)
  /\ timeout o = (if tmo <=? 0 then READ_TIMEOUT else tmo)
  /\ fd o = match infile with
            | Some _ => open_ret e
            | None => -1
            end
  /\ dumpfile o = match dumpname with
                  | Some _ => fopen_ret e
                  | None => None
                  end.
Proof.
  unfold telegram_parser_open.
  destruct infile as [name|].
  - cbn [fd set_fd].
    destruct (open_ret e <? 0); [discriminate|].
    destruct (is_tty p); destruct dumpname as [d|];
      try destruct (fopen_ret e) as [dc|] eqn:F;
      destruct (malloc_ret e) as [c|] eqn:Mc;
      intros X; inversion X; subst; cbn; repeat split; eauto.
  - destruct dumpname as [d|];
      try destruct (fopen_ret e) as [dc|] eqn:F;
      destruct (malloc_ret e) as [c|] eqn:Mc;
      intros X; inversion X; subst; cbn; repeat split; eauto.
Qed.

(** X8: a successful open leaves a session in mode 'P' with no telegram,
    a fresh buffer of the size asked for (PARSER_BUFLEN for 0) and the
    timeout asked for (READ_TIMEOUT for 0 or less); its descriptor is the
    one [open] gave, or -1 without an input file. *)
Theorem open_success_state `{Headers} e o0 infile bs tmo dumpname p o p' :
  telegram_parser_open e (Some o0) infile bs tmo dumpname p = (0, Some o, p') ->
  mode o = ch "P" /\ len o = 0 /\ status o = 0
  /\ (exists c, malloc_ret e = Some c /\ buffer o = Some (mkmem c []))
  /\ bufsize o = (if bs =? 0 then PARSER_BUFLEN else bs)
  /\ timeout o = (if tmo <=? 0 then READ_TIMEOUT else tmo)
  /\ fd o = match infile with
            | Some _ => open_ret e
            | None => -1
            end
  /\ dumpfile o = match dumpname with
                  | Some _ => fopen_ret e
                  | None => None
                  end.
Proof. apply telegram_parser_open_ok. Qed.

Lemma open_success_state_witness :
  let o := session_of (p1_opened []) in
  mode o = ch "P" /\ len o = 0 /\ status o = 0
  /\ (exists c, malloc_ret demo_env = Some c /\ buffer o = Some (mkmem c []))
  /\ bufsize o = 64 /\ timeout o = 5 /\ fd o = 3 /\ dumpfile o = None.
Proof.
  exact (open_success_state demo_env blank_session (Some "/dev/ttyUSB0"%string)
           64 5 None (serial []) (session_of (p1_opened []))
           (snd (p1_opened [])) eq_refl).
Defined.

Lemma telegram_parser_open_terminal `{Headers} e o0 name bs tmo dumpname p
        ret obj' p' :
  telegram_parser_open e (Some o0) (Some name) bs tmo dumpname p
    = (ret, obj', p') ->
  0 <= open_ret e -> is_tty p = true ->
  tio p' = mktermios B115200 B115200 8 false
             (((if tmo <=? 0 then READ_TIMEOUT else tmo) * 10) mod 256) 0
  /\ log p' = log p ++ [OFlush; OSetattr (tio p')]
  /\ rd p' = rd p
  /\ exists o, obj' = Some o /\ oldtio o = tio p /\ newtio o = tio p'
               /\ terminal o = 1 /\ fd o = open_ret e.
Proof.
  unfold telegram_parser_open. intros X Hf Ht. revert X.
  cbn [fd set_fd]. rewrite Ht.
  destruct (Z.ltb_spec (open_ret e) 0) as [|_]; [lia|].
  unfold tcsetattr, tcflush, add_log.
  cbn [fd set_fd set_newtio set_terminal set_oldtio is_tty].
  rewrite Ht. destruct (Z.leb_spec 0 (open_ret e)) as [_|]; [|lia].
  cbn [andb].
  destruct dumpname as [d|];
    try destruct (fopen_ret e) as [dc|];
    destruct (malloc_ret e) as [c|];
    intros X; inversion X; subst; cbn; rewrite <- ?app_assoc;
    repeat split; eexists; repeat split.
Qed.

(** X9: when the device opens and is a terminal, the open saves its
    attributes, flushes its input and sets it to 115200 baud, 8 bits, no
    parity, with VMIN 0 and the timeout in tenths of a second as VTIME -
    through an unsigned char, so modulo 256. *)
Theorem open_configures_terminal `{Headers} e o0 name bs tmo dumpname p
        ret obj' p' :
  telegram_parser_open e (Some o0) (Some name) bs tmo dumpname p
    = (ret, obj', p') ->
  0 <= open_ret e -> is_tty p = true ->
  tio p' = mktermios B115200 B115200 8 false
             (((if tmo <=? 0 then READ_TIMEOUT else tmo) * 10) mod 256) 0
  /\ log p' = log p ++ [OFlush; OSetattr (tio p')]
  /\ rd p' = rd p
  /\ exists o, obj' = Some o /\ oldtio o = tio p /\ newtio o = tio p'
               /\ terminal o = 1 /\ fd o = open_ret e.
Proof. apply telegram_parser_open_terminal. Qed.

Lemma open_configures_terminal_witness :
  tio (snd (p1_opened [])) = mktermios B115200 B115200 8 false 50 0
  /\ log (snd (p1_opened []))
     = [] ++ [OFlush; OSetattr (tio (snd (p1_opened [])))]
  /\ rd (snd (p1_opened [])) = []
  /\ exists o, snd (fst (p1_opened [])) = Some o
               /\ oldtio o = mktermios B9600 B9600 8 false 0 1
               /\ newtio o = tio (snd (p1_opened []))
               /\ terminal o = 1 /\ fd o = 3.
Proof.
  exact (open_configures_terminal demo_env blank_session "/dev/ttyUSB0"%string
           64 5 None (serial []) _ _ _ eq_refl ltac:(cbn; lia) eq_refl).
Defined.

(** X10: closing twice is closing once: the second close changes neither the
    session nor the device. *)
Theorem close_twice `{Headers} obj p :
  telegram_parser_close (fst (telegram_parser_close obj p))
                        (snd (telegram_parser_close obj p))
  = telegram_parser_close obj p.
Proof.
  destruct obj as [o|]; [|reflexivity].
  destruct o as [ps st bf bs ln f tm to ot nt df md].
  unfold telegram_parser_close.
  cbn [bufsize buffer fd terminal dumpfile oldtio set_len set_bufsize
       set_buffer set_fd set_terminal set_dumpfile].
  destruct (bs =? 0) eqn:B; cbn [negb]; try rewrite B;
    destruct bf as [m|]; destruct (f >? 0) eqn:F;
    destruct df as [d|];
    do 3 (cbn -[tcsetattr]; rewrite ?B, ?F); reflexivity.
Qed.

Lemma close_leaves `{Headers} o p :
  exists o',
    fst (telegram_parser_close (Some o) p) = Some o'
    /\ fd o' <= 0 /\ (buffer o' = None \/ bufsize o' = 0).
Proof.
  destruct o as [ps st bf bs ln f tm to ot nt df md].
  unfold telegram_parser_close.
  cbn [bufsize buffer fd terminal dumpfile oldtio set_len set_bufsize
       set_buffer set_fd set_terminal set_dumpfile].
  destruct (Z.eqb_spec bs 0) as [B|B]; cbn [negb];
    destruct bf as [m|]; cbn -[tcsetattr];
    destruct (Z.gtb_spec f 0) as [F|F];
    destruct df as [d|]; cbn -[tcsetattr];
    eexists; (split; [reflexivity|]); cbn; split; auto; lia.
Qed.

(** X11: after a close, whatever the session was, a P1 read returns -2 and a
    D0 read returns -2, and neither touches the device. *)
Theorem read_after_close `{Headers} o p q :
  let obj := fst (telegram_parser_close (Some o) p) in
  telegram_parser_read obj q = Some (-2, obj, q)
  /\ telegram_parser_read_d0 obj q = Some (-2, obj, q).
Proof.
  destruct (close_leaves o p) as (o' & -> & F & B). cbv zeta.
  unfold telegram_parser_read, telegram_parser_read_d0.
  destruct (Z.leb_spec (fd o') 0) as [_|]; [|lia].
  split; [|reflexivity].
  destruct (buffer o'); [|reflexivity].
  destruct B as [B|B]; [discriminate|]. now rewrite B.
Qed.

(** A close on an open terminal session puts the attributes saved at the
    open back in force and leaves the session without descriptor and dump
    file, and without the buffer it had. *)
Lemma close_restores `{Headers} o p :
  0 < fd o -> terminal o <> 0 -> is_tty p = true ->
  exists o', fst (telegram_parser_close (Some o) p) = Some o'
    /\ tio (snd (telegram_parser_close (Some o) p)) = oldtio o
    /\ fd o' = -1 /\ terminal o' = 0 /\ dumpfile o' = None
    /\ (bufsize o <> 0 -> buffer o <> None ->
        buffer o' = None /\ bufsize o' = 0 /\ len o' = 0).
Proof.
  intros Hf Ht Hy.
  destruct o as [ps st bf bs ln f tm to ot nt df md].
  cbn [fd terminal oldtio bufsize buffer] in *.
  unfold telegram_parser_close.
  cbn [bufsize buffer fd terminal dumpfile oldtio set_len set_bufsize
       set_buffer set_fd set_terminal set_dumpfile].
  assert (T : forall f', f' = f -> tio (tcsetattr f' p ot) = ot).
  { intros f' ->. unfold tcsetattr. rewrite Hy.
    destruct (Z.leb_spec 0 f); [reflexivity|lia]. }
  destruct (Z.eqb_spec bs 0) as [B|B]; cbn [negb];
    destruct bf as [m|]; cbn -[tcsetattr];
    (destruct (Z.gtb_spec f 0) as [_|]; [|lia]);
    (destruct (Z.eqb_spec tm 0) as [|_]; [contradiction|]);
    cbn -[tcsetattr];
    destruct df as [d|]; cbn -[tcsetattr];
    eexists; (split; [reflexivity|]);
    (split; [apply T; reflexivity|]); repeat split; try contradiction.
Qed.

(** X12: opening a terminal, reading from it and closing it leaves the
    terminal with the attributes it had before the open, whatever the read
    returned and although the read may have switched the baud rate. *)
Theorem open_read_close_restores `{Headers} e o0 name bs tmo dumpname p
        o p1 ret o2 p2 :
  telegram_parser_open e (Some o0) (Some name) bs tmo dumpname p
    = (0, Some o, p1) ->
  0 < open_ret e -> is_tty p = true ->
  telegram_parser_read (Some o) p1 = Some (ret, Some o2, p2) ->
  tio (snd (telegram_parser_close (Some o2) p2)) = tio p
  /\ exists o3, fst (telegram_parser_close (Some o2) p2) = Some o3
                /\ fd o3 = -1 /\ terminal o3 = 0.
Proof.
  intros O Hf Hy R.
  destruct (telegram_parser_open_terminal _ _ _ _ _ _ _ _ _ _ O
              ltac:(lia) Hy)
    as (T1 & L1 & _ & o' & Eo & Ot & _ & Tm & Fd).
  inversion Eo; subst o'. clear Eo.
  assert (Y1 : is_tty p1 = true).
  { revert O. unfold telegram_parser_open. cbn [fd set_fd]. rewrite Hy.
    destruct (open_ret e <? 0); [discriminate|].
    unfold tcsetattr, tcflush, add_log.
    cbn [fd set_fd set_newtio set_terminal set_oldtio is_tty]. rewrite Hy.
    destruct (0 <=? open_ret e); cbn [andb];
      destruct dumpname; try destruct (fopen_ret e);
      destruct (malloc_ret e); intros X; inversion X; subst; reflexivity. }
  destruct (telegram_parser_read_keeps o p1 ret o2 p2 R)
    as (K1 & K2 & K3 & _ & _ & _ & K7 & _).
  destruct (close_restores o2 p2 ltac:(lia) ltac:(lia) ltac:(congruence))
    as (o3 & E3 & T3 & F3 & M3 & _).
  split; [congruence|]. exists o3. auto.
Qed.

Lemma open_read_close_restores_witness :
  let o := session_of (p1_opened []) in
  let p := snd (p1_opened []) in
  exists r1 o1 p1,
    telegram_parser_read (Some o) p = Some (r1, Some o1, p1)
    /\ tio (snd (telegram_parser_close (Some o1) p1))
       = mktermios B9600 B9600 8 false 0 1
    /\ exists o3, fst (telegram_parser_close (Some o1) p1) = Some o3
                  /\ fd o3 = -1 /\ terminal o3 = 0.
Proof.
  intros o p.
  destruct idle_reads_example as (r1 & o1 & p1 & r2 & o2 & p2 & R1 & _).
  exists r1, o1, p1. split; [exact R1|].
  exact (open_read_close_restores demo_env blank_session
           "/dev/ttyUSB0"%string 64 5 None (serial [])
           (session_of (p1_opened [])) (snd (p1_opened []))
           r1 o1 p1 eq_refl ltac:(cbn; lia) eq_refl R1).
Defined.

(** X13: descriptor 0 counts as no descriptor: when [open] returns 0 the
    open succeeds, but a P1 read returns -3, a D0 read returns -2, and a
    close neither restores the terminal nor resets the descriptor. *)
Theorem descriptor_zero `{Headers} e o0 name bs tmo dumpname p o p1 :
  telegram_parser_open e (Some o0) (Some name) bs tmo dumpname p
    = (0, Some o, p1) ->
  open_ret e = 0 -> bufsize o <> 0 ->
  forall q,
    telegram_parser_read (Some o) q = Some (-3, Some o, q)
    /\ telegram_parser_read_d0 (Some o) q = Some (-2, Some o, q)
    /\ snd (telegram_parser_close (Some o) q) = q
    /\ exists o', fst (telegram_parser_close (Some o) q) = Some o'
                  /\ fd o' = 0.
Proof.
  intros O F0 Bs q.
  destruct (telegram_parser_open_ok _ _ _ _ _ _ _ _ _ O)
    as (_ & _ & _ & (c & _ & Hb) & _ & _ & Fd & _).
  rewrite F0 in Fd.
  unfold telegram_parser_read, telegram_parser_read_d0. rewrite Hb, Fd.
  destruct (Z.eqb_spec (bufsize o) 0) as [|_]; [contradiction|].
  change (0 <=? 0) with true. cbv iota.
  split; [reflexivity|]. split; [reflexivity|].
  destruct o as [ps st bf bsz ln f tm to ot nt df md].
  cbn [fd bufsize buffer] in *. subst f bf.
  unfold telegram_parser_close.
  cbn [bufsize buffer]. destruct (Z.eqb_spec bsz 0) as [|_]; [contradiction|].
  cbn -[tcsetattr]. destruct df; cbn; split; eauto.
Qed.

Lemma descriptor_zero_witness :
  let r := @telegram_parser_open demo_headers
             (mkenv 0 None (Some (fun _ => 0))) (Some blank_session)
             (Some "/dev/ttyUSB0"%string) 64 5 None (serial []) in
  let q := snd r in
  telegram_parser_read (snd (fst r)) q = Some (-3, snd (fst r), q)
  /\ telegram_parser_read_d0 (snd (fst r)) q = Some (-2, snd (fst r), q)
  /\ snd (telegram_parser_close (snd (fst r)) q) = q
  /\ exists o', fst (telegram_parser_close (snd (fst r)) q) = Some o'
                /\ fd o' = 0.
Proof.
  intros r q.
  exact (descriptor_zero (mkenv 0 None (Some (fun _ => 0))) blank_session
           "/dev/ttyUSB0"%string 64 5 None (serial [])
           (session_of r) (snd r) eq_refl eq_refl ltac:(discriminate) q).
Defined.



(** X15: the telegram is appended to the dump file exactly when one was
    framed, the grammar counted parse errors and a dump file is open; and
    then all of its bytes are appended. *)
Theorem read_dumps_on_parse_errors `{Headers} o p m n m1 p1 ret o' p' :
  buffer o = Some m -> bufsize o <> 0 -> 0 < fd o ->
  read_telegram p m (bufsize o) (bufsize o) = Some (n, m1, p1) ->
  telegram_parser_read (Some o) p = Some (ret, Some o', p') ->
  dumpfile o'
  = match dumpfile o with
    | Some d =>
        if (n =? 0) || (parse_errors (tp_parser o') =? 0) then Some d
        else Some (d ++ bytes_of (cell m1) n)
    | None => None
    end.
Proof.
  intros Hb Hs Hf E.
  unfold telegram_parser_read. rewrite Hb.
  destruct (Z.eqb_spec (bufsize o) 0) as [|_]; [contradiction|].
  destruct (Z.leb_spec (fd o) 0) as [|_]; [lia|].
  change (bufsize (set_crc16 o 0)) with (bufsize o). rewrite E.
  cbv zeta.
  set (o1 := set_len (set_buffer (set_crc16 o 0) (Some m1)) n).
  assert (D1 : dumpfile o1 = dumpfile o) by reflexivity.
  assert (L1 : len o1 = n) by reflexivity.
  clearbody o1.
  assert (K : exists c o2,
    (if len o1 =? 0 then (0, o1)
     else (if status (run_parser o1 m1) =? 1
           then crc_telegram (cell m1) (wrap32 (len (run_parser o1 m1)))
           else 0, dump_on_errors (run_parser o1 m1) m1)) = (c, o2)
    /\ dumpfile o2
       = match dumpfile o with
         | Some d =>
             if (n =? 0) || (parse_errors (tp_parser o2) =? 0) then Some d
             else Some (d ++ bytes_of (cell m1) n)
         | None => None
         end).
  { rewrite L1. destruct (n =? 0).
    - exists 0, o1. split; [reflexivity|]. rewrite D1. cbn [orb].
      now destruct (dumpfile o).
    - do 2 eexists. split; [reflexivity|]. cbn [orb].
      unfold dump_on_errors.
      assert (D2 : dumpfile (run_parser o1 m1) = dumpfile o
                   /\ len (run_parser o1 m1) = n).
      { unfold run_parser. destruct (parser_finish _) as [st ps].
        rewrite <- D1, <- L1. now destruct o1. }
      destruct D2 as [D2 L2].
      destruct (parse_errors (tp_parser (run_parser o1 m1)) =? 0) eqn:Pe.
      + rewrite Pe, D2. now destruct (dumpfile o).
      + rewrite D2. destruct (dumpfile o) as [d|]; [|exact D2].
        cbn [dumpfile set_dumpfile tp_parser]. rewrite Pe, L2. reflexivity. }
  destruct K as (c & o2 & -> & K). cbv iota beta.
  assert (T : forall o3 : telegram_parser,
            o3 = (if cfgetispeed (newtio o2) =? B115200
                  then set_newtio o2 (cfsetispeed (newtio o2) B9600)
                  else set_newtio o2 (cfsetispeed (newtio o2) B115200)) ->
            dumpfile o3 = dumpfile o2 /\ tp_parser o3 = tp_parser o2).
  { intros o3 ->. destruct (_ =? B115200); split; reflexivity. }
  destruct (negb (terminal o2 =? 0) && (len o2 =? 0) && (mode o2 =? ch "P")).
  - destruct (T _ eq_refl) as [T1 T2].
    destruct (_ && _); intros X; inversion X; subst;
      rewrite T1, T2; exact K.
  - destruct (_ && _); intros X; inversion X; subst; exact K.
Qed.

Lemma dump_example :
  let env := mkenv 3 (Some [1; 2]) (Some (fun _ => 0)) in
  let r := @telegram_parser_open faulty_headers env (Some blank_faulty)
             (Some "/dev/ttyUSB0"%string) 64 5 (Some "dump"%string)
             (serial (arriving (line "/a!"))) in
  exists o m1 p1 o' p',
    r = (0, Some o, snd r)
    /\ buffer o = Some (mkmem (fun _ => 0) []) /\ bufsize o = 64 /\ fd o = 3
    /\ dumpfile o = Some [1; 2]
    /\ read_telegram (snd r) (mkmem (fun _ => 0) []) 64 64 = Some (5, m1, p1)
    /\ bytes_of (cell m1) 5 = line "/a!"
    /\ telegram_parser_read (Some o) (snd r) = Some (0, Some o', p')
    /\ parse_errors (tp_parser o') = 1.
Proof.
  intros env r. do 5 eexists.
  split; [vm_compute; reflexivity|].
  do 4 (split; [reflexivity|]).
  split; [vm_compute; reflexivity|].
  split; [reflexivity|].
  split; [vm_compute; reflexivity|reflexivity].
Defined.

Lemma read_dumps_on_parse_errors_witness :
  let env := mkenv 3 (Some [1; 2]) (Some (fun _ => 0)) in
  let r := @telegram_parser_open faulty_headers env (Some blank_faulty)
             (Some "/dev/ttyUSB0"%string) 64 5 (Some "dump"%string)
             (serial (arriving (line "/a!"))) in
  exists o o' p',
    r = (0, Some o, snd r)
    /\ telegram_parser_read (Some o) (snd r) = Some (0, Some o', p')
    /\ dumpfile o' = Some ([1; 2] ++ line "/a!").
Proof.
  intros env r.
  destruct dump_example
    as (o & m1 & p1 & o' & p' & Ho & Hb & Hs & Hf & Hd & E & B & R & Pe).
  exists o, o', p'. split; [exact Ho|]. split; [exact R|].
  pose proof (read_dumps_on_parse_errors o _ _ 5 m1 p1 0 o' p' Hb
                ltac:(rewrite Hs; discriminate)
                ltac:(rewrite Hf; reflexivity)
                ltac:(rewrite Hs; exact E) R) as D.
  rewrite Hd, Pe, B in D. exact D.
Defined.

(** X16: the CRC check end to end: for a new-style telegram on which the
    grammar reached its final state, the read returns 0 exactly when the
    CRC the grammar reports is 0 or is the CRC-16 of the telegram up to and
    including the '!'; otherwise it returns -4. *)
Theorem read_checks_crc `{Headers} o p m n m1 p1 ret o' p' :
  buffer o = Some m -> bufsize o <> 0 -> 0 < fd o ->
  read_telegram p m (bufsize o) (bufsize o) = Some (n, m1, p1) ->
  7 <= n < 2 ^ 32 ->
  cell m1 (n - 7) = ch "!" -> cell m1 (n - 3) <> ch "!" ->
  telegram_parser_read (Some o) p = Some (ret, Some o', p') ->
  status o' = 1 ->
  (ret = 0 <-> parser_crc16 (tp_parser o') = 0
               \/ parser_crc16 (tp_parser o') = crc16 (cell m1) (n - 6))
  /\ (ret = 0 \/ ret = -4).
Proof.
  intros Hb Hs Hf E Hn M7 M3 R St.
  destruct (telegram_parser_read_usable o p m Hb Hs Hf)
    as (n' & m1' & p1' & ret' & o1 & p2 & E' & R' & Ln & Bf & _ & _ & _ & _
        & _ & C & _).
  rewrite E in E'. injection E' as <- <- <-.
  rewrite R in R'. injection R' as <- <- <-.
  assert (Lc : local_crc o' = crc16 (cell m1) (n - 6)).
  { unfold local_crc. rewrite Bf, Ln, St.
    destruct (Z.eqb_spec n 0) as [|_]; [lia|]. cbn [negb andb].
    change (1 =? 1) with true. cbv iota.
    unfold crc_telegram. rewrite !(wrap32_small n) by lia.
    rewrite !wrap32_small by lia. rewrite M7, Z.eqb_refl.
    destruct (Z.eqb_spec (cell m1 (n - 3)) (ch "!")); [contradiction|].
    reflexivity. }
  rewrite Lc in C. rewrite C.
  destruct (Z.eqb_spec (parser_crc16 (tp_parser o')) 0);
    destruct (Z.eqb_spec (parser_crc16 (tp_parser o'))
                         (crc16 (cell m1) (n - 6)));
    cbn [negb andb]; (split; [split|]); auto; try discriminate;
    intros [?|?]; contradiction.
Qed.

Lemma read_checks_crc_witness :
  let r := arriving (line "/a!41D8") in
  exists m1 p1 o' p',
    read_telegram (snd (p1_opened r)) (mkmem (fun _ => 0) []) 64 64
      = Some (9, m1, p1)
    /\ telegram_parser_read (Some (session_of (p1_opened r)))
                            (snd (p1_opened r))
       = Some (0, Some o', p')
    /\ status o' = 1
    /\ (0 = 0 <-> parser_crc16 (tp_parser o') = 0
                  \/ parser_crc16 (tp_parser o') = crc16 (cell m1) (9 - 6))
    /\ (0 = 0 \/ 0 = -4).
Proof.
  intros r.
  assert (E : exists m1 p1 o' p',
             read_telegram (snd (p1_opened r)) (mkmem (fun _ => 0) []) 64 64
               = Some (9, m1, p1)
             /\ telegram_parser_read (Some (session_of (p1_opened r)))
                                     (snd (p1_opened r))
                = Some (0, Some o', p')
             /\ cell m1 (9 - 7) = ch "!" /\ cell m1 (9 - 3) <> ch "!"
             /\ status o' = 1).
  { do 4 eexists. split; [vm_compute; reflexivity|].
    split; [vm_compute; reflexivity|].
    repeat split; discriminate. }
  destruct E as (m1 & p1 & o' & p' & E & R & M7 & M3 & St).
  exists m1, p1, o', p'. split; [exact E|]. split; [exact R|].
  split; [exact St|].
  exact (read_checks_crc (session_of (p1_opened r)) (snd (p1_opened r))
           (mkmem (fun _ => 0) []) 9 m1 p1 0 o' p'
           eq_refl ltac:(discriminate) eq_refl E ltac:(lia) M7 M3 R St).
Defined.

(** X17: the D0 open returns what the P1 open returns; when it succeeds on a
    terminal the line is then set to 300 baud, 7 bits, even parity, with
    the same timeout, and the mode is 0. *)
Theorem open_d0_configures `{Headers} e o0 name bs tmo dumpname p
        ret obj' p' :
  telegram_parser_open_d0 e (Some o0) (Some name) bs tmo dumpname p
    = (ret, obj', p') ->
  ret = fst (fst (telegram_parser_open e (Some o0) (Some name) bs tmo
                                       dumpname p))
  /\ (ret = 0 -> is_tty p = true ->
      exists o, obj' = Some o /\ mode o = 0
        /\ tio p' = mktermios B300 B300 7 true
                      (((if tmo <=? 0 then READ_TIMEOUT else tmo) * 10)
                         mod 256) 0
        /\ newtio o = tio p' /\ oldtio o = tio p
        /\ log p' = log p
             ++ [OFlush;
                 OSetattr (mktermios B115200 B115200 8 false
                   (((if tmo <=? 0 then READ_TIMEOUT else tmo) * 10)
                      mod 256) 0);
                 OSetattr (tio p')]).
Proof.
  unfold telegram_parser_open_d0.
  destruct (telegram_parser_open e (Some o0) (Some name) bs tmo dumpname p)
    as [[r1 ob1] q1] eqn:O.
  cbn [fst].
  destruct (Z.ltb_spec r1 0) as [Lt|Ge].
  { intros X. inversion X; subst. split; [reflexivity|]. intros; lia. }
  destruct ob1 as [o1|].
  2:{ intros X. inversion X; subst. split; [reflexivity|].
      intros _ _. exfalso. revert O. unfold telegram_parser_open.
      destruct (_ <? 0); [intros Y; inversion Y|].
      destruct (is_tty p); destruct dumpname; try destruct (fopen_ret e);
        destruct (malloc_ret e); intros Y; inversion Y. }
  intros X. inversion X; subst. clear X.
  assert (R0 : r1 = 0).
  { revert O. unfold telegram_parser_open.
    destruct (_ <? 0); [intros X; inversion X; lia|].
    destruct (is_tty p); destruct dumpname; try destruct (fopen_ret e);
      destruct (malloc_ret e); intros X; inversion X; lia. }
  split; [now symmetry|]. intros _ Hy.
  assert (F0 : 0 <= open_ret e).
  { destruct (Z.ltb_spec (open_ret e) 0) as [F|]; [|assumption].
    exfalso. revert O. unfold telegram_parser_open. cbn [fd set_fd].
    destruct (Z.ltb_spec (open_ret e) 0); [|lia].
    intros X. inversion X. lia. }
  destruct (telegram_parser_open_terminal _ _ _ _ _ _ _ _ _ _ O F0 Hy)
    as (T1 & L1 & _ & o' & Eo & Ot & Nt & Tm & Fd).
  inversion Eo; subst o'. clear Eo.
  assert (Y1 : is_tty q1 = true).
  { revert O. unfold telegram_parser_open. cbn [fd set_fd]. rewrite Hy.
    destruct (Z.ltb_spec (open_ret e) 0) as [|_]; [lia|].
    unfold tcsetattr, tcflush, add_log.
    cbn [fd set_fd set_newtio set_terminal set_oldtio is_tty]. rewrite Hy.
    destruct (0 <=? open_ret e); cbn [andb];
      destruct dumpname; try destruct (fopen_ret e);
      destruct (malloc_ret e); intros X; inversion X; subst; reflexivity. }
  eexists. split; [reflexivity|].
  unfold tcsetattr. cbn [fd set_newtio set_mode mode newtio oldtio].
  rewrite Fd, Y1. destruct (Z.leb_spec 0 (open_ret e)) as [_|]; [|lia].
  cbn [andb tio log]. rewrite Nt, T1, L1, T1, Ot, <- app_assoc.
  repeat split.
Qed.

Lemma open_d0_configures_witness :
  exists o, snd (fst (d0_opened [])) = Some o /\ mode o = 0
    /\ tio (snd (d0_opened [])) = mktermios B300 B300 7 true 50 0
    /\ newtio o = tio (snd (d0_opened []))
    /\ oldtio o = mktermios B9600 B9600 8 false 0 1
    /\ log (snd (d0_opened []))
       = [] ++ [OFlush; OSetattr (mktermios B115200 B115200 8 false 50 0);
                OSetattr (tio (snd (d0_opened [])))].
Proof.
  exact (proj2 (open_d0_configures demo_env blank_session
                  "/dev/ttyUSB0"%string 64 5 None (serial []) 0 _ _ eq_refl)
               eq_refl eq_refl).
Defined.

(** ** The D0 request *)

(** The wake-up when the writes succeed: [k] NUL bytes, one per write. *)
Lemma d0_wakeup_sent (k : nat) p rest :
  wr p = repeat 1 k ++ rest \/ (wr p = [] /\ rest = []) ->
  after p (d0_wakeup k p) (repeat (OWrite [NUL] 1) k)
  /\ wr (d0_wakeup k p) = rest.
Proof.
  revert p. induction k as [|k IH]; intros p Hw.
  - cbn [d0_wakeup repeat]. split; [apply after_refl|].
    destruct Hw as [Hw|[Hw ->]]; exact Hw.
  - cbn [d0_wakeup repeat].
    destruct (sys_write p [NUL]) as [r q] eqn:E.
    assert (R : r = 1 /\ (wr q = repeat 1 k ++ rest
                          \/ (wr q = [] /\ rest = []))).
    { revert E. unfold sys_write.
      destruct Hw as [Hw|[Hw ->]]; rewrite Hw; cbn [repeat app];
        intros X; inversion X; subst; cbn [wr add_log]; auto. }
    destruct R as (-> & Hq). change (1 <? 0) with false. cbv iota.
    apply sys_write_after in E.
    destruct (IH q Hq) as (A & W). split; [|exact W].
    exact (after_trans _ _ _ _ _ E A).
Qed.

(** Wake-up and sign-on, with the result [w] of the write of the sign-on
    sequence. *)
Lemma d0_request_sent p (w : Z) rest :
  wr p = repeat 1 65 ++ w :: rest \/ (wr p = [] /\ w = 5) ->
  fst (d0_request p) = negb (wrap64 w <? 5)
  /\ after p (snd (d0_request p))
       (repeat (OWrite [NUL] 1) 65
        ++ [ODrain; OSleep 2700000; OWrite signonseq w]
        ++ (if wrap64 w <? 5 then [] else [ODrain])).
Proof.
  intros Hw. unfold d0_request.
  assert (K : exists rest',
             after p (d0_wakeup 65 p) (repeat (OWrite [NUL] 1) 65)
             /\ wr (d0_wakeup 65 p) = rest'
             /\ (rest' = w :: rest \/ (rest' = [] /\ w = 5))).
  { destruct Hw as [Hw|[Hw Hw5]].
    - exists (w :: rest).
      destruct (d0_wakeup_sent 65 p (w :: rest) (or_introl Hw)); auto.
    - exists [].
      destruct (d0_wakeup_sent 65 p [] (or_intror (conj Hw eq_refl))); auto. }
  destruct K as (rest' & A & W & Hr).
  set (p1 := d0_wakeup 65 p) in *.
  pose proof (add_log_after p1 ODrain) as A1. fold (tcdrain p1) in A1.
  pose proof (add_log_after (tcdrain p1) (OSleep 2700000)) as A2.
  fold (usleep (tcdrain p1) 2700000) in A2.
  destruct (sys_write (usleep (tcdrain p1) 2700000) signonseq) as [w' q] eqn:E.
  assert (w' = w).
  { revert E. unfold sys_write. cbn [usleep tcdrain add_log wr]. rewrite W.
    destruct Hr as [->|[-> ->]]; intros X; inversion X; reflexivity. }
  subst w'. apply sys_write_after in E.
  pose proof (after_trans _ _ _ _ _ (after_trans _ _ _ _ _
                (after_trans _ _ _ _ _ A A1) A2) E) as A3.
  change (Z.of_nat (List.length signonseq)) with 5.
  rewrite <- !app_assoc in A3. cbn [app] in A3.
  destruct (wrap64 w <? 5); cbn [fst snd negb].
  - split; [reflexivity|]. rewrite app_nil_r. exact A3.
  - split; [reflexivity|].
    pose proof (after_trans _ _ _ _ _ A3 (add_log_after q ODrain)) as A4.
    rewrite <- !app_assoc in A4. exact A4.
Qed.

Lemma read_d0_handshakes `{Headers} o m p :
  0 < fd o -> terminal o <> 0 -> mode o <> ch "P" -> buffer o = Some m ->
  telegram_parser_read_d0 (Some o) p
  = match d0_handshake o m p with
    | None => None
    | Some (inl (code, o, m, p)) =>
        Some (code, Some (set_buffer o (Some m)), p)
    | Some (inr (idx, o, m, p)) => d0_telegram idx o m p
    end.
Proof.
  intros Hf Ht Hm Hb. unfold telegram_parser_read_d0. rewrite Hb.
  destruct (Z.leb_spec (fd o) 0) as [|_]; [lia|].
  destruct (Z.eqb_spec (terminal o) 0) as [|_]; [contradiction|].
  destruct (Z.eqb_spec (mode o) (ch "P")) as [|_]; [contradiction|].
  reflexivity.
Qed.

(** X18: a meter that does not answer with a '/'.  On a terminal session in a
    mode other than 'P' whose writes succeed, the read sends 65 NUL bytes
    one by one, drains, pauses 2.7 s, sends the sign-on sequence and
    drains; it then takes one read result and returns -4 if that is an
    error and -5 otherwise.  The session is left as it was, its buffer
    apart. *)
Theorem read_d0_no_answer `{Headers} o m p tail :
  0 < fd o -> terminal o <> 0 -> mode o <> ch "P" -> buffer o = Some m ->
  wr p = [] -> rd p = tail ->
  (forall r, tail <> RByte (ch "/") :: r) ->
  exists m' p',
    telegram_parser_read_d0 (Some o) p
      = Some (match tail with RErr :: _ => -4 | _ => -5 end,
              Some (set_buffer o (Some m')), p')
    /\ rd p' = tl tail /\ tio p' = tio p
    /\ log p' = log p ++ repeat (OWrite [NUL] 1) 65
                  ++ [ODrain; OSleep 2700000; OWrite signonseq 5; ODrain].
Proof.
  intros Hf Ht Hm Hb Hw Hr Hn.
  rewrite (read_d0_handshakes o m p Hf Ht Hm Hb). unfold d0_handshake.
  destruct (d0_request_sent p 5 [] (or_intror (conj Hw eq_refl)))
    as (S1 & A1 & A2 & A3 & A4).
  change (wrap64 5 <? 5) with false in *. cbn [negb] in S1.
  destruct (d0_request p) as [sent q]. cbn [fst snd] in *. subst sent.
  cbn [negb]. unfold sys_read. rewrite A1, Hr.
  destruct tail as [|[b| |] r]; cbn [tl].
  - exists m, q. change (0 <? 0) with false. cbn [orb Z.eqb].
    repeat split; try assumption. now rewrite <- Hr.
  - change (1 <? 0) with false. change (1 =? 0) with false.
    cbn [orb cell store]. rewrite Z.eqb_refl.
    destruct (Z.eqb_spec b (ch "/")) as [->|_]; [now elim (Hn r)|].
    cbn [negb]. exists (store m 0 b), (set_rd q r). repeat split; assumption.
  - exists m, (set_rd q r). change (0 <? 0) with false. cbn [orb Z.eqb].
    repeat split; assumption.
  - exists m, (set_rd q r). change (-1 <? 0) with true.
    repeat split; assumption.
Qed.

Lemma read_d0_no_answer_witness :
  exists m' p',
    telegram_parser_read_d0 (Some (session_of (d0_opened [RErr])))
                            (snd (d0_opened [RErr]))
      = Some (-4, Some (set_buffer (session_of (d0_opened [RErr])) (Some m')),
              p')
    /\ rd p' = [] /\ tio p' = tio (snd (d0_opened [RErr]))
    /\ log p' = log (snd (d0_opened [RErr]))
                  ++ repeat (OWrite [NUL] 1) 65
                  ++ [ODrain; OSleep 2700000; OWrite signonseq 5; ODrain].
Proof.
  apply (read_d0_no_answer (session_of (d0_opened [RErr]))
           (mkmem (fun _ => 0) []) (snd (d0_opened [RErr])) [RErr]);
    try reflexivity; try discriminate.
Defined.

(** X19: a sign-on sequence written in part only.  When the 65 wake-up
    writes succeed and the write of the sign-on sequence returns a count
    [w] from 0 to 4, the read returns -3: it has not drained again, has
    read nothing and has left the session as it was. *)
Theorem read_d0_short_sign_on `{Headers} o m p w rest :
  0 < fd o -> terminal o <> 0 -> mode o <> ch "P" -> buffer o = Some m ->
  wr p = repeat 1 65 ++ w :: rest -> 0 <= w < 5 ->
  exists p',
    telegram_parser_read_d0 (Some o) p = Some (-3, Some o, p')
    /\ rd p' = rd p /\ tio p' = tio p
    /\ log p' = log p ++ repeat (OWrite [NUL] 1) 65
                  ++ [ODrain; OSleep 2700000; OWrite signonseq w].
Proof.
  intros Hf Ht Hm Hb Hw Hs.
  rewrite (read_d0_handshakes o m p Hf Ht Hm Hb). unfold d0_handshake.
  destruct (d0_request_sent p w rest (or_introl Hw))
    as (S1 & A1 & A2 & A3 & A4).
  rewrite wrap64_small in S1, A4 by lia.
  destruct (Z.ltb_spec w 5) as [_|]; [|lia]. cbn [negb] in S1.
  destruct (d0_request p) as [sent q]. cbn [fst snd] in *. subst sent.
  cbn [negb]. exists q.
  replace (set_buffer o (Some m)) with o
    by (destruct o; cbn in Hb |- *; now subst).
  rewrite app_nil_r in A4. repeat split; assumption.
Qed.

Lemma read_d0_short_sign_on_witness :
  let o := session_of (d0_opened []) in
  let p := mkport true [] (repeat 1 65 ++ [3])
             (tio (snd (d0_opened []))) [] in
  exists p',
    telegram_parser_read_d0 (Some o) p = Some (-3, Some o, p')
    /\ rd p' = [] /\ tio p' = tio p
    /\ log p' = [] ++ repeat (OWrite [NUL] 1) 65
                  ++ [ODrain; OSleep 2700000; OWrite signonseq 3].
Proof.
  intros o p.
  apply (read_d0_short_sign_on o (mkmem (fun _ => 0) []) p 3 []);
    try reflexivity; try discriminate; cbn; lia.
Defined.

(** X20: a failed write of the sign-on sequence goes unnoticed.  The result
    -1 (any negative result) of that write is compared as an unsigned
    number with the length 5, so the read does not return -3: it drains and
    goes on to read the identification string, and here, with no answer,
    it returns -5. *)
Theorem read_d0_sign_on_error_unnoticed `{Headers} o m p w rest :
  0 < fd o -> terminal o <> 0 -> mode o <> ch "P" -> buffer o = Some m ->
  wr p = repeat 1 65 ++ w :: rest -> - (2 ^ 63) <= w < 0 ->
  rd p = [] ->
  exists p',
    telegram_parser_read_d0 (Some o) p = Some (-5, Some o, p')
    /\ log p' = log p ++ repeat (OWrite [NUL] 1) 65
                  ++ [ODrain; OSleep 2700000; OWrite signonseq w; ODrain].
Proof.
  intros Hf Ht Hm Hb Hw Hs Hr.
  rewrite (read_d0_handshakes o m p Hf Ht Hm Hb). unfold d0_handshake.
  destruct (d0_request_sent p w rest (or_introl Hw))
    as (S1 & A1 & A2 & A3 & A4).
  assert (W : (wrap64 w <? 5) = false).
  { unfold wrap64. apply Z.ltb_ge.
    assert (E : w mod 2 ^ 64 = w + 2 ^ 64)
      by (symmetry; apply Z.mod_unique with (q := -1); lia).
    lia. }
  rewrite W in S1, A4. cbn [negb] in S1.
  destruct (d0_request p) as [sent q]. cbn [fst snd] in *. subst sent.
  cbn [negb]. unfold sys_read. rewrite A1, Hr.
  change (0 <? 0) with false. cbn [orb Z.eqb].
  exists q.
  replace (set_buffer o (Some m)) with o
    by (destruct o; cbn in Hb |- *; now subst).
  repeat split; assumption.
Qed.

Lemma read_d0_sign_on_error_unnoticed_witness :
  let o := session_of (d0_opened []) in
  let p := mkport true [] (repeat 1 65 ++ [-1])
             (tio (snd (d0_opened []))) [] in
  exists p',
    telegram_parser_read_d0 (Some o) p = Some (-5, Some o, p')
    /\ log p' = [] ++ repeat (OWrite [NUL] 1) 65
                  ++ [ODrain; OSleep 2700000; OWrite signonseq (-1); ODrain].
Proof.
  intros o p.
  apply (read_d0_sign_on_error_unnoticed o (mkmem (fun _ => 0) []) p (-1) []);
    try reflexivity; try discriminate; cbn; lia.
Defined.

(** ** The D0 read: the modes *)

Lemma d0_switch_digit_rate b :
  ch "0" <= b <= ch "6" ->
  d0_switch b = (0, nth (Z.to_nat (b - ch "0")) baud_rates 0).
Proof.
  change (ch "0") with 48. change (ch "6") with 54. intros Hb.
  assert (D : b = 48 \/ b = 49 \/ b = 50 \/ b = 51 \/ b = 52 \/ b = 53
              \/ b = 54) by lia.
  repeat (destruct D as [-> | D]; [reflexivity|]). now subst.
Qed.

Lemma d0_switch_letter_rate b :
  ch "A" <= b <= ch "G" ->
  d0_switch b = (ch "B", nth (Z.to_nat (b - ch "A")) baud_rates 0).
Proof.
  change (ch "A") with 65. change (ch "G") with 71. intros Hb.
  assert (D : b = 65 \/ b = 66 \/ b = 67 \/ b = 68 \/ b = 69 \/ b = 70
              \/ b = 71) by lia.
  repeat (destruct D as [-> | D]; [reflexivity|]). now subst.
Qed.

Lemma d0_switch_default b :
  ~ ch "0" <= b <= ch "6" -> ~ ch "A" <= b <= ch "G" ->
  d0_switch b
  = if (b >=? 0x20) && negb (b =? ch "/") && negb (b =? ch "!")
       && (b <=? 0x7e)
    then (ch "A", B300) else (0, B300).
Proof.
  change (ch "0") with 48. change (ch "6") with 54.
  change (ch "A") with 65. change (ch "G") with 71. intros H1 H2.
  unfold d0_switch.
  repeat match goal with
  | |- context [b =? ?c] =>
      lazymatch c with
      | ch "/" => fail
      | ch "!" => fail
      | _ => destruct (Z.eqb_spec b c) as [E|_];
             [exfalso; revert E; vm_compute (ch _); lia|]
      end
  end.
  reflexivity.
Qed.

(** What the classification does with a string that ends in CR LF. *)
Lemma d0_classify_terminated `{Headers} o idx m p :
  6 <= idx -> cell m idx = LF -> cell m (idx - 1) = CR ->
  d0_classify o idx m p
  = let m' := if idx <? wrap64 (bufsize o - 1)
              then store m (idx + 1) NUL else m in
    let '(md, baudrate) := d0_switch (cell m 4) in
    let o := set_mode (set_mode o 0) md in
    match (if mode o =? 0 then
             if cell m 5 =? BACKSLASH then
               let o := set_mode o (ch "E") in
               if cell m 6 =? ch "2" then inl (-8, o, m', p)
               else
                 let '(_, p) := sys_write p (ackseq (cell m 4)) in
                 inr (o, tcdrain p)
             else
               let o := set_mode o (ch "C") in
               let '(_, p) := sys_write p (ackseq (cell m 4)) in
               inr (o, tcdrain p)
           else inr (o, p))
    with
    | inl r => inl r
    | inr (o, p) =>
        if negb (mode o =? ch "A") then
          let o := set_newtio o (cfsetspeed (newtio o) baudrate) in
          inr (idx, o, m', tcsetattr (fd o) p (newtio o))
        else inr (idx, o, m', p)
    end.
Proof.
  intros Hi E0 E1. unfold d0_classify.
  change (bufsize (set_mode o 0)) with (bufsize o).
  set (c := idx <? wrap64 (bufsize o - 1)).
  rewrite !(terminator_cells c) by lia.
  rewrite E0, E1, !Z.eqb_refl. cbn [andb]. reflexivity.
Qed.

(** Byte 4 of an identification string, if it is a character of its own,
    lies in the string's body. *)
Lemma id_string_byte4 body :
  nth 4 (id_string body) 0 <> 0 ->
  nth 4 (id_string body) 0 <> CR ->
  nth 4 (id_string body) 0 <> LF ->
  (4 <= List.length body)%nat.
Proof.
  intros B0 B1 B2.
  destruct (id_string_nth body) as (N1 & N2 & _).
  fold (id_string body) in N1, N2.
  assert (G4 : (4 < List.length body + 3)%nat).
  { rewrite <- id_string_length.
    destruct (Nat.lt_ge_cases 4 (List.length (id_string body))) as [|G];
      [assumption|].
    now rewrite (nth_overflow _ _ G) in B0. }
  destruct (Nat.eq_dec (List.length body) 3) as [X|].
  { rewrite X in N1. contradiction. }
  destruct (Nat.eq_dec (List.length body) 2) as [X|].
  { rewrite X in N2. contradiction. }
  lia.
Qed.

(** The read of a terminal session up to the classification of a
    well-terminated identification string. *)
Lemma read_d0_identified `{Headers} o m p body rest :
  0 < fd o -> terminal o <> 0 -> mode o <> ch "P" -> buffer o = Some m ->
  fst (d0_request p) = true ->
  ~ In LF body -> rd p = arriving (id_string body) ++ rest ->
  Z.of_nat (List.length (id_string body)) <= bufsize o < 2 ^ 64 ->
  (4 <= List.length body)%nat ->
  exists m2,
    cell m2 (Z.of_nat (List.length body) + 2) = LF
    /\ cell m2 (Z.of_nat (List.length body) + 2 - 1) = CR
    /\ (forall k, (k < List.length body + 3)%nat ->
          cell m2 (Z.of_nat k) = nth k (id_string body) 0)
    /\ telegram_parser_read_d0 (Some o) p
       = match d0_classify o (Z.of_nat (List.length body) + 2) m2
                 (set_rd (snd (d0_request p)) rest) with
         | inl (code, o, m, p) => Some (code, Some (set_buffer o (Some m)), p)
         | inr (idx, o, m, p) => d0_telegram idx o m p
         end.
Proof.
  intros Hf Ht Hm Hb Hs Hn Hr Hl L4.
  rewrite id_string_length in Hl.
  destruct (d0_handshake_identified o m p body rest Hs Hn Hr ltac:(lia))
    as (m2 & E & C).
  fold (id_string body) in C.
  destruct (id_string_cells body m2 C) as (C0 & C1).
  exists m2. repeat split; try assumption.
  rewrite (read_d0_handshakes o m p Hf Ht Hm Hb), E. reflexivity.
Qed.

(** The read of a terminal session up to the telegram, on an
    identification string whose byte 4 is a digit '0'..'6': the session and
    the device as the handshake leaves them. *)
Lemma read_d0_acknowledged `{Headers} o m p body rest b :
  0 < fd o -> terminal o <> 0 -> mode o <> ch "P" -> buffer o = Some m ->
  is_tty p = true ->
  fst (d0_request p) = true ->
  ~ In LF body -> rd p = arriving (id_string body) ++ rest ->
  Z.of_nat (List.length (id_string body)) <= bufsize o < 2 ^ 64 ->
  nth 4 (id_string body) 0 = b -> ch "0" <= b <= ch "6" ->
  ~ (nth 5 (id_string body) 0 = BACKSLASH
     /\ nth 6 (id_string body) 0 = ch "2") ->
  exists o1 m1 p1 ops w,
    telegram_parser_read_d0 (Some o) p
      = d0_telegram (Z.of_nat (List.length body) + 2) o1 m1 p1
    /\ mode o1 = (if nth 5 (id_string body) 0 =? BACKSLASH
                  then ch "E" else ch "C")
    /\ bufsize o1 = bufsize o /\ terminal o1 = terminal o /\ len o1 = len o
    /\ rd p1 = rest /\ is_tty p1 = true
    /\ tio p1 = cfsetspeed (newtio o)
                  (nth (Z.to_nat (b - ch "0")) baud_rates 0)
    /\ Forall request_op ops
    /\ log p1 = log p ++ ops
                  ++ [OWrite [6; ch "0"; b; ch "0"; CR; LF] w; ODrain;
                      OSetattr (tio p1)].
Proof.
  intros Hf Ht Hm Hb Hy Hs Hn Hr Hl B4 Hd B56.
  assert (L4 : (4 <= List.length body)%nat).
  { apply id_string_byte4; rewrite B4; revert Hd;
      change (ch "0") with 48; change (ch "6") with 54;
      change CR with 13; change LF with 10; lia. }
  destruct (read_d0_identified o m p body rest Hf Ht Hm Hb Hs Hn Hr Hl L4)
    as (m2 & C0 & C1 & C & E).
  pose proof (C 4%nat ltac:(lia)) as C4. change (Z.of_nat 4) with 4 in C4.
  pose proof (C 5%nat ltac:(lia)) as C5. change (Z.of_nat 5) with 5 in C5.
  pose proof (C 6%nat ltac:(lia)) as C6. change (Z.of_nat 6) with 6 in C6.
  rewrite B4 in C4. rewrite <- C5 in *. rewrite <- C6 in B56.
  destruct (d0_request_after p) as (r0 & ops0 & _ & Ty & Tt & _).
  destruct (d0_request_ops p) as (ops & L & F).
  rewrite E, d0_classify_terminated by (assumption || lia).
  rewrite C4, (d0_switch_digit_rate b Hd). cbv zeta iota beta.
  cbn [mode set_mode]. rewrite Z.eqb_refl.
  set (q := set_rd (snd (d0_request p)) rest).
  destruct (sys_write q (ackseq b)) as [w q1] eqn:W.
  apply sys_write_port in W. destruct W as (W1 & W2 & W3 & W4).
  set (rate := nth (Z.to_nat (b - ch "0")) baud_rates 0).
  set (m3 := if _ <? _ then _ else m2).
  assert (K : forall md,
    let o1 := set_mode (set_mode (set_mode o 0) 0) md in
    let o2 := set_newtio o1 (cfsetspeed (newtio o1) rate) in
    let p1 := tcsetattr (fd o2) (tcdrain q1) (newtio o2) in
    mode o2 = md
    /\ bufsize o2 = bufsize o /\ terminal o2 = terminal o /\ len o2 = len o
    /\ rd p1 = rest /\ is_tty p1 = true
    /\ tio p1 = cfsetspeed (newtio o) rate
    /\ Forall request_op ops
    /\ log p1 = log p ++ ops
                  ++ [OWrite [6; ch "0"; b; ch "0"; CR; LF] w; ODrain;
                      OSetattr (tio p1)]).
  { intros md. cbv zeta.
    unfold tcsetattr. cbn [fd set_mode set_newtio tcdrain add_log is_tty
                           newtio mode bufsize terminal len].
    rewrite W2. unfold q. cbn [is_tty set_rd]. rewrite Ty, Hy.
    destruct (Z.leb_spec 0 (fd o)) as [_|]; [|lia].
    cbn [andb tio log rd is_tty]. cbn [tcdrain add_log rd log].
    rewrite W1, W4. unfold q. cbn [log set_rd rd].
    rewrite L, <- !app_assoc. repeat split; assumption. }
  destruct (Z.eqb_spec (cell m2 5) BACKSLASH) as [E5|N5].
  - destruct (Z.eqb_spec (cell m2 6) (ch "2")) as [E6|_];
      [elim B56; now split|].
    cbn [mode set_mode]. change (ch "E" =? ch "A") with false.
    cbn [negb]. cbv iota.
    do 3 eexists. exists ops, w. split; [reflexivity|]. apply K.
  - cbn [mode set_mode]. change (ch "C" =? ch "A") with false.
    cbn [negb]. cbv iota.
    do 3 eexists. exists ops, w. split; [reflexivity|]. apply K.
Qed.

(** X21: modes C and E.  On a well-terminated identification string whose
    byte 4 is a digit '0'..'6' (and which does not announce HDLC by a
    backslash and a '2' behind it) the read sends, after wake-up and
    sign-on, the ACK 06 '0' d '0' CR LF with that digit, sets the line to
    the digit's rate, all other attributes as the session has them, and
    stores mode 'E' if byte 5 is a backslash and mode 'C' otherwise.  All
    it sends after that is the sign-off. *)
Theorem read_d0_acknowledges `{Headers} o m p body rest b :
  0 < fd o -> terminal o <> 0 -> mode o <> ch "P" -> buffer o = Some m ->
  is_tty p = true ->
  fst (d0_request p) = true ->
  ~ In LF body -> rd p = arriving (id_string body) ++ rest ->
  Z.of_nat (List.length (id_string body)) <= bufsize o < 2 ^ 64 ->
  nth 4 (id_string body) 0 = b -> ch "0" <= b <= ch "6" ->
  ~ (nth 5 (id_string body) 0 = BACKSLASH
     /\ nth 6 (id_string body) 0 = ch "2") ->
  exists ret o' p' ops w tail,
    telegram_parser_read_d0 (Some o) p = Some (ret, Some o', p')
    /\ mode o' = (if nth 5 (id_string body) 0 =? BACKSLASH
                  then ch "E" else ch "C")
    /\ tio p' = cfsetspeed (newtio o)
                  (nth (Z.to_nat (b - ch "0")) baud_rates 0)
    /\ Forall request_op ops
    /\ log p' = log p ++ ops
                  ++ OWrite [6; ch "0"; b; ch "0"; CR; LF] w
                  :: ODrain :: OSetattr (tio p') :: tail
    /\ (tail = [] \/ exists w', tail = [OWrite signoffseq w'; ODrain]).
Proof.
  intros Hf Ht Hm Hb Hy Hs Hn Hr Hl B4 Hd B56.
  destruct (read_d0_acknowledged o m p body rest b Hf Ht Hm Hb Hy Hs Hn Hr Hl
              B4 Hd B56)
    as (o1 & m1 & p1 & ops & w & E & M1 & _ & _ & _ & _ & _ & T1 & F & L1).
  destruct (d0_telegram_returns (Z.of_nat (List.length body) + 2) o1 m1 p1)
    as (ret & o' & p' & tail & E2 & M2 & _ & T2 & L2 & S2 & _).
  exists ret, o', p', ops, w, tail. rewrite E.
  split; [exact E2|].
  rewrite M2, T2, L2, L1, <- !app_assoc. repeat split; assumption.
Qed.

Lemma read_d0_acknowledges_witness :
  let body := chars "XYZ3" ++ [BACKSLASH] ++ chars "W" in
  let r := arriving (id_string body) ++ arriving (chars "!") in
  exists ret o' p' ops w tail,
    telegram_parser_read_d0 (Some (session_of (d0_opened r)))
                            (snd (d0_opened r))
      = Some (ret, Some o', p')
    /\ mode o' = ch "E"
    /\ tio p' = mktermios B2400 B2400 7 true 50 0
    /\ Forall request_op ops
    /\ log p' = log (snd (d0_opened r)) ++ ops
                  ++ OWrite [6; ch "0"; ch "3"; ch "0"; CR; LF] w
                  :: ODrain :: OSetattr (tio p') :: tail
    /\ (tail = [] \/ exists w', tail = [OWrite signoffseq w'; ODrain]).
Proof.
  intros body r.
  apply (read_d0_acknowledges (session_of (d0_opened r))
           (mkmem (fun _ => 0) []) (snd (d0_opened r))
           body (arriving (chars "!")) (ch "3"));
    try reflexivity; try discriminate.
  - cbn. intros X. repeat (destruct X as [X|X]; [discriminate|]). exact X.
  - cbn. lia.
  - cbn. lia.
  - intros [_ X]. discriminate X.
Defined.

(** X22: mode B.  On a well-terminated identification string whose byte 4 is
    a letter 'A'..'G' the read sends no ACK: after wake-up and sign-on it
    sets the line to the letter's rate, stores mode 'B', and sends nothing
    but the sign-off after that. *)
Theorem read_d0_mode_b `{Headers} o m p body rest b :
  0 < fd o -> terminal o <> 0 -> mode o <> ch "P" -> buffer o = Some m ->
  is_tty p = true ->
  fst (d0_request p) = true ->
  ~ In LF body -> rd p = arriving (id_string body) ++ rest ->
  Z.of_nat (List.length (id_string body)) <= bufsize o < 2 ^ 64 ->
  nth 4 (id_string body) 0 = b -> ch "A" <= b <= ch "G" ->
  exists ret o' p' ops tail,
    telegram_parser_read_d0 (Some o) p = Some (ret, Some o', p')
    /\ mode o' = ch "B"
    /\ tio p' = cfsetspeed (newtio o)
                  (nth (Z.to_nat (b - ch "A")) baud_rates 0)
    /\ Forall request_op ops
    /\ log p' = log p ++ ops ++ OSetattr (tio p') :: tail
    /\ (tail = [] \/ exists w', tail = [OWrite signoffseq w'; ODrain]).
Proof.
  intros Hf Ht Hm Hb Hy Hs Hn Hr Hl B4 Hd.
  assert (L4 : (4 <= List.length body)%nat).
  { apply id_string_byte4; rewrite B4; revert Hd;
      change (ch "A") with 65; change (ch "G") with 71;
      change CR with 13; change LF with 10; lia. }
  destruct (read_d0_identified o m p body rest Hf Ht Hm Hb Hs Hn Hr Hl L4)
    as (m2 & C0 & C1 & C & E).
  pose proof (C 4%nat ltac:(lia)) as C4. change (Z.of_nat 4) with 4 in C4.
  rewrite B4 in C4.
  destruct (d0_request_after p) as (r0 & ops0 & _ & Ty & Tt & _).
  destruct (d0_request_ops p) as (ops & L & F).
  rewrite E, d0_classify_terminated by (assumption || lia).
  rewrite C4, (d0_switch_letter_rate b Hd). cbv zeta iota beta.
  cbn [mode set_mode]. change (ch "B" =? 0) with false. cbv iota.
  cbn [mode set_mode]. change (ch "B" =? ch "A") with false.
  cbn [negb]. cbv iota.
  match goal with |- context [d0_telegram ?i ?o1 ?m1 ?p1] =>
    destruct (d0_telegram_returns i o1 m1 p1)
      as (ret & o' & p' & tail & E2 & M2 & _ & T2 & L2 & S2 & _)
  end.
  exists ret, o', p', ops, tail. split; [exact E2|].
  rewrite M2, T2, L2. clear E2 M2 T2 L2.
  unfold tcsetattr. cbn [fd set_mode set_newtio is_tty newtio mode set_rd].
  rewrite Ty, Hy.
  destruct (Z.leb_spec 0 (fd o)) as [_|]; [|lia]. cbn [andb tio log set_rd].
  rewrite L, <- !app_assoc. repeat split; assumption.
Qed.

Lemma read_d0_mode_b_witness :
  let body := chars "XYZD" in
  let r := arriving (id_string body) ++ arriving (chars "!") in
  exists ret o' p' ops tail,
    telegram_parser_read_d0 (Some (session_of (d0_opened r)))
                            (snd (d0_opened r))
      = Some (ret, Some o', p')
    /\ mode o' = ch "B"
    /\ tio p' = mktermios B2400 B2400 7 true 50 0
    /\ Forall request_op ops
    /\ log p' = log (snd (d0_opened r)) ++ ops ++ OSetattr (tio p') :: tail
    /\ (tail = [] \/ exists w', tail = [OWrite signoffseq w'; ODrain]).
Proof.
  intros body r.
  apply (read_d0_mode_b (session_of (d0_opened r))
           (mkmem (fun _ => 0) []) (snd (d0_opened r))
           body (arriving (chars "!")) (ch "D"));
    try reflexivity; try discriminate.
  - cbn. intros X. repeat (destruct X as [X|X]; [discriminate|]). exact X.
  - cbn. lia.
  - cbn. lia.
Defined.

(** X23: mode A.  On a well-terminated identification string whose byte 4 is
    a printable character other than '0'..'6', 'A'..'G', '/' and '!' the
    read stores mode 'A', sends no ACK and leaves the line attributes as
    they are. *)
Theorem read_d0_mode_a `{Headers} o m p body rest b :
  0 < fd o -> terminal o <> 0 -> mode o <> ch "P" -> buffer o = Some m ->
  fst (d0_request p) = true ->
  ~ In LF body -> rd p = arriving (id_string body) ++ rest ->
  Z.of_nat (List.length (id_string body)) <= bufsize o < 2 ^ 64 ->
  nth 4 (id_string body) 0 = b ->
  0x20 <= b <= 0x7e -> b <> ch "/" -> b <> ch "!" ->
  ~ ch "0" <= b <= ch "6" -> ~ ch "A" <= b <= ch "G" ->
  exists ret o' p' ops tail,
    telegram_parser_read_d0 (Some o) p = Some (ret, Some o', p')
    /\ mode o' = ch "A"
    /\ tio p' = tio p
    /\ Forall request_op ops
    /\ log p' = log p ++ ops ++ tail
    /\ (tail = [] \/ exists w', tail = [OWrite signoffseq w'; ODrain]).
Proof.
  intros Hf Ht Hm Hb Hs Hn Hr Hl B4 Hp N1 N2 Hd He.
  assert (L4 : (4 <= List.length body)%nat).
  { apply id_string_byte4; rewrite B4; revert Hp;
      change CR with 13; change LF with 10; lia. }
  destruct (read_d0_identified o m p body rest Hf Ht Hm Hb Hs Hn Hr Hl L4)
    as (m2 & C0 & C1 & C & E).
  pose proof (C 4%nat ltac:(lia)) as C4. change (Z.of_nat 4) with 4 in C4.
  rewrite B4 in C4.
  destruct (d0_request_after p) as (r0 & ops0 & _ & Ty & Tt & _).
  destruct (d0_request_ops p) as (ops & L & F).
  rewrite E, d0_classify_terminated by (assumption || lia).
  rewrite C4, (d0_switch_default b Hd He).
  destruct (Z.geb_spec b 0x20) as [_|]; [|lia].
  destruct (Z.leb_spec b 0x7e) as [_|]; [|lia].
  destruct (Z.eqb_spec b (ch "/")) as [|_]; [contradiction|].
  destruct (Z.eqb_spec b (ch "!")) as [|_]; [contradiction|].
  cbn [andb negb]. cbv zeta iota beta.
  cbn [mode set_mode]. change (ch "A" =? 0) with false. cbv iota.
  cbn [mode set_mode]. rewrite Z.eqb_refl. cbn [negb]. cbv iota.
  match goal with |- context [d0_telegram ?i ?o1 ?m1 ?p1] =>
    destruct (d0_telegram_returns i o1 m1 p1)
      as (ret & o' & p' & tail & E2 & M2 & _ & T2 & L2 & S2 & _)
  end.
  exists ret, o', p', ops, tail. split; [exact E2|].
  rewrite M2, T2, L2. cbn [mode set_mode tio log set_rd].
  rewrite L, <- !app_assoc. repeat split; assumption.
Qed.

Lemma read_d0_mode_a_witness :
  let body := chars "XYZ9" in
  let r := arriving (id_string body) ++ arriving (chars "!") in
  exists ret o' p' ops tail,
    telegram_parser_read_d0 (Some (session_of (d0_opened r)))
                            (snd (d0_opened r))
      = Some (ret, Some o', p')
    /\ mode o' = ch "A"
    /\ tio p' = tio (snd (d0_opened r))
    /\ Forall request_op ops
    /\ log p' = log (snd (d0_opened r)) ++ ops ++ tail
    /\ (tail = [] \/ exists w', tail = [OWrite signoffseq w'; ODrain]).
Proof.
  intros body r.
  apply (read_d0_mode_a (session_of (d0_opened r))
           (mkmem (fun _ => 0) []) (snd (d0_opened r))
           body (arriving (chars "!")) (ch "9"));
    try reflexivity; try discriminate.
  - cbn. intros X. repeat (destruct X as [X|X]; [discriminate|]). exact X.
  - cbn. lia.
  - cbn. lia.
  - cbn. lia.
  - cbn. lia.
Defined.

(** X24: an identification string that ends in a line feed without a
    carriage return before it.  The read returns -6 and stores mode 0; it
    has sent wake-up and sign-on only, and it leaves the line attributes
    and the input behind the line feed alone. *)
Theorem read_d0_invalid_id `{Headers} o m p body rest :
  0 < fd o -> terminal o <> 0 -> mode o <> ch "P" -> buffer o = Some m ->
  fst (d0_request p) = true ->
  ~ In LF body -> rd p = arriving (ch "/" :: body ++ [LF]) ++ rest ->
  Z.of_nat (List.length body) + 2 <= bufsize o < 2 ^ 64 ->
  nth (List.length body) (ch "/" :: body) 0 <> CR ->
  exists o' p' ops,
    telegram_parser_read_d0 (Some o) p = Some (-6, Some o', p')
    /\ mode o' = 0
    /\ rd p' = rest /\ tio p' = tio p
    /\ log p' = log p ++ ops /\ Forall request_op ops.
Proof.
  intros Hf Ht Hm Hb Hs Hn Hr Hl Hc.
  rewrite (read_d0_handshakes o m p Hf Ht Hm Hb). unfold d0_handshake.
  destruct (d0_request_after p) as (r0 & ops0 & Hrd & _ & Tt & _).
  destruct (d0_request_ops p) as (ops & L & F).
  destruct (d0_request p) as [sent p1]. cbn [fst snd] in *. subst sent.
  cbn [negb].
  rewrite Hr in Hrd. cbn [arriving map app] in Hrd.
  unfold sys_read at 1. rewrite Hrd.
  change (1 <? 0) with false. change (1 =? 0) with false.
  cbn [cell store orb]. rewrite !Z.eqb_refl. cbn [negb].
  cbv iota.
  set (p2 := set_rd p1 _).
  assert (Hr2 : rd p2 = arriving body ++ RByte LF :: rest).
  { unfold p2. cbn [rd set_rd]. rewrite map_app. cbn [map].
    rewrite <- !app_assoc. reflexivity. }
  assert (Hi2 : 0 + Z.of_nat (List.length body) < bufsize o) by lia.
  assert (Hf2 : (List.length body < S (List.length (rd p2)))%nat)
    by (rewrite Hr2; unfold arriving; rewrite !length_app, length_map; cbn;
        lia).
  destruct (d0_id_loop_reads (bufsize o) (proj2 Hl) body 0
              (store m 0 (ch "/")) p2 rest (S (List.length (rd p2)))
              Hn Hr2 (Z.le_refl 0) Hi2 Hf2)
    as (m2 & E & C1 & C2 & C3).
  rewrite E. cbn [Z.add] in C3 |- *.
  set (idx := Z.of_nat (List.length body) + 1) in *.
  assert (C4 : cell m2 (idx - 1) <> CR).
  { unfold idx. replace (Z.of_nat (List.length body) + 1 - 1)
      with (Z.of_nat (List.length body)) by lia.
    destruct body as [|b0 body'].
    - change (cell m2 0 <> CR). rewrite C1 by lia.
      cbn [cell store]. rewrite Z.eqb_refl. exact Hc.
    - cbn [nth List.length] in Hc.
      replace (Z.of_nat (List.length (b0 :: body')))
        with (0 + 1 + Z.of_nat (List.length body'))
        by (cbn [List.length]; lia).
      rewrite C2 by (cbn [List.length]; lia). exact Hc. }
  unfold d0_classify.
  set (c := idx <? wrap64 (bufsize (set_mode o 0) - 1)).
  rewrite !(terminator_cells c) by lia.
  rewrite C3, Z.eqb_refl.
  destruct (Z.eqb_spec (cell m2 (idx - 1)) CR) as [|_]; [contradiction|].
  cbn [andb].
  do 2 eexists. exists ops. split; [reflexivity|].
  cbn [mode set_mode set_buffer rd set_rd tio log].
  repeat split; assumption.
Qed.

Lemma read_d0_invalid_id_witness :
  let r := arriving (ch "/" :: chars "XYZ5" ++ [LF]) ++ arriving (chars "!") in
  exists o' p' ops,
    telegram_parser_read_d0 (Some (session_of (d0_opened r)))
                            (snd (d0_opened r))
      = Some (-6, Some o', p')
    /\ mode o' = 0
    /\ rd p' = arriving (chars "!") /\ tio p' = tio (snd (d0_opened r))
    /\ log p' = log (snd (d0_opened r)) ++ ops /\ Forall request_op ops.
Proof.
  intros r.
  apply (read_d0_invalid_id (session_of (d0_opened r))
           (mkmem (fun _ => 0) []) (snd (d0_opened r))
           (chars "XYZ5") (arriving (chars "!")));
    try reflexivity; try discriminate.
  - cbn. intros X. repeat (destruct X as [X|X]; [discriminate|]). exact X.
  - cbn. lia.
Defined.

(** ** The D0 read: the telegram *)

Lemma set_rd_same p : set_rd p (rd p) = p.
Proof. now destruct p. Qed.

(** The loop over the telegram body stores bytes from 0x7e on one after the
    other, as long as the buffer has room. *)
Lemma d0_body_loop_stores bufsize :
  bufsize < 2 ^ 64 ->
  forall (c : list Z) idx m p tail fuel,
  Forall (fun b => 0x7e <= b) c ->
  rd p = arriving c ++ tail ->
  0 <= idx -> idx + Z.of_nat (List.length c) < bufsize ->
  do_while (d0_body_iter bufsize) (List.length c + fuel) (idx, m, p)
  = do_while (d0_body_iter bufsize) fuel
      (idx + Z.of_nat (List.length c), store_list m idx c, set_rd p tail).
Proof.
  intros Hb c. induction c as [|b c IH]; intros idx m p tail fuel Hc Hr Hi Hl.
  - cbn [List.length Nat.add Z.of_nat store_list]. rewrite Z.add_0_r.
    cbn [arriving map app] in Hr. now rewrite <- Hr, set_rd_same.
  - cbn [List.length] in Hl |- *. cbn [arriving map app] in Hr.
    inversion Hc as [|? ? Hb0 Hc']; subst.
    assert (Hm : b <> ch "!") by (change (ch "!") with 33; lia).
    cbn [Nat.add].
    rewrite (do_while_step _ _ _ (wrap64 (idx + 1), store m idx b,
                                  set_rd p (arriving c ++ tail))).
    2:{ rewrite (d0_body_iter_byte bufsize idx m p b _ Hr Hm).
        destruct (Z.ltb_spec b 0x7e) as [|_]; [lia|].
        rewrite wrap64_small by lia.
        destruct (Z.ltb_spec (idx + 1) bufsize) as [_|]; [reflexivity|lia]. }
    rewrite wrap64_small by lia.
    rewrite (IH (idx + 1) (store m idx b) (set_rd p (arriving c ++ tail))
               tail fuel Hc' eq_refl) by lia.
    cbn [store_list set_rd]. do 3 f_equal. lia.
Qed.

(** The last pass of the loop, by what the read brings. *)
Lemma d0_body_iter_last bufsize idx m p tail :
  rd p = tail ->
  d0_body_iter bufsize (idx, m, p)
  = match tail with
    | RByte b :: r =>
        if b =? ch "!" then inl (D0Break, idx, store m idx b, set_rd p r)
        else if b <? 0x7e then inl (D0Abort, idx, store m idx b, set_rd p r)
        else if wrap64 (idx + 1) <? bufsize
             then inr (wrap64 (idx + 1), store m idx b, set_rd p r)
             else inl (D0Done, wrap64 (idx + 1), store m idx b, set_rd p r)
    | _ => inl (D0Done, idx, m, set_rd p (tl tail))
    end.
Proof.
  intros Hr. destruct tail as [|[b| |] r].
  - unfold d0_body_iter, sys_read. rewrite Hr. cbn.
    now rewrite <- Hr, set_rd_same.
  - destruct (Z.eqb_spec b (ch "!")) as [->|Hm].
    + unfold d0_body_iter, sys_read. rewrite Hr.
      cbn [cell store]. rewrite Z.eqb_refl. reflexivity.
    + apply (d0_body_iter_byte bufsize idx m p b r Hr Hm).
  - unfold d0_body_iter, sys_read. rewrite Hr. reflexivity.
  - unfold d0_body_iter, sys_read. rewrite Hr. reflexivity.
Qed.

(** The session after the grammar has been run over the first [n] bytes of
    the buffer [m]. *)
Lemma d0_parsed `{Headers} (o : telegram_parser) (m : mem) (n : Z) (l : list Z) :
  bytes_of (cell m) n = l ->
  let o' := dump_on_errors (run_parser (set_len (set_buffer o (Some m)) n) m) m
  in
  len o' = n /\ buffer o' = Some m /\ mode o' = mode o /\ fd o' = fd o
  /\ bufsize o' = bufsize o
  /\ (status o', tp_parser o')
     = parser_finish (parser_execute (parser_init (tp_parser o)) l).
Proof.
  intros Hl o'.
  destruct (dump_on_errors_fields
              (run_parser (set_len (set_buffer o (Some m)) n) m) m)
    as (D1 & D2 & D3 & D4 & _ & D6 & _ & D8 & D9).
  destruct (run_parser_fields (set_len (set_buffer o (Some m)) n) m)
    as (R1 & R2 & _ & R4 & _ & R6 & R7).
  fold o' in D1, D2, D3, D4, D6, D8, D9.
  rewrite D4, D3, D6, D8, D9, R1, R2, R4, R6, R7, D2, D1.
  cbn [len set_len buffer set_buffer mode fd bufsize]. repeat split.
  unfold run_parser. cbn [len set_len tp_parser set_buffer]. rewrite Hl.
  destruct (parser_finish _) as [st ps]. reflexivity.
Qed.

(** The telegram part of the read on a body of bytes from 0x7e on, by what
    follows them: the terminator, a byte below 0x7e, or no byte. *)
Lemma d0_telegram_body `{Headers} idx o m p (c : list Z) tail :
  0 <= idx -> idx + 2 < bufsize o < 2 ^ 64 ->
  Forall (fun b => 0x7e <= b) c ->
  rd p = arriving c ++ tail ->
  idx + 1 + Z.of_nat (List.length c) < bufsize o ->
  d0_telegram idx o m p
  = let i := idx + 1 + Z.of_nat (List.length c) in
    let m' := store_list m (idx + 1) c in
    let parsed (m1 : mem) :=
      dump_on_errors (run_parser (set_len (set_buffer o (Some m1)) i) m1) m1 in
    match tail with
    | RByte b :: r =>
        if b =? ch "!" then
          Some (0, Some (parsed (store m' i b)),
                if negb (terminal o =? 0) && negb (mode o =? ch "P")
                then let '(_, q) := sys_write (set_rd p r) signoffseq in
                     tcdrain q
                else set_rd p r)
        else if b <? 0x7e then
          Some (-9, Some (set_buffer o (Some (store m' i b))), set_rd p r)
        else d0_telegram idx o m p
    | _ => Some (0, Some (parsed m'), set_rd p (tl tail))
    end.
Proof.
  intros Hi Hb Hc Hr Hl. cbv zeta.
  assert (E : do_while (d0_body_iter (bufsize o)) (S (List.length (rd p)))
                (idx + 1, m, p)
              = do_while (d0_body_iter (bufsize o)) (S (List.length tail))
                  (idx + 1 + Z.of_nat (List.length c),
                   store_list m (idx + 1) c, set_rd p tail)).
  { rewrite <- (d0_body_loop_stores (bufsize o) (proj2 Hb) c (idx + 1) m p tail
                  (S (List.length tail)) Hc Hr) by lia.
    f_equal. rewrite Hr, length_app, arriving_length. lia. }
  destruct tail as [|[b| |] r];
    try destruct (b =? ch "!") eqn:Eb;
    try destruct (b <? 0x7e) eqn:Lb; try reflexivity;
    unfold d0_telegram; rewrite wrap64_small by lia;
    rewrite (wrap64_small (bufsize o - 1)) by lia;
    (destruct (Z.geb_spec (idx + 1) (bufsize o - 1)) as [|_]; [lia|]);
    rewrite E;
    (erewrite do_while_exit;
     [|rewrite (d0_body_iter_last _ _ _ _ _ eq_refl); cbn [rd set_rd];
       rewrite ?Eb, ?Lb; reflexivity]);
    cbn [andb negb tl set_rd]; reflexivity.
Qed.

Lemma read_d0_no_handshake `{Headers} o m p :
  0 < fd o -> terminal o = 0 \/ mode o = ch "P" -> buffer o = Some m ->
  telegram_parser_read_d0 (Some o) p = d0_telegram 0 o m p.
Proof.
  intros Hf Ht Hb. unfold telegram_parser_read_d0. rewrite Hb.
  destruct (Z.leb_spec (fd o) 0) as [|_]; [lia|].
  destruct Ht as [->| ->]; [reflexivity|].
  rewrite Z.eqb_refl. now rewrite andb_false_r.
Qed.

Lemma bytes_of_body (m : mem) (c t : list Z) :
  bytes_of (cell (store_list m 1 (c ++ t))) (0 + 1 + Z.of_nat (List.length c))
  = cell m 0 :: c.
Proof.
  replace (0 + 1 + Z.of_nat (List.length c))
    with (Z.of_nat (List.length (cell m 0 :: c))) by (cbn [List.length]; lia).
  apply bytes_of_cells. intros k Hk. cbn [List.length] in Hk.
  rewrite cell_store_list, length_app.
  destruct k as [|k].
  - reflexivity.
  - destruct (Z.leb_spec 1 (Z.of_nat (S k))) as [_|]; [|lia].
    destruct (Z.ltb_spec (Z.of_nat (S k))
                (1 + Z.of_nat (List.length c + List.length t))) as [_|]; [|lia].
    cbn [andb nth].
    replace (Z.to_nat (Z.of_nat (S k) - 1)) with k by lia.
    apply app_nth1. lia.
Qed.

(** X25: a telegram read without handshake (from a file, or in mode 'P').
    Bytes from 0x7e on followed by '!' are stored from index 1 on, the '!'
    included; the read returns 0 and has sent nothing; [len] counts the
    byte at index 0, which the read does not store, and the bytes before
    the '!', and it is these the grammar is run over. *)
Theorem read_d0_takes_telegram `{Headers} o m p (c : list Z) rest :
  0 < fd o -> terminal o = 0 \/ mode o = ch "P" -> buffer o = Some m ->
  Forall (fun b => 0x7e <= b) c ->
  rd p = arriving (c ++ [ch "!"]) ++ rest ->
  2 < bufsize o < 2 ^ 64 -> Z.of_nat (List.length c) + 1 < bufsize o ->
  exists o',
    telegram_parser_read_d0 (Some o) p = Some (0, Some o', set_rd p rest)
    /\ len o' = 1 + Z.of_nat (List.length c)
    /\ buffer o' = Some (store_list m 1 (c ++ [ch "!"]))
    /\ (status o', tp_parser o')
       = parser_finish (parser_execute (parser_init (tp_parser o))
                                       (cell m 0 :: c)).
Proof.
  intros Hf Ht Hb Hc Hr Hs Hl.
  rewrite (read_d0_no_handshake o m p Hf Ht Hb).
  rewrite arriving_app, <- app_assoc in Hr. cbn [arriving map app] in Hr.
  rewrite (d0_telegram_body 0 o m p c _ (Z.le_refl 0) ltac:(lia) Hc Hr
             ltac:(lia)).
  cbv zeta. rewrite Z.eqb_refl.
  assert (N : negb (terminal o =? 0) && negb (mode o =? ch "P") = false).
  { destruct Ht as [->| ->]; [reflexivity|].
    rewrite Z.eqb_refl. now rewrite andb_false_r. }
  rewrite N.
  replace (store (store_list m (0 + 1) c) (0 + 1 + Z.of_nat (List.length c))
             (ch "!"))
    with (store_list m 1 (c ++ [ch "!"]))
    by (rewrite store_list_app; reflexivity).
  eexists. split; [reflexivity|].
  destruct (d0_parsed o (store_list m 1 (c ++ [ch "!"]))
              (0 + 1 + Z.of_nat (List.length c)) (cell m 0 :: c)
              (bytes_of_body m c [ch "!"]))
    as (P1 & P2 & _ & _ & _ & P6).
  repeat split; assumption.
Qed.

Lemma read_d0_takes_telegram_witness :
  let r := arriving ([0x7f; 0xc8; 0x7e] ++ [ch "!"]) ++ arriving (chars "/") in
  exists o',
    telegram_parser_read_d0 (Some (session_of (d0_file_opened r)))
                            (snd (d0_file_opened r))
      = Some (0, Some o', set_rd (snd (d0_file_opened r))
                                 (arriving (chars "/")))
    /\ len o' = 1 + 3
    /\ buffer o'
       = Some (store_list (mkmem (fun _ => 0) []) 1 [0x7f; 0xc8; 0x7e; ch "!"])
    /\ (status o', tp_parser o') = (1, mkparser 0 0 tt).
Proof.
  intros r.
  apply (read_d0_takes_telegram (session_of (d0_file_opened r))
           (mkmem (fun _ => 0) []) (snd (d0_file_opened r))
           [0x7f; 0xc8; 0x7e] (arriving (chars "/")));
    try reflexivity; try (left; reflexivity); try (cbn; lia).
  repeat constructor; lia.
Defined.

(** X26: a byte below 0x7e in the telegram.  In a read without handshake,
    after any number of bytes from 0x7e on, a byte below 0x7e other than
    '!' is stored and ends the read with -9; apart from the buffer the
    session is as before, so [len] and [status] still tell of the previous
    telegram, and the input behind that byte is left unread. *)
Theorem read_d0_refuses_byte `{Headers} o m p (c : list Z) b rest :
  0 < fd o -> terminal o = 0 \/ mode o = ch "P" -> buffer o = Some m ->
  Forall (fun b => 0x7e <= b) c ->
  rd p = arriving c ++ RByte b :: rest ->
  b < 0x7e -> b <> ch "!" ->
  2 < bufsize o < 2 ^ 64 -> Z.of_nat (List.length c) + 1 < bufsize o ->
  telegram_parser_read_d0 (Some o) p
  = Some (-9, Some (set_buffer o (Some (store_list m 1 (c ++ [b])))),
          set_rd p rest).
Proof.
  intros Hf Ht Hb Hc Hr Hlt Hne Hs Hl.
  rewrite (read_d0_no_handshake o m p Hf Ht Hb).
  rewrite (d0_telegram_body 0 o m p c _ (Z.le_refl 0) ltac:(lia) Hc Hr
             ltac:(lia)).
  cbv zeta.
  destruct (Z.eqb_spec b (ch "!")) as [|_]; [contradiction|].
  destruct (Z.ltb_spec b 0x7e) as [_|]; [|lia].
  rewrite store_list_app. reflexivity.
Qed.

Lemma read_d0_refuses_byte_witness :
  let r := arriving [0x7f] ++ RByte (ch "1") :: arriving (chars "-0") in
  telegram_parser_read_d0 (Some (session_of (d0_file_opened r)))
                          (snd (d0_file_opened r))
  = Some (-9,
          Some (set_buffer (session_of (d0_file_opened r))
                  (Some (store_list (mkmem (fun _ => 0) []) 1
                           ([0x7f] ++ [ch "1"])))),
          set_rd (snd (d0_file_opened r)) (arriving (chars "-0"))).
Proof.
  intros r.
  apply (read_d0_refuses_byte (session_of (d0_file_opened r))
           (mkmem (fun _ => 0) []) (snd (d0_file_opened r))
           [0x7f] (ch "1") (arriving (chars "-0")));
    try reflexivity; try (left; reflexivity); try discriminate;
    try (cbn; lia).
  repeat constructor; lia.
Defined.

(** X27: a telegram cut short.  In a read without handshake, when after bytes
    from 0x7e on a read brings no byte (end of file, a timeout, an error)
    the read still returns 0: it sets [len], runs the grammar over what it
    has and leaves it to [status] to tell. *)
Theorem read_d0_truncated `{Headers} o m p (c : list Z) tail :
  0 < fd o -> terminal o = 0 \/ mode o = ch "P" -> buffer o = Some m ->
  Forall (fun b => 0x7e <= b) c ->
  rd p = arriving c ++ tail -> (forall b r, tail <> RByte b :: r) ->
  2 < bufsize o < 2 ^ 64 -> Z.of_nat (List.length c) + 1 < bufsize o ->
  exists o',
    telegram_parser_read_d0 (Some o) p
      = Some (0, Some o', set_rd p (tl tail))
    /\ len o' = 1 + Z.of_nat (List.length c)
    /\ buffer o' = Some (store_list m 1 c)
    /\ (status o', tp_parser o')
       = parser_finish (parser_execute (parser_init (tp_parser o))
                                       (cell m 0 :: c)).
Proof.
  intros Hf Ht Hb Hc Hr Hn Hs Hl.
  rewrite (read_d0_no_handshake o m p Hf Ht Hb).
  rewrite (d0_telegram_body 0 o m p c _ (Z.le_refl 0) ltac:(lia) Hc Hr
             ltac:(lia)).
  cbv zeta.
  assert (E : forall (A : Type) (x : A) (f : Z -> list rres -> A),
             match tail with RByte b :: r => f b r | _ => x end = x).
  { intros A x f. destruct tail as [|[b| |] r]; try reflexivity.
    now elim (Hn b r). }
  rewrite (E _ _ (fun b r => if b =? ch "!" then _ else _)).
  eexists. split; [reflexivity|].
  pose proof (bytes_of_body m c []) as B. rewrite app_nil_r in B.
  destruct (d0_parsed o (store_list m 1 c)
              (0 + 1 + Z.of_nat (List.length c)) (cell m 0 :: c) B)
    as (P1 & P2 & _ & _ & _ & P6).
  repeat split; assumption.
Qed.

Lemma read_d0_truncated_witness :
  let r := arriving [0x7f; 0x80] ++ [RNone; RByte (ch "!")] in
  exists o',
    telegram_parser_read_d0 (Some (session_of (d0_file_opened r)))
                            (snd (d0_file_opened r))
      = Some (0, Some o', set_rd (snd (d0_file_opened r)) [RByte (ch "!")])
    /\ len o' = 1 + 2
    /\ buffer o' = Some (store_list (mkmem (fun _ => 0) []) 1 [0x7f; 0x80])
    /\ (status o', tp_parser o') = (1, mkparser 0 0 tt).
Proof.
  intros r.
  apply (read_d0_truncated (session_of (d0_file_opened r))
           (mkmem (fun _ => 0) []) (snd (d0_file_opened r))
           [0x7f; 0x80] [RNone; RByte (ch "!")]);
    try reflexivity; try (left; reflexivity); try discriminate;
    try (cbn; lia).
  repeat constructor; lia.
Defined.

(** X28: the data of a meter in mode C or E.  When the identification string
    with a digit '0'..'6' as byte 4 is followed by a byte below 0x7e other
    than '!' (a letter or a digit of a data line, say) the read returns -9:
    by then it has sent the ACK and set the line to the new rate, it sends
    no sign-off, and [len] is as it was. *)
Theorem read_d0_refuses_meter_data `{Headers} o m p body rest b x :
  0 < fd o -> terminal o <> 0 -> mode o <> ch "P" -> buffer o = Some m ->
  is_tty p = true ->
  fst (d0_request p) = true ->
  ~ In LF body -> rd p = arriving (id_string body) ++ RByte x :: rest ->
  Z.of_nat (List.length (id_string body)) + 2 <= bufsize o < 2 ^ 64 ->
  nth 4 (id_string body) 0 = b -> ch "0" <= b <= ch "6" ->
  ~ (nth 5 (id_string body) 0 = BACKSLASH
     /\ nth 6 (id_string body) 0 = ch "2") ->
  x < 0x7e -> x <> ch "!" ->
  exists o' p' ops w,
    telegram_parser_read_d0 (Some o) p = Some (-9, Some o', p')
    /\ mode o' = (if nth 5 (id_string body) 0 =? BACKSLASH
                  then ch "E" else ch "C")
    /\ len o' = len o
    /\ rd p' = rest
    /\ tio p' = cfsetspeed (newtio o)
                  (nth (Z.to_nat (b - ch "0")) baud_rates 0)
    /\ Forall request_op ops
    /\ log p' = log p ++ ops
                  ++ [OWrite [6; ch "0"; b; ch "0"; CR; LF] w; ODrain;
                      OSetattr (tio p')].
Proof.
  intros Hf Ht Hm Hb Hy Hs Hn Hr Hl B4 Hd B56 Hx Nx.
  destruct (read_d0_acknowledged o m p body (RByte x :: rest) b Hf Ht Hm Hb Hy
              Hs Hn Hr ltac:(lia) B4 Hd B56)
    as (o1 & m1 & p1 & ops & w & E & M1 & S1 & _ & N1 & R1 & _ & T1 & F & L1).
  rewrite id_string_length in Hl.
  rewrite E.
  rewrite (d0_telegram_body (Z.of_nat (List.length body) + 2) o1 m1 p1 []
             (RByte x :: rest) ltac:(lia) ltac:(rewrite S1; lia)
             (Forall_nil _) R1 ltac:(rewrite S1; cbn [List.length]; lia)).
  cbv zeta.
  destruct (Z.eqb_spec x (ch "!")) as [|_]; [contradiction|].
  destruct (Z.ltb_spec x 0x7e) as [_|]; [|lia].
  do 2 eexists. exists ops, w. split; [reflexivity|].
  cbn [mode len set_buffer rd tio log set_rd].
  repeat split; assumption.
Qed.

Lemma read_d0_refuses_meter_data_witness :
  let r := arriving (id_string (chars "XYZ5ABC")) ++
           RByte (ch "1") :: arriving (chars "-0:1.8.0") in
  exists o' p' ops w,
    telegram_parser_read_d0 (Some (session_of (d0_opened r)))
                            (snd (d0_opened r))
      = Some (-9, Some o', p')
    /\ mode o' = ch "C"
    /\ len o' = 0
    /\ rd p' = arriving (chars "-0:1.8.0")
    /\ tio p' = mktermios B9600 B9600 7 true 50 0
    /\ Forall request_op ops
    /\ log p' = log (snd (d0_opened r)) ++ ops
                  ++ [OWrite [6; ch "0"; ch "5"; ch "0"; CR; LF] w; ODrain;
                      OSetattr (tio p')].
Proof.
  intros r.
  apply (read_d0_refuses_meter_data (session_of (d0_opened r))
           (mkmem (fun _ => 0) []) (snd (d0_opened r))
           (chars "XYZ5ABC") (arriving (chars "-0:1.8.0")) (ch "5") (ch "1"));
    try reflexivity; try discriminate.
  - cbn. intros X. repeat (destruct X as [X|X]; [discriminate|]). exact X.
  - cbn. lia.
  - cbn. lia.
  - intros [X _]. discriminate X.
Defined.

(** ** How far the D0 read writes *)

Lemma d0_id_iter_writes B idx m p :
  1 <= B < 2 ^ 64 -> 0 <= idx < B ->
  match d0_id_iter B (idx, m, p) with
  | inl (i', m', _) => grows (d0_index B) m m' /\ 1 <= i' <= B
  | inr (i', m', _) => grows (d0_index B) m m' /\ 0 <= i' < B
  end.
Proof.
  intros HB Hi. unfold d0_id_iter. rewrite wrap64_small by lia.
  destruct (sys_read p m (idx + 1)) as [[n m1] p1] eqn:E.
  apply (grows_sys_read (d0_index B)) in E; [|unfold d0_index; lia].
  destruct (Z.ltb_spec (idx + 1) B); cbn [andb].
  - destruct (_ && _); split; (assumption || lia).
  - split; (assumption || lia).
Qed.

Lemma d0_body_iter_writes B idx m p :
  1 <= B < 2 ^ 64 -> 0 <= idx < B ->
  match d0_body_iter B (idx, m, p) with
  | inl (_, _, m', _) => grows (d0_index B) m m'
  | inr (i', m', _) => grows (d0_index B) m m' /\ 0 <= i' < B
  end.
Proof.
  intros HB Hi. unfold d0_body_iter.
  destruct (sys_read p m idx) as [[n m1] p1] eqn:E.
  apply (grows_sys_read (d0_index B)) in E; [|unfold d0_index; lia].
  assert (A : forall i, 0 <= i ->
            match (if (n >? 0) && (i <? B)
                   then inr (i, m1, p1)
                   else inl (D0Done, i, m1, p1))
                  : (d0_exit * Z * mem * port) + (Z * mem * port)
            with
            | inl (_, _, m', _) => grows (d0_index B) m m'
            | inr (i', m', _) => grows (d0_index B) m m' /\ 0 <= i' < B
            end).
  { intros i Hi0. destruct (n >? 0); cbn [andb]; [|assumption].
    destruct (Z.ltb_spec i B); [split; (assumption || lia)|assumption]. }
  destruct (n <? 0); [apply A; lia|].
  destruct (n =? 0); [apply A; lia|].
  destruct (_ =? ch "!"); [assumption|].
  destruct (_ || _); [assumption|].
  apply A. rewrite wrap64_small by lia. lia.
Qed.

Lemma d0_classify_writes `{Headers} o idx m p :
  1 <= bufsize o < 2 ^ 64 -> 1 <= idx <= bufsize o ->
  match d0_classify o idx m p with
  | inl (_, _, m1, _) => grows (d0_index (bufsize o)) m m1
  | inr (i, o1, m1, _) =>
      grows (d0_index (bufsize o)) m m1 /\ bufsize o1 = bufsize o
  end.
Proof.
  intros HB Hi. unfold d0_classify.
  change (bufsize (set_mode o 0)) with (bufsize o).
  rewrite wrap64_small by lia.
  set (m1 := if idx <? bufsize o - 1 then store m (idx + 1) NUL else m).
  assert (G1 : grows (d0_index (bufsize o)) m m1).
  { unfold m1. destruct (Z.ltb_spec idx (bufsize o - 1)).
    - apply grows_store. unfold d0_index. lia.
    - apply grows_refl. }
  destruct (_ && _).
  - destruct (d0_switch (cell m1 4)) as [md baud].
    destruct (mode (set_mode (set_mode o 0) md) =? 0).
    + destruct (cell m1 5 =? BACKSLASH).
      * destruct (cell m1 6 =? ch "2"); [exact G1|].
        destruct (sys_write p _) as [w q].
        destruct (negb _); split; (exact G1 || reflexivity).
      * destruct (sys_write p _) as [w q].
        destruct (negb _); split; (exact G1 || reflexivity).
    + destruct (negb _); split; (exact G1 || reflexivity).
  - eapply grows_trans; [exact G1|].
    destruct (Z.ltb_spec idx (bufsize o - 1));
      apply grows_store; unfold d0_index; lia.
Qed.

Lemma d0_handshake_writes `{Headers} o m p x :
  1 <= bufsize o < 2 ^ 64 ->
  d0_handshake o m p = Some x ->
  match x with
  | inl (_, _, m1, _) => grows (d0_index (bufsize o)) m m1
  | inr (i, o1, m1, _) =>
      grows (d0_index (bufsize o)) m m1 /\ bufsize o1 = bufsize o
  end.
Proof.
  intros HB. unfold d0_handshake.
  destruct (d0_request p) as [sent p0].
  destruct (negb sent).
  { intros X. inversion X. apply grows_refl. }
  destruct (sys_read p0 m 0) as [[n m0] p1] eqn:E.
  apply (grows_sys_read (d0_index (bufsize o))) in E;
    [|unfold d0_index; lia].
  destruct (n <? 0).
  { intros X. inversion X. exact E. }
  destruct (_ || _).
  { intros X. inversion X. exact E. }
  destruct (do_while _ _ _) as [[[idx m2] p2]|] eqn:L; [|discriminate].
  intros X. inversion X. subst x. clear X.
  assert (G : grows (d0_index (bufsize o)) m m2 /\ 1 <= idx <= bufsize o).
  { apply (do_while_invariant (d0_id_iter (bufsize o))
             (fun s => grows (d0_index (bufsize o)) m (snd (fst s))
                       /\ 0 <= fst (fst s) < bufsize o)
             (fun r => grows (d0_index (bufsize o)) m (snd (fst r))
                       /\ 1 <= fst (fst r) <= bufsize o))
      with (r := (idx, m2, p2)) (4 := L).
    - intros [[i a] q] [[i' a'] q'] [G I] Y. cbn [fst snd] in *.
      pose proof (d0_id_iter_writes (bufsize o) i a q HB I) as W.
      rewrite Y in W. destruct W as [W1 W2].
      split; [eapply grows_trans; eauto|assumption].
    - intros [[i a] q] [[i' a'] q'] [G I] Y. cbn [fst snd] in *.
      pose proof (d0_id_iter_writes (bufsize o) i a q HB I) as W.
      rewrite Y in W. destruct W as [W1 W2].
      split; [eapply grows_trans; eauto|assumption].
    - cbn [fst snd]. split; [exact E|lia]. }
  destruct G as [G I].
  pose proof (d0_classify_writes o idx m2 p2 HB I) as W.
  destruct (d0_classify o idx m2 p2) as [[[[? ?] m3] ?]|[[[? ?] m3] ?]].
  - eapply grows_trans; eauto.
  - destruct W as [W1 W2]. split; [eapply grows_trans; eauto|assumption].
Qed.

Lemma d0_telegram_writes `{Headers} idx o m p ret o' p' :
  1 <= bufsize o < 2 ^ 64 ->
  d0_telegram idx o m p = Some (ret, Some o', p') ->
  exists m', buffer o' = Some m' /\ grows (d0_index (bufsize o)) m m'.
Proof.
  intros HB. unfold d0_telegram.
  rewrite (wrap64_small (bufsize o - 1)) by lia.
  pose proof (Z.mod_pos_bound (idx + 1) (2 ^ 64) ltac:(lia)) as Wb.
  fold (wrap64 (idx + 1)) in Wb.
  destruct (Z.geb_spec (wrap64 (idx + 1)) (bufsize o - 1)) as [|Lt].
  { intros X. inversion X. exists m. split; [reflexivity|apply grows_refl]. }
  destruct (do_while _ _ _) as [[[[e i] m2] p2]|] eqn:L; [|discriminate].
  assert (G : grows (d0_index (bufsize o)) m m2).
  { apply (do_while_invariant (d0_body_iter (bufsize o))
             (fun s => grows (d0_index (bufsize o)) m (snd (fst s))
                       /\ 0 <= fst (fst s) < bufsize o)
             (fun r => grows (d0_index (bufsize o)) m (snd (fst r))))
      with (r := (e, i, m2, p2)) (4 := L).
    - intros [[j a] q] [[j' a'] q'] [G I] Y. cbn [fst snd] in *.
      pose proof (d0_body_iter_writes (bufsize o) j a q HB I) as W.
      rewrite Y in W. destruct W as [W1 W2].
      split; [eapply grows_trans; eauto|assumption].
    - intros [[j a] q] [[[e' j'] a'] q'] [G I] Y. cbn [fst snd] in *.
      pose proof (d0_body_iter_writes (bufsize o) j a q HB I) as W.
      rewrite Y in W. eapply grows_trans; eauto.
    - cbn [fst snd]. split; [apply grows_refl|lia]. }
  assert (K : forall n,
             buffer (dump_on_errors
                       (run_parser (set_len (set_buffer o (Some m2)) n) m2) m2)
             = Some m2).
  { intros n. now destruct (d0_parsed o m2 n _ eq_refl) as (_ & K & _). }
  destruct e; intros X; inversion X; exists m2;
    (split; [first [apply K | reflexivity] | exact G]).
Qed.

(** X29: the D0 read stores only to the buffer and, at most, the one byte
    behind it. *)
Theorem read_d0_writes_within_one `{Headers} o m p ret o' p' :
  buffer o = Some m -> 1 <= bufsize o < 2 ^ 64 ->
  telegram_parser_read_d0 (Some o) p = Some (ret, Some o', p') ->
  exists m' ws,
    buffer o' = Some m'
    /\ written m' = written m ++ ws
    /\ Forall (fun i => 0 <= i <= bufsize o) ws.
Proof.
  intros Hb HB. unfold telegram_parser_read_d0. rewrite Hb.
  assert (R : forall m', grows (d0_index (bufsize o)) m m' ->
             exists ws, written m' = written m ++ ws
                        /\ Forall (fun i => 0 <= i <= bufsize o) ws)
    by (intros m' G; exact G).
  destruct (fd o <=? 0).
  { intros X. inversion X. subst. exists m.
    destruct (R m (grows_refl _ _)) as (ws & W). now exists ws. }
  destruct (negb (terminal o =? 0) && negb (mode o =? ch "P")).
  - destruct (d0_handshake o m p) as [x|] eqn:E; [|discriminate].
    pose proof (d0_handshake_writes o m p x HB E) as W.
    destruct x as [[[[code o1] m1] p1]|[[[idx o1] m1] p1]].
    + intros X. inversion X. subst. exists m1.
      destruct (R m1 W) as (ws & W'). now exists ws.
    + destruct W as [W1 W2]. intros X.
      destruct (d0_telegram_writes idx o1 m1 p1 ret o' p'
                  ltac:(rewrite W2; exact HB) X) as (m' & B' & G').
      rewrite W2 in G'. exists m'.
      destruct (R m' (grows_trans _ _ _ _ W1 G')) as (ws & W').
      now exists ws.
  - intros X.
    destruct (d0_telegram_writes 0 o m p ret o' p' HB X) as (m' & B' & G').
    exists m'. destruct (R m' G') as (ws & W'). now exists ws.
Qed.

Lemma d0_overrun_example :
  let r := arriving (ch "/" :: repeat (ch "X") 64) ++ arriving (chars "YZ") in
  exists o' p',
    telegram_parser_read_d0 (Some (session_of (d0_opened r)))
                            (snd (d0_opened r))
    = Some (-6, Some o', p').
Proof. intros r. do 2 eexists. vm_compute. reflexivity. Defined.

Lemma read_d0_writes_within_one_witness :
  let r := arriving (ch "/" :: repeat (ch "X") 64) ++ arriving (chars "YZ") in
  exists o',
    (exists p', telegram_parser_read_d0 (Some (session_of (d0_opened r)))
                                        (snd (d0_opened r))
                = Some (-6, Some o', p'))
    /\ exists m' ws,
         buffer o' = Some m'
         /\ written m' = [] ++ ws
         /\ Forall (fun i => 0 <= i <= 64) ws.
Proof.
  intros r. destruct d0_overrun_example as (o' & p' & E).
  exists o'. split; [exists p'; exact E|].
  exact (read_d0_writes_within_one (session_of (d0_opened r))
           (mkmem (fun _ => 0) []) (snd (d0_opened r)) _ _ _
           eq_refl ltac:(cbn; lia) E).
Defined.

(** The loop that reads the identification string, on input without a line
    feed that is longer than the buffer: it stores up to the byte behind
    the buffer. *)
Lemma d0_id_loop_fills bufsize :
  bufsize < 2 ^ 64 ->
  forall (l : list Z) idx m p rest fuel,
  l <> [] -> ~ In LF l ->
  rd p = arriving l ++ rest ->
  0 <= idx -> idx + Z.of_nat (List.length l) = bufsize ->
  (List.length l <= fuel)%nat ->
  do_while (d0_id_iter bufsize) fuel (idx, m, p)
  = Some (bufsize, store_list m (idx + 1) l, set_rd p rest).
Proof.
  intros HB l. induction l as [|b l IH];
    intros idx m p rest fuel Hne Hn Hr Hi Hl Hf; [contradiction|].
  cbn [List.length] in Hl, Hf. cbn [arriving map app] in Hr.
  destruct fuel as [|fuel]; [lia|].
  assert (Nb : b <> LF) by (intros ->; apply Hn; now left).
  assert (Hn' : ~ In LF l) by (intros X; apply Hn; now right).
  assert (It : d0_id_iter bufsize (idx, m, p)
               = if idx + 1 <? bufsize
                 then inr (idx + 1, store m (idx + 1) b,
                           set_rd p (arriving l ++ rest))
                 else inl (idx + 1, store m (idx + 1) b,
                           set_rd p (arriving l ++ rest))).
  { unfold d0_id_iter, sys_read. rewrite wrap64_small by lia. rewrite Hr.
    change (1 =? 1) with true. cbn [cell store]. rewrite Z.eqb_refl.
    destruct (Z.eqb_spec b LF) as [|_]; [contradiction|].
    cbn [negb]. rewrite !andb_true_r. reflexivity. }
  destruct l as [|b' l'].
  - cbn [List.length] in Hl.
    destruct (Z.ltb_spec (idx + 1) bufsize) as [|_]; [lia|].
    rewrite (do_while_exit _ _ _ _ It). cbn [store_list arriving map app].
    do 3 f_equal. lia.
  - destruct (Z.ltb_spec (idx + 1) bufsize) as [_|];
      [|cbn [List.length] in Hl; lia].
    rewrite (do_while_step _ _ _ _ It).
    rewrite (IH (idx + 1) (store m (idx + 1) b)
               (set_rd p (arriving (b' :: l') ++ rest)) rest fuel
               ltac:(discriminate) Hn' eq_refl) by lia.
    reflexivity.
Qed.

(** X30: an identification string too long for the buffer.  When the meter
    answers the sign-on with '/' and then as many bytes as the buffer is
    long, none of them a line feed, the read stores the last of them behind
    the end of the buffer, at index [bufsize], writes a NUL over it there,
    and returns -6. *)
Theorem read_d0_id_overruns `{Headers} o m p (body : list Z) rest :
  0 < fd o -> terminal o <> 0 -> mode o <> ch "P" -> buffer o = Some m ->
  fst (d0_request p) = true ->
  ~ In LF body -> rd p = arriving (ch "/" :: body) ++ rest ->
  Z.of_nat (List.length body) = bufsize o -> 1 <= bufsize o < 2 ^ 64 ->
  exists m' p',
    telegram_parser_read_d0 (Some o) p
      = Some (-6, Some (set_buffer (set_mode o 0) (Some m')), p')
    /\ m' = store (store_list m 0 (ch "/" :: body)) (bufsize o) NUL
    /\ written m' = written m
                      ++ map Z.of_nat (seq 0 (S (List.length body)))
                      ++ [bufsize o]
    /\ rd p' = rest.
Proof.
  intros Hf Ht Hm Hb Hs Hn Hr Hl HB.
  rewrite (read_d0_handshakes o m p Hf Ht Hm Hb). unfold d0_handshake.
  destruct (d0_request_after p) as (r0 & ops0 & Hrd & _).
  destruct (d0_request p) as [sent p1]. cbn [fst snd] in *. subst sent.
  cbn [negb].
  rewrite Hr in Hrd. cbn [arriving map app] in Hrd.
  unfold sys_read at 1. rewrite Hrd.
  change (1 <? 0) with false. change (1 =? 0) with false.
  cbn [cell store orb]. rewrite !Z.eqb_refl. cbn [negb]. cbv iota.
  set (p2 := set_rd p1 _).
  assert (Hne : body <> []) by (intros ->; cbn in Hl; lia).
  rewrite (d0_id_loop_fills (bufsize o) (proj2 HB) body 0
             (store m 0 (ch "/")) p2 rest (S (List.length (rd p2)))
             Hne Hn eq_refl (Z.le_refl 0) ltac:(lia)
             ltac:(unfold p2; cbn [rd set_rd];
                   rewrite length_app, arriving_length; lia)).
  set (m2 := store_list (store m 0 (ch "/")) (0 + 1) body).
  assert (Cl : cell m2 (bufsize o) <> LF).
  { unfold m2. rewrite cell_store_list.
    destruct (Z.leb_spec (0 + 1) (bufsize o)) as [_|]; [|lia].
    destruct (Z.ltb_spec (bufsize o) (0 + 1 + Z.of_nat (List.length body)))
      as [_|]; [|lia].
    cbn [andb]. intros X. apply Hn. rewrite <- X. apply nth_In. lia. }
  unfold d0_classify. change (bufsize (set_mode o 0)) with (bufsize o).
  rewrite wrap64_small by lia.
  destruct (Z.ltb_spec (bufsize o) (bufsize o - 1)) as [|_]; [lia|].
  destruct (Z.eqb_spec (cell m2 (bufsize o)) LF) as [|_]; [contradiction|].
  cbn [andb].
  do 2 eexists. split; [reflexivity|].
  split; [reflexivity|]. split; [|reflexivity].
  cbn [written store]. unfold m2. rewrite written_store_list.
  cbn [written store seq map]. rewrite <- !app_assoc. cbn [app].
  do 3 f_equal. rewrite <- seq_shift, map_map. apply map_ext.
  intros k. lia.
Qed.

Lemma read_d0_id_overruns_witness :
  let r := arriving (ch "/" :: repeat (ch "X") 64) ++ arriving (chars "YZ") in
  exists m' p',
    telegram_parser_read_d0 (Some (session_of (d0_opened r)))
                            (snd (d0_opened r))
      = Some (-6, Some (set_buffer (set_mode (session_of (d0_opened r)) 0)
                          (Some m')), p')
    /\ m' = store (store_list (mkmem (fun _ => 0) []) 0
                     (ch "/" :: repeat (ch "X") 64)) 64 NUL
    /\ written m' = [] ++ map Z.of_nat (seq 0 65) ++ [64]
    /\ rd p' = arriving (chars "YZ").
Proof.
  intros r.
  apply (read_d0_id_overruns (session_of (d0_opened r))
           (mkmem (fun _ => 0) []) (snd (d0_opened r))
           (repeat (ch "X") 64) (arriving (chars "YZ")));
    try reflexivity; try discriminate.
  - intros X. apply repeat_spec in X. discriminate X.
  - cbn. lia.
Defined.
